(** * claude-engineer: the conversation / tool-orchestration core

    A shallow embedding of the Python sources
      - [chat/chat_manager.py]    (ChatManager)
      - [chat/conversation.py]    (Conversation)
      - [models/claude_client.py] (ClaudeClient)
      - [tools/file_operations.py] (FileOperations)
      - [utils/token_tracker.py]  (TokenTracker)
      - [models/tavily_client.py] (TavilyClient, the formatting of results)
      - [utils/config.py]         (Config, the tool names and the prompt)
    Python values are a small JSON-like universe, dictionaries are finite
    maps, exceptions are values of an error type, and methods that mutate
    their object are functions in a state-and-exception monad.  Each Python
    class has a module of its own. *)

From Stdlib Require Import ZArith Ascii String.
From stdpp Require Import gmap strings list fin_maps pretty.
From Equations Require Import Equations.

#[local] Set Warnings "-register-all,-clear-no-such-hyp".

(** ** Python values *)

(** The values that travel between the model backend, the tools and the
    orchestrator are JSON documents. *)
Inductive pyval :=
| VNone
| VBool (b : bool)
| VInt (z : Z)
| VStr (s : string)
| VList (l : list pyval)
| VDict (d : gmap string pyval).

(** Exceptions, with the information [str(e)] prints. [KeyboardInterrupt]
    is the one [BaseException] here that [except Exception] lets through. *)
Inductive exn :=
| KeyError (key : string)
| TypeError (msg : string)
| ValueError (msg : string)
| AttributeError (msg : string)
| NameError (msg : string)
| FileNotFoundError (path : string)
| GenericException (msg : string)
| KeyboardInterrupt.

Definition exn_str (e : exn) : string :=
  match e with
  | KeyError k => "'" +:+ k +:+ "'"
  | TypeError m | ValueError m | AttributeError m | NameError m
  | GenericException m => m
  | FileNotFoundError p => "[Errno 2] No such file or directory: '" +:+ p +:+ "'"
  | KeyboardInterrupt => EmptyString
  end.

Definition is_Exception (e : exn) : bool :=
  match e with KeyboardInterrupt => false | _ => true end.

Inductive result (A : Type) :=
| Ret (a : A)
| Raise (e : exn).
Arguments Ret {A} a.
Arguments Raise {A} e.

(** Truth value of an object, as [if x:] and [any] test it. *)
Definition truthy (v : pyval) : bool :=
  match v with
  | VNone => false
  | VBool b => b
  | VInt z => negb (Z.eqb z 0)
  | VStr s => negb (String.eqb s EmptyString)
  | VList l => match l with [] => false | _ => true end
  | VDict d => negb (bool_decide (d = ∅))
  end.

(** ** Strings *)

(** [needle in hay] for two [str]. *)
Fixpoint str_contains (needle hay : string) : bool :=
  String.prefix needle hay
  || match hay with
     | EmptyString => false
     | String _ rest => str_contains needle rest
     end.

(** [s.startswith(p)] *)
Definition startswith (s p : string) : bool := String.prefix p s.

Definition endswith (s p : string) : bool :=
  String.prefix (String.rev p) (String.rev s).

Definition ascii_lower (c : ascii) : ascii :=
  let n := nat_of_ascii c in
  if (65 <=? n)%nat && (n <=? 90)%nat then ascii_of_nat (n + 32) else c.

(** [s.lower()]; the text is taken to be ASCII. *)
Fixpoint lower (s : string) : string :=
  match s with
  | EmptyString => EmptyString
  | String c rest => String (ascii_lower c) (lower rest)
  end.

(** [sep.join(parts)] for a list of [str]. *)
Fixpoint str_join (sep : string) (parts : list string) : string :=
  match parts with
  | [] => EmptyString
  | [p] => p
  | p :: rest => p +:+ sep +:+ str_join sep rest
  end.

(** [s.strip()]. A [str] is held as the bytes of its UTF-8 encoding (as
    a string literal of this file is), so the white space of ASCII is
    one byte and the other white space of Unicode is a sequence of two
    or three bytes. *)
Definition is_space (c : ascii) : bool :=
  let n := nat_of_ascii c in
  ((9 <=? n)%nat && (n <=? 13)%nat) || ((28 <=? n)%nat && (n <=? 32)%nat).

Definition utf8 (bytes : list nat) : string :=
  fold_right (λ n s, String (ascii_of_nat n) s) EmptyString bytes.

(** U+0085, U+00A0, U+1680, U+2000 to U+200A, U+2028, U+2029, U+202F,
    U+205F and U+3000: with the ASCII ones, the characters that
    [str.strip] takes for white space. *)
Definition wide_spaces : list string :=
  utf8 <$> [ [194; 133]; [194; 160]; [225; 154; 128];
             [226; 128; 128]; [226; 128; 129]; [226; 128; 130]; [226; 128; 131];
             [226; 128; 132]; [226; 128; 133]; [226; 128; 134]; [226; 128; 135];
             [226; 128; 136]; [226; 128; 137]; [226; 128; 138];
             [226; 128; 168]; [226; 128; 169]; [226; 128; 175];
             [226; 129; 159]; [227; 128; 128] ].

(** The text without its leading white space; [spaces] are the
    sequences of more than one byte that count as white space, and
    [skip] counts the bytes of such a sequence still to be passed. *)
Fixpoint lstrip_from (spaces : list string) (skip : nat) (s : string) : string :=
  match s with
  | EmptyString => EmptyString
  | String c rest =>
      match skip with
      | S k => lstrip_from spaces k rest
      | O =>
          if is_space c then lstrip_from spaces 0 rest
          else
            match List.find (λ w, String.prefix w s) spaces with
            | Some w => lstrip_from spaces (String.length w - 1) rest
            | None => s
            end
      end
  end.

Definition lstrip (s : string) : string := lstrip_from wide_spaces 0 s.

(** The same from the end: the text and the sequences are reversed. *)
Definition rstrip (s : string) : string :=
  String.rev (lstrip_from (String.rev <$> wide_spaces) 0 (String.rev s)).

Definition strip (s : string) : string := rstrip (lstrip s).

(** What reading a file in text mode does to the ends of lines: a
    carriage return with the line feed after it, and a carriage return
    alone, come out as one line feed. *)
Fixpoint universal_newlines (s : string) : string :=
  match s with
  | EmptyString => EmptyString
  | String c rest =>
      if Ascii.eqb c (ascii_of_nat 13) then
        match rest with
        | String c' rest' =>
            if Ascii.eqb c' (ascii_of_nat 10)
            then String (ascii_of_nat 10) (universal_newlines rest')
            else String (ascii_of_nat 10) (universal_newlines rest)
        | EmptyString => String (ascii_of_nat 10) EmptyString
        end
      else String c (universal_newlines rest)
  end.

(** [s.replace(old, new)]: every occurrence, left to right, without
    overlap; [skip] counts the characters of a match still to be passed. *)
Fixpoint replace_from (old new : string) (skip : nat) (s : string) : string :=
  match s with
  | EmptyString => EmptyString
  | String c rest =>
      match skip with
      | S k => replace_from old new k rest
      | O =>
          if String.prefix old s
          then new +:+ replace_from old new (String.length old - 1) rest
          else String c (replace_from old new 0 rest)
      end
  end.

(** A byte that continues the UTF-8 sequence of a character. *)
Definition is_continuation (c : ascii) : bool :=
  let n := nat_of_ascii c in (128 <=? n)%nat && (n <=? 191)%nat.

(** [s.replace('', new)]: [new] before every character and at the end. *)
Fixpoint intersperse_str (new s : string) : string :=
  match s with
  | EmptyString => new
  | String c rest =>
      if is_continuation c then String c (intersperse_str new rest)
      else new +:+ String c (intersperse_str new rest)
  end.

Definition str_replace (s old new : string) : string :=
  if String.eqb old EmptyString then intersperse_str new s else replace_from old new 0 s.

(** ** Subscripts, attribute [get], iteration and membership *)

(** [v[key]] for a string key. *)
Definition py_getitem (v : pyval) (key : string) : result pyval :=
  match v with
  | VDict d => match d !! key with Some x => Ret x | None => Raise (KeyError key) end
  | VList _ => Raise (TypeError "list indices must be integers or slices, not str")
  | VStr _ => Raise (TypeError "string indices must be integers")
  | _ => Raise (TypeError "object is not subscriptable")
  end.

(** [v.get(key, dflt)]; only a [dict] has the method. *)
Definition py_get (v : pyval) (key : string) (dflt : pyval) : result pyval :=
  match v with
  | VDict d => Ret (default dflt (d !! key))
  | _ => Raise (AttributeError "object has no attribute 'get'")
  end.

(** The characters of a text, each with the bytes of its sequence. *)
Fixpoint characters (s : string) : list string :=
  match s with
  | EmptyString => []
  | String c rest =>
      let continued :=
        match rest with String c' _ => is_continuation c' | EmptyString => false end in
      match characters rest with
      | following :: others =>
          if continued then String c following :: others
          else String c EmptyString :: following :: others
      | [] => [String c EmptyString]
      end
  end.

Definition chars (s : string) : list pyval := VStr <$> characters s.

(** The elements a [for] loop or a comprehension visits. *)
Definition py_iter (v : pyval) : result (list pyval) :=
  match v with
  | VList l => Ret l
  | VDict d => Ret (VStr <$> (map_to_list d).*1)
  | VStr s => Ret (chars s)
  | _ => Raise (TypeError "object is not iterable")
  end.

Definition is_str (s : string) (v : pyval) : bool :=
  match v with VStr s' => String.eqb s s' | _ => false end.

(** [keyword in v] for a [str] keyword. *)
Definition py_str_in (keyword : string) (v : pyval) : result bool :=
  match v with
  | VStr s => Ret (str_contains keyword s)
  | VList l => Ret (existsb (is_str keyword) l)
  | VDict d => Ret (bool_decide (is_Some (d !! keyword)))
  | _ => Raise (TypeError "argument is not iterable")
  end.

(** [a == b] *)
Fixpoint py_eq (a b : pyval) {struct a} : bool :=
  match a, b with
  | VNone, VNone => true
  | VBool x, VBool y => bool_decide (x = y)
  | VInt x, VInt y => bool_decide (x = y)
  | VBool x, VInt y | VInt y, VBool x => bool_decide ((if x then 1 else 0)%Z = y)
  | VStr x, VStr y => String.eqb x y
  | VList x, VList y =>
      (fix go (x y : list pyval) {struct x} : bool :=
         match x, y with
         | [], [] => true
         | a :: x', b :: y' => py_eq a b && go x' y'
         | _, _ => false
         end) x y
  | VDict x, VDict y =>
      bool_decide (dom x = dom y)
      && map_fold (λ k v acc,
                     acc && match y !! k with Some w => py_eq v w | None => false end)
           true x
  | _, _ => false
  end.

(** [sep.join(items)]: every item has to be a [str]. *)
Fixpoint py_join (sep : string) (items : list pyval) : result string :=
  match items with
  | [] => Ret EmptyString
  | VStr s :: rest =>
      match py_join sep rest with
      | Ret tail => Ret (match rest with [] => s | _ => s +:+ sep +:+ tail end)
      | Raise e => Raise e
      end
  | _ :: _ => Raise (TypeError "sequence item: expected str instance")
  end.

Definition is_dict (v : pyval) : bool :=
  match v with VDict _ => true | _ => false end.

Definition is_dict_or_list (v : pyval) : bool :=
  match v with VDict _ | VList _ => true | _ => false end.

(** ** The state-and-exception monad *)

(** A method body: it reads and writes a state [S] and either returns or
    raises; what it wrote before raising stays written. *)
Definition M (S A : Type) : Type := S → result A * S.

Definition ret {S A} (a : A) : M S A := λ s, (Ret a, s).

Definition raise {S A} (e : exn) : M S A := λ s, (Raise e, s).

Definition bind {S A B} (c : M S A) (k : A → M S B) : M S B :=
  λ s, match c s with
       | (Ret a, s') => k a s'
       | (Raise e, s') => (Raise e, s')
       end.

Notation "'let*' x ':=' c 'in' k" := (bind c (λ x, k))
  (at level 10, x pattern, c at level 100, k at level 200).
Notation "c ';;' k" := (bind c (λ _, k))
  (at level 100, k at level 200, right associativity).

Definition lift_result {S A} (r : result A) : M S A := λ s, (r, s).

Definition gets {S A} (f : S → A) : M S A := λ s, (Ret (f s), s).

Definition modify {S} (f : S → S) : M S unit := λ s, (Ret (), f s).

(** [try: body except Exception as e: handler(e)] *)
Definition try_except {S A} (body : M S A) (handler : exn → M S A) : M S A :=
  λ s, match body s with
       | (Raise e, s') => if is_Exception e then handler e s' else (Raise e, s')
       | r => r
       end.

(** Run a method of a component object inside the object that owns it. *)
Definition zoom {S T A} (get : S → T) (set : T → S → S) (c : M T A) : M S A :=
  λ s, let '(r, t') := c (get s) in (r, set t' s).

(** [for x in xs: acc = body(acc, x)] *)
Fixpoint for_each {S A X} (body : A → X → M S A) (xs : list X) (acc : A) : M S A :=
  match xs with
  | [] => ret acc
  | x :: rest => let* acc' := body acc x in for_each body rest acc'
  end.

(** [[f(x) for x in xs]] *)
Fixpoint map_M {S X Y} (f : X → M S Y) (xs : list X) : M S (list Y) :=
  match xs with
  | [] => ret []
  | x :: rest => let* y := f x in let* ys := map_M f rest in ret (y :: ys)
  end.

(** [any(p(x) for x in xs)], which stops at the first true element. *)
Fixpoint any_result {X} (p : X → result bool) (xs : list X) : result bool :=
  match xs with
  | [] => Ret false
  | x :: rest =>
      match p x with
      | Ret true => Ret true
      | Ret false => any_result p rest
      | Raise e => Raise e
      end
  end.

(** Name lookup in a module: a name the module neither imports nor
    defines raises [NameError]. *)
Definition load_global {S} (module_names : list string) (name : string) : M S unit :=
  if bool_decide (name ∈ module_names) then ret ()
  else raise (NameError ("name '" +:+ name +:+ "' is not defined")).

(** ** The data model *)

(** Every message the program builds carries one of the two role strings
    ['user'] and ['assistant']. *)
Inductive role := User | Assistant.

#[global] Instance role_eq_dec : EqDecision role.
Proof. solve_decision. Defined.

(** [{"role": ..., "content": ...}]; the content is a [str] or a list of
    typed blocks. *)
Record message := Message { msg_role : role; msg_content : pyval }.

Inductive content_block :=
| TextBlock (text : string)
| ToolUseBlock (id name : string) (input : pyval)
| OtherBlock (type : string).

(** What the model backend answers: content blocks and the token usage. *)
Record response := Response {
  resp_content : list content_block;
  input_tokens : Z;
  output_tokens : Z;
}.

Inductive fs_event :=
| FsRead (path : string)
| FsWrite (path : string) (data : string).

Inductive display :=
| Info (text : string)
| Error (text : string)
| Success (text : string)
| AssistantResponse (text : string)
| ToolResult (tool_name text : string)
| FilesInContext (text : string)
| TokenUsageTable
| ClearConsole
| WelcomeMessage.

(** What lies outside the Python objects: the files (keyed by their
    resolved path), the file accesses and the console output so far, and
    the number of requests sent to the model backend. *)
Record World := mkWorld {
  fs : gmap (list string) string;
  fs_log : list fs_event;
  console : list display;
  model_calls : nat;
}.

Definition set_fs f (w : World) := mkWorld f (fs_log w) (console w) (model_calls w).
Definition set_fs_log l (w : World) := mkWorld (fs w) l (console w) (model_calls w).
Definition set_console c (w : World) := mkWorld (fs w) (fs_log w) c (model_calls w).
Definition set_model_calls n (w : World) := mkWorld (fs w) (fs_log w) (console w) n.

(** [utils/console_utils.py]: each [display_*] function prints a panel. *)
Definition show (d : display) : M World unit :=
  modify (λ w, set_console (console w ++ [d]) w).

(** A method of an object that also acts on the world runs on the pair. *)
Definition on_self {T A} : M T A → M (T * World) A :=
  zoom fst (λ t s, (t, snd s)).
Definition on_world {T A} : M World A → M (T * World) A :=
  zoom snd (λ w s, (fst s, w)).

(** The services outside the program. *)
Record Externals := mkExternals {
  (** [os.getcwd()], an absolute path *)
  cwd : string;
  (** [Config]: the two settings read from the environment *)
  MAX_CONTINUATION_ITERATIONS : nat;
  CONTINUATION_EXIT_PHRASE : string;
  (** the remote model: request number, message list, system prompt; the
      tool catalog sent along is a constant of the program *)
  backend : nat → list message → string → string + response;
  (** [ImageProcessor.encode_image_to_base64]: MIME type and data, or [None] *)
  encode_image : string → option (string * string);
  (** [json.dumps(v)] and [json.dumps(v, indent=2)] *)
  json_dumps : option nat → pyval → string;
  (** [str(v)] *)
  py_str : pyval → string;
  (** [re.findall] for a pattern with one group and with two groups *)
  re_findall : string → string → list string;
  re_findall_pairs : string → string → list (string * string);
}.

Definition nl : string := String (ascii_of_nat 10) EmptyString.
Definition cr : string := String (ascii_of_nat 13) EmptyString.
Definition dquote : string := String (ascii_of_nat 34) EmptyString.

(** How an f-string prints a value. *)
Definition fmt (E : Externals) (v : pyval) : string :=
  match v with VStr s => s | _ => py_str E v end.

(** ** [os.path] *)

Module OsPath.

Fixpoint split_slash (s : string) : list string :=
  match s with
  | EmptyString => [EmptyString]
  | String c rest =>
      if Ascii.eqb c "/" then EmptyString :: split_slash rest
      else match split_slash rest with
           | h :: t => String c h :: t
           | [] => [String c EmptyString]
           end
  end.

Definition resolve_step (stack : list string) (component : string) : list string :=
  if String.eqb component EmptyString || String.eqb component "." then stack
  else if String.eqb component ".." then removelast stack
  else stack ++ [component].

(** The file an absolute path names: its components once [.] and [..]
    are followed (symbolic links are not modelled). *)
Definition resolve (path : string) : list string :=
  fold_left resolve_step (split_slash path) [].

(** [os.path.join(a, b)] on POSIX. *)
Definition join (a : string) (b : pyval) : result string :=
  match b with
  | VStr b =>
      Ret (if startswith b "/" then b
           else if String.eqb a EmptyString || endswith a "/" then a +:+ b
           else a +:+ "/" +:+ b)
  | _ => Raise (TypeError "expected str, bytes or os.PathLike object")
  end.

Definition join_str (a b : string) : string :=
  if startswith b "/" then b
  else if String.eqb a EmptyString || endswith a "/" then a +:+ b
  else a +:+ "/" +:+ b.

(** [path] names a file at or below the directory [root]. *)
Definition within (root path : string) : Prop :=
  resolve root `prefix_of` resolve path.

End OsPath.

(** ** [chat/conversation.py] *)

Module Conversation.

Record t := mk {
  history : list message;
  file_contents : gmap string string;
}.

Definition init : t := mk [] ∅.

Definition add_message (r : role) (content : pyval) : M t unit :=
  modify (λ self, mk (history self ++ [Message r content]) (file_contents self)).

Definition keywords : list string :=
  [ "File contents updated in system prompt";
    "File created and added to system prompt";
    "has been read and stored in the system prompt" ].

(** The condition of the list comprehension:
    [content.get('type') != 'tool_result' or
     (content.get('type') == 'tool_result' and
      not any(keyword in content.get('output', '') for keyword in [...]))] *)
Definition kept (content : pyval) : result bool :=
  match py_get content "type" VNone with
  | Raise e => Raise e
  | Ret type =>
      if negb (is_str "tool_result" type) then Ret true
      else
        match py_get content "output" (VStr EmptyString) with
        | Raise e => Raise e
        | Ret output =>
            match any_result (λ keyword, py_str_in keyword output) keywords with
            | Raise e => Raise e
            | Ret found => Ret (negb found)
            end
        end
  end.

Fixpoint filter_content (blocks : list pyval) : result (list pyval) :=
  match blocks with
  | [] => Ret []
  | content :: rest =>
      match kept content with
      | Raise e => Raise e
      | Ret keep =>
          match filter_content rest with
          | Raise e => Raise e
          | Ret rest' => Ret (if keep then content :: rest' else rest')
          end
      end
  end.

Fixpoint filter_messages (messages : list message) : result (list message) :=
  match messages with
  | [] => Ret []
  | m :: rest =>
      let here :=
        match msg_content m with
        | VList blocks =>
            match filter_content blocks with
            | Raise e => Raise e
            | Ret [] => Ret []
            | Ret filtered_content => Ret [Message (msg_role m) (VList filtered_content)]
            end
        | _ => Ret [m]
        end in
      match here with
      | Raise e => Raise e
      | Ret kept_here =>
          match filter_messages rest with
          | Raise e => Raise e
          | Ret rest' => Ret (kept_here ++ rest')
          end
      end
  end.

Definition filter_history : M t (list message) :=
  λ self, (filter_messages (history self), self).

Definition reset : M t unit := modify (λ _, mk [] ∅).

(** [self.file_contents[file_path] = content] *)
Definition update_file_contents (file_path content : string) : M t unit :=
  modify (λ self, mk (history self) (<[file_path := content]> (file_contents self))).



(** [role.capitalize()] *)
Definition capitalize (r : role) : string :=
  match r with User => "User" | Assistant => "Assistant" end.

Section Markdown.
Context (E : Externals).

(** What [save_to_file] writes for one item of a content list; a text
    block without a ['text'] key raises. *)
Definition export_item (item : pyval) : result string :=
  match item with
  | VDict d =>
      if is_str "image" (default VNone (d !! "type")) then
        Ret ("[Image data not displayed]" +:+ nl +:+ nl)
      else if is_str "text" (default VNone (d !! "type")) then
        match d !! "text" with
        | Some text => Ret (fmt E text +:+ nl +:+ nl)
        | None => Raise (KeyError "text")
        end
      else Ret EmptyString
  | _ => Ret (fmt E item +:+ nl +:+ nl)
  end.

(** The text written so far, and the exception that cut the writing
    short, if one did. *)
Fixpoint export_items (items : list pyval) : string * option exn :=
  match items with
  | [] => (EmptyString, None)
  | item :: rest =>
      match export_item item with
      | Raise e => (EmptyString, Some e)
      | Ret text => let '(more, failure) := export_items rest in (text +:+ more, failure)
      end
  end.

Definition export_message (m : message) : string * option exn :=
  let header := "## " +:+ capitalize (msg_role m) +:+ nl +:+ nl in
  match msg_content m with
  | VList items => let '(text, failure) := export_items items in (header +:+ text, failure)
  | content => (header +:+ fmt E content +:+ nl +:+ nl, None)
  end.

Fixpoint export_messages (messages : list message) : string * option exn :=
  match messages with
  | [] => (EmptyString, None)
  | m :: rest =>
      match export_message m with
      | (text, Some e) => (text, Some e)
      | (text, None) =>
          let '(more, failure) := export_messages rest in (text +:+ more, failure)
      end
  end.

Definition fence : string := "```".

(** One section per cached file, in the order of [inserted]: the keys
    of [self.file_contents] in the order in which the dictionary got
    them, which is the order of [items()] and which the finite map of
    the model does not record. *)
Definition export_files (files : gmap string string) (inserted : list string)
  : string :=
  String.concat EmptyString
    ((λ '(file_path, content),
        "### " +:+ file_path +:+ nl +:+ nl +:+ fence +:+ nl +:+ content
        +:+ nl +:+ fence +:+ nl +:+ nl)
     <$> omap (λ file_path, (file_path,.) <$> files !! file_path) inserted).

(** The document: header, messages, file contents. *)
Definition export_document (self : t) (inserted : list string)
  : string * option exn :=
  match export_messages (history self) with
  | (text, Some e) => ("# Chat History" +:+ nl +:+ nl +:+ text, Some e)
  | (text, None) =>
      ("# Chat History" +:+ nl +:+ nl +:+ text
       +:+ "## File Contents" +:+ nl +:+ nl
       +:+ export_files (file_contents self) inserted,
       None)
  end.

(** [save_to_file]; [timestamp] is the formatted [datetime.now()] and
    [inserted] the keys of the cache in the order of their insertion
    (see [export_files]). The [with] block closes the file also when
    the writing is cut short, so what was written by then is in the
    file. *)
Definition save_to_file (timestamp : string) (inserted : list string)
  : M (t * World) string :=
  let filename := "chat_history_" +:+ timestamp +:+ ".md" in
  let* self := gets fst in
  let '(written, failure) := export_document self inserted in
  on_world (modify (λ w,
    set_fs (<[OsPath.resolve (OsPath.join_str (cwd E) filename) := written]> (fs w))
      (set_fs_log (fs_log w ++ [FsWrite filename written]) w))) ;;
  match failure with
  | Some e => raise e
  | None => ret filename
  end.

End Markdown.

End Conversation.

(** ** [utils/token_tracker.py] *)

Module TokenTracker.

(** [token_usage[model] = {'input': i, 'output': o}] *)
Record t := mk { token_usage : gmap string (Z * Z) }.

Definition init : t :=
  mk {[ "main_model" := (0, 0)%Z; "tool_checker" := (0, 0)%Z;
        "code_editor" := (0, 0)%Z; "code_execution" := (0, 0)%Z ]}.

Definition update_token_usage (model : string) (input output : Z)
  : M (t * World) unit :=
  let* self := gets fst in
  match token_usage self !! model with
  | Some (i, o) =>
      on_self (modify (λ self,
        mk (<[model := ((i + input)%Z, (o + output)%Z)]> (token_usage self))))
  | None => on_world (show (Error ("Error: Unknown model '" +:+ model +:+ "'")))
  end.

Definition display_token_usage : M (t * World) unit :=
  on_world (show TokenUsageTable).

Definition reset_token_usage : M (t * World) unit :=
  on_self (modify (λ self, mk ((λ _, (0, 0)%Z) <$> token_usage self))).

(** Every name an instance answers to: the attributes [__init__] sets
    and the methods of the class. *)
Definition names : list string :=
  [ "console"; "token_usage"; "cost_per_1k_tokens";
    "update_token_usage"; "get_total_tokens"; "calculate_cost";
    "display_token_usage"; "reset_token_usage"; "update_cost_per_1k_tokens" ].

(** [get_total_tokens]: the two sums over the models. *)
Definition get_total_tokens (self : t) : Z * Z :=
  (map_fold (λ _ usage total, (total + fst usage)%Z) 0%Z (token_usage self),
   map_fold (λ _ usage total, (total + snd usage)%Z) 0%Z (token_usage self)).

End TokenTracker.

(** ** [tools/code_execution.py] *)

Module CodeExecutor.

(** The process table, by process id. *)
Record t := mk { running_processes : gset Z }.

Definition names : list string :=
  [ "venv_path"; "activate_script"; "running_processes"; "claude_client";
    "setup_virtual_environment"; "execute_code"; "analyze_code_execution";
    "stop_process"; "install_package"; "list_installed_packages"; "cleanup" ].

End CodeExecutor.

(** [obj.name]: a name the instance does not answer to raises. *)
Definition getattr {S} (class_name : string) (names : list string) (name : string)
  : M S unit :=
  if bool_decide (name ∈ names) then ret ()
  else raise (AttributeError
                ("'" +:+ class_name +:+ "' object has no attribute '" +:+ name +:+ "'")).

(** ** [models/claude_client.py] *)

Module ClaudeClient.

Record t := mk {
  code_editor_memory : list string;
  code_editor_files : gset string;
}.

Definition init : t := mk [] ∅.

Definition placeholder : message :=
  Message Assistant (VStr "Continuing the conversation...").

(** One pass of the [for message in messages] loop; the accumulator is
    [(alternating_messages, last_role)]. *)
Definition alternate (acc : list message * option role) (m : message)
  : list message * option role :=
  let '(alternating_messages, last_role) := acc in
  if bool_decide (Some (msg_role m) ≠ last_role) then
    (alternating_messages ++ [m], Some (msg_role m))
  else if bool_decide (msg_role m = User) then
    (alternating_messages ++ [placeholder; m], Some User)
  else
    (alternating_messages, last_role).

Definition ensure_alternating_roles (messages : list message) : list message :=
  fst (fold_left alternate messages ([], None)).

Definition text_of (block : content_block) : string :=
  match block with TextBlock text => text | _ => EmptyString end.

(** The text blocks of a reply, joined without a separator. *)
Definition joined_text (content : list content_block) : string :=
  String.concat EmptyString (text_of <$> content).

Section WithExternals.
Context (E : Externals).

Definition generate_response (messages : list message) (system_prompt : string)
  : M World response :=
  try_except
    (let messages := ensure_alternating_roles messages in
     let* request := gets model_calls in
     modify (set_model_calls (S request)) ;;
     match backend E request messages system_prompt with
     | inr r => ret r
     | inl error => raise (GenericException error)
     end)
    (λ e, raise (GenericException ("Error generating response: " +:+ exn_str e))).

Definition generate_edit_instructions
    (file_path file_content : string) (instructions project_context : pyval)
  : M World string :=
  try_except
    (let messages :=
       [ Message User (VStr
           ("Generate edit instructions for the file '" +:+ file_path
            +:+ "'. The project context is: " +:+ fmt E project_context
            +:+ nl +:+ nl +:+ "Here's the current content of the file:"
            +:+ nl +:+ nl +:+ file_content
            +:+ nl +:+ nl +:+ "Instructions for editing:" +:+ nl
            +:+ fmt E instructions)) ] in
     let* response :=
       generate_response messages
         "You are an AI assistant tasked with generating edit instructions. Generate specific edit instructions using <SEARCH> and <REPLACE> tags." in
     ret (joined_text (resp_content response)))
    (λ e, raise (GenericException
                   ("Error generating edit instructions: " +:+ exn_str e))).

End WithExternals.

Definition reset_code_editor_memory : M t unit := modify (λ _, mk [] ∅).

(** [update_code_editor_memory]: append, and keep the last five. *)
Definition update_code_editor_memory (new_memory : string) : M t unit :=
  modify (λ self,
    let memory := code_editor_memory self ++ [new_memory] in
    mk (if 5 <? length memory then drop (length memory - 5) memory else memory)
       (code_editor_files self)).

Definition update_code_editor_files (file_path : string) : M t unit :=
  modify (λ self, mk (code_editor_memory self) ({[file_path]} ∪ code_editor_files self)).

End ClaudeClient.

(** ** [tools/file_operations.py] *)

Module FileOperations.

(** [__init__] sets [console] and [file_contents]. The method
    [edit_and_apply_multiple] also reads [self.claude_client], which no
    code of the program assigns: [claude_client] is [false] in every
    instance the program builds, and [true] stands for an instance that
    was handed the session's [ClaudeClient]. *)
Record t := mk {
  file_contents : gmap string pyval;
  claude_client : bool;
}.

Definition init : t := mk ∅ false.

(** [with open(path, 'r') as f: f.read()]: the text of the file with
    the ends of lines as text mode gives them. The file is found by its
    resolved path: directories are not modelled, and every directory
    that the path walks through is taken to exist. *)
Definition read_file (path : string) : M World string :=
  λ w, match fs w !! OsPath.resolve path with
       | Some data =>
           (Ret (universal_newlines data),
            set_fs_log (fs_log w ++ [FsRead path]) w)
       | None => (Raise (FileNotFoundError path), w)
       end.

(** [with open(path, 'w') as f: f.write(data)]; directories are not
    modelled and the write succeeds. *)
Definition write_file (path data : string) : M World unit :=
  modify (λ w, set_fs (<[OsPath.resolve path := data]> (fs w))
                 (set_fs_log (fs_log w ++ [FsWrite path data]) w)).

Definition set_file_contents (path : string) (content : pyval) : M t unit :=
  modify (λ self, mk (<[path := content]> (file_contents self)) (claude_client self)).

Definition edit_result (path : pyval) (status message : string) : pyval :=
  VDict {[ "path" := path; "status" := VStr status; "message" := VStr message ]}.

Section WithExternals.
Context (E : Externals).

Definition apply_edits (content edit_instructions : string) : string :=
  let search_replace_pairs :=
    re_findall_pairs E "<SEARCH>(.*?)</SEARCH>\s*<REPLACE>(.*?)</REPLACE>"
      edit_instructions in
  fold_left (λ content '(search, replace),
               str_replace content (strip search) (strip replace))
    search_replace_pairs content.

(** One pass of [for file in files]; it returns the entry appended to
    [results]. *)
Definition edit_file (generations_dir : string) (project_context file : pyval)
  : M (t * World) pyval :=
  try_except
    (let* relative_path := lift_result (py_getitem file "path") in
     let* full_path := lift_result (OsPath.join generations_dir relative_path) in
     let* instructions := lift_result (py_getitem file "instructions") in
     if negb (startswith full_path generations_dir) then
       raise (ValueError ("File " +:+ fmt E relative_path
                          +:+ " is not within the _generations directory"))
     else
       let* current_content := on_world (read_file full_path) in
       let* has_client := gets (λ s, claude_client (fst s)) in
       (if has_client then ret ()
        else raise (AttributeError
               "'FileOperations' object has no attribute 'claude_client'")) ;;
       let* edit_instructions :=
         on_world (ClaudeClient.generate_edit_instructions E
                     (fmt E relative_path) current_content instructions
                     project_context) in
       let new_content := apply_edits current_content edit_instructions in
       on_world (write_file full_path new_content) ;;
       on_self (set_file_contents full_path (VStr new_content)) ;;
       ret (edit_result relative_path "success" "File edited successfully"))
    (λ e,
       let* path := lift_result (py_getitem file "path") in
       ret (edit_result path "error" (exn_str e))).

Definition edit_and_apply_multiple (files project_context : pyval)
  : M (t * World) (list pyval) :=
  let generations_dir := OsPath.join_str (cwd E) "_generations" in
  let* files := lift_result (py_iter files) in
  map_M (edit_file generations_dir project_context) files.

(** [update_file_contents(file_path, content)] *)
Definition update_file_contents (file_path : string) (content : pyval) : M t unit :=
  set_file_contents
    (OsPath.join_str (OsPath.join_str (cwd E) "_generations") file_path) content.

End WithExternals.

Definition reset_file_contents : M t unit :=
  modify (λ self, mk ∅ (claude_client self)).

Definition display_files_in_context : M (t * World) unit :=
  let* self := gets fst in
  on_world (show (FilesInContext
    (if bool_decide (file_contents self = ∅)
     then "No files in context. Read, create, or edit files to add."
     else str_join nl (map_to_list (file_contents self)).*1))).

(** The path segments that [read_multiple_files] passes over. *)
Definition excluded_words : list string :=
  [ "__pycache__"; "venv"; ".git"; "site-packages"; "code_execution_env" ].

(** [any(w in full_path for w in [...])] *)
Definition excluded (full_path : string) : bool :=
  existsb (λ w, str_contains w full_path) excluded_words.

(** [with open(path, 'w') as f: f.write(content)]: opening creates or
    empties the file, and writing a value that is not a [str] raises. *)
Definition write_value (path : string) (content : pyval) : M World unit :=
  match content with
  | VStr data => write_file path data
  | _ => write_file path EmptyString ;;
         raise (TypeError "write() argument must be str")
  end.

(** One pass of the loop of [create_files]; [os.makedirs] is not
    modelled (see [write_file]). *)
Definition create_file (generations_dir : string) (file : pyval)
  : M (t * World) pyval :=
  try_except
    (let* relative_path := lift_result (py_getitem file "path") in
     let* path := lift_result (OsPath.join generations_dir relative_path) in
     let* content := lift_result (py_getitem file "content") in
     on_world (write_value path content) ;;
     on_self (set_file_contents path content) ;;
     ret (VDict {[ "path" := VStr path; "status" := VStr "success" ]}))
    (λ e,
       let* relative_path := lift_result (py_getitem file "path") in
       ret (VDict {[ "path" := relative_path; "status" := VStr "error";
                     "message" := VStr (exn_str e) ]})).

(** One pass of the loop of [read_multiple_files]; [results] is the
    dictionary so far. *)
Definition read_one (generations_dir : string) (results : gmap string pyval)
    (path : pyval) : M (t * World) (gmap string pyval) :=
  match path with
  | VStr path =>
      let full_path := OsPath.join_str generations_dir path in
      if excluded full_path then ret results
      else
        try_except
          (let* content := on_world (read_file full_path) in
           on_self (set_file_contents full_path (VStr content)) ;;
           ret (<[path := VDict {[ "status" := VStr "success";
                                   "content" := VStr content ]}]> results))
          (λ e, ret (<[path := VDict {[ "status" := VStr "error";
                                        "message" := VStr (exn_str e) ]}]> results))
  | _ => raise (TypeError "expected str, bytes or os.PathLike object")
  end.

Section MoreWithExternals.
Context (E : Externals).

Definition create_files (files : pyval) : M (t * World) pyval :=
  let generations_dir := OsPath.join_str (cwd E) "_generations" in
  let* files := lift_result (py_iter files) in
  let* results := map_M (create_file generations_dir) files in
  ret (VDict {[ "results" := VList results ]}).

Definition read_multiple_files (paths : pyval) : M (t * World) pyval :=
  let generations_dir := OsPath.join_str (cwd E) "_generations" in
  let* paths := lift_result (py_iter paths) in
  let* results := for_each (read_one generations_dir) paths ∅ in
  ret (VDict results).

End MoreWithExternals.

End FileOperations.

(** ** [models/tavily_client.py] *)

Module TavilyClient.

(** [{'title': item.get('title'), 'url': item.get('url'),
      'content': item.get('content')}] *)
Definition format_item (item : pyval) : result pyval :=
  match py_get item "title" VNone with
  | Raise e => Raise e
  | Ret title =>
      match py_get item "url" VNone with
      | Raise e => Raise e
      | Ret url =>
          match py_get item "content" VNone with
          | Raise e => Raise e
          | Ret content =>
              Ret (VDict {[ "title" := title; "url" := url; "content" := content ]})
          end
      end
  end.

Fixpoint format_items (items : list pyval) : result (list pyval) :=
  match items with
  | [] => Ret []
  | item :: rest =>
      match format_item item with
      | Raise e => Raise e
      | Ret formatted =>
          match format_items rest with
          | Raise e => Raise e
          | Ret more => Ret (formatted :: more)
          end
      end
  end.

Definition _format_search_results (response : pyval) : result (list pyval) :=
  match py_get response "results" (VList []) with
  | Raise e => Raise e
  | Ret items =>
      match py_iter items with
      | Raise e => Raise e
      | Ret items => format_items items
      end
  end.

End TavilyClient.

(** ** [utils/config.py] *)

Module Config.

(** The names of the tools in [Config.tools], the catalog sent to the
    model. *)
Definition tool_names : list string :=
  [ "create_folders"; "scan_folder"; "create_files"; "edit_and_apply_multiple";
    "execute_code"; "stop_process"; "read_multiple_files"; "list_files";
    "tavily_search" ].

End Config.

(** ** [chat/chat_manager.py] *)

(** What a tool handler can reach. *)
Record Tools := mkTools {
  t_file_ops : FileOperations.t;
  t_code_executor : CodeExecutor.t;
  t_world : World;
}.

(** The [ChatManager] instance, with the world it runs in. *)
Record Session := mkSession {
  conversation : Conversation.t;
  token_tracker : TokenTracker.t;
  claude_client : ClaudeClient.t;
  automode : bool;
  file_ops : FileOperations.t;
  code_executor : CodeExecutor.t;
  world : World;
}.

Definition set_conversation c (s : Session) :=
  mkSession c (token_tracker s) (claude_client s) (automode s)
    (file_ops s) (code_executor s) (world s).
Definition set_token_tracker k (s : Session) :=
  mkSession (conversation s) k (claude_client s) (automode s)
    (file_ops s) (code_executor s) (world s).
Definition set_claude_client c (s : Session) :=
  mkSession (conversation s) (token_tracker s) c (automode s)
    (file_ops s) (code_executor s) (world s).
Definition set_automode a (s : Session) :=
  mkSession (conversation s) (token_tracker s) (claude_client s) a
    (file_ops s) (code_executor s) (world s).
Definition set_file_ops f (s : Session) :=
  mkSession (conversation s) (token_tracker s) (claude_client s) (automode s)
    f (code_executor s) (world s).
Definition set_code_executor c (s : Session) :=
  mkSession (conversation s) (token_tracker s) (claude_client s) (automode s)
    (file_ops s) c (world s).
Definition set_world w (s : Session) :=
  mkSession (conversation s) (token_tracker s) (claude_client s) (automode s)
    (file_ops s) (code_executor s) w.

Definition with_conversation {A} : M Conversation.t A → M Session A :=
  zoom conversation set_conversation.
Definition with_claude_client {A} : M ClaudeClient.t A → M Session A :=
  zoom claude_client set_claude_client.
Definition with_world {A} : M World A → M Session A :=
  zoom world set_world.
Definition with_token_tracker {A} : M (TokenTracker.t * World) A → M Session A :=
  zoom (λ s, (token_tracker s, world s))
       (λ p s, set_world (snd p) (set_token_tracker (fst p) s)).
Definition with_file_ops {A} : M (FileOperations.t * World) A → M Session A :=
  zoom (λ s, (file_ops s, world s))
       (λ p s, set_world (snd p) (set_file_ops (fst p) s)).
Definition with_tools {A} : M Tools A → M Session A :=
  zoom (λ s, mkTools (file_ops s) (code_executor s) (world s))
       (λ t s, set_world (t_world t)
                 (set_code_executor (t_code_executor t)
                    (set_file_ops (t_file_ops t) s))).

(** [{"retry": ..., "files_to_retry": [...]}] *)
Record RetryDecision := mkRetryDecision {
  retry : bool;
  files_to_retry : list pyval;
}.

Module ChatManager.

Definition init (w : World) : Session :=
  mkSession Conversation.init TokenTracker.init ClaudeClient.init false
    FileOperations.init (CodeExecutor.mk ∅) w.

(** The names [chat_manager.py] imports or defines. *)
Definition module_names : list string :=
  [ "asyncio"; "os"; "json"; "traceback"; "Console"; "Panel"; "Markdown";
    "Conversation"; "ClaudeClient"; "TavilyClient"; "FileOperations";
    "CodeExecutor"; "ImageProcessor";
    "get_user_input"; "display_assistant_response"; "display_code";
    "display_error"; "display_info"; "display_success";
    "display_file_contents"; "display_tool_result";
    "confirm_action"; "clear_console"; "display_welcome_message";
    "TokenTracker"; "Config"; "ChatManager" ].

Definition placeholder : message :=
  Message Assistant (VStr "Continuing the conversation...").

(** One pass of the [for message in messages] loop; the accumulator is
    [(alternating_messages, last_role)]. *)
Definition alternate (acc : list message * option role) (m : message)
  : list message * option role :=
  let '(alternating_messages, last_role) := acc in
  if bool_decide (Some (msg_role m) ≠ last_role) then
    (alternating_messages ++ [m], Some (msg_role m))
  else if bool_decide (msg_role m = User) then
    (alternating_messages ++ [placeholder; m], Some User)
  else
    (alternating_messages, last_role).

Definition ensure_alternating_roles (messages : list message) : list message :=
  fst (fold_left alternate messages ([], None)).

Definition retry_phrases : list string :=
  [ "need to retry"; "should try again"; "another attempt is necessary";
    "errors that need addressing"; "requires further editing" ].

(** [any(result.get("is_error", False) for result in edit_results)] *)
Definition errors_present (edit_results : pyval) : result bool :=
  match py_iter edit_results with
  | Raise e => Raise e
  | Ret results =>
      any_result (λ result,
                    match py_get result "is_error" (VBool false) with
                    | Ret v => Ret (truthy v)
                    | Raise e => Raise e
                    end) results
  end.

(** [any(phrase in tool_checker_response.lower() for phrase in retry_phrases)] *)
Definition phrase_present (tool_checker_response : string) : bool :=
  existsb (λ phrase, str_contains phrase (lower tool_checker_response))
    retry_phrases.

(** [[result["path"] for result in edit_results if "path" in result]] *)
Fixpoint paths_of (results : list pyval) : result (list pyval) :=
  match results with
  | [] => Ret []
  | r :: rest =>
      match py_str_in "path" r with
      | Raise e => Raise e
      | Ret has_path =>
          match (if has_path then py_getitem r "path" else Ret VNone) with
          | Raise e => Raise e
          | Ret path =>
              match paths_of rest with
              | Raise e => Raise e
              | Ret paths => Ret (if has_path then path :: paths else paths)
              end
          end
      end
  end.

Section WithExternals.
Context (E : Externals).
(** the handlers of the tools other than [edit_and_apply_multiple], by
    tool name, applied to the argument the dispatcher extracts; they are
    methods of [FileOperations], [CodeExecutor] and [TavilyClient], and
    none of them is handed the conversation or the token tracker *)
Context (handler : string → pyval → M Tools pyval).

Definition decide_retry (tool_checker_response : string) (edit_results : pyval)
  : M Session RetryDecision :=
  let* errors := lift_result (errors_present edit_results) in
  let* retry_decision :=
    if errors || phrase_present tool_checker_response then
      load_global module_names "re" ;;
      let file_paths :=
        re_findall E
          ("(?:retry|edit again|fix).*?['\" +:+ dquote +:+ "](.*?)['\" +:+ dquote +:+ "]")
          tool_checker_response in
      (* [list(set(file_paths))]: the order of a set is not specified *)
      let files := VStr <$> remove_dups file_paths in
      let* files :=
        match files with
        | [] => let* results := lift_result (py_iter edit_results) in
                lift_result (paths_of results)
        | _ => ret files
        end in
      ret (mkRetryDecision true files)
    else ret (mkRetryDecision false []) in
  (if retry retry_decision then
     let* names := lift_result (py_join ", " (files_to_retry retry_decision)) in
     with_world (show (Info ("Decided to retry editing for files: " +:+ names)))
   else with_world (show (Success "No retry needed"))) ;;
  ret retry_decision.


(** A tool result in the error envelope. *)
Definition error_envelope (content : string) : pyval :=
  VDict {[ "is_error" := VBool true; "content" := VStr content ]}.

Definition execute_tool (tool_name : string) (tool_input : pyval)
  : M Session pyval :=
  try_except
    (if String.eqb tool_name "create_folders" then
       let* paths := lift_result (py_getitem tool_input "paths") in
       with_tools (handler "create_folders" paths)
     else if String.eqb tool_name "edit_and_apply_multiple" then
       let* files := lift_result (py_getitem tool_input "files") in
       let* project_context := lift_result (py_getitem tool_input "project_context") in
       let* results :=
         with_file_ops (FileOperations.edit_and_apply_multiple E files project_context) in
       ret (VList results)
     else if String.eqb tool_name "execute_code" then
       let* code := lift_result (py_getitem tool_input "code") in
       with_tools (handler "execute_code" code)
     else if String.eqb tool_name "stop_process" then
       let* process_id := lift_result (py_getitem tool_input "process_id") in
       with_tools (handler "stop_process" process_id)
     else if String.eqb tool_name "read_multiple_files" then
       let* paths := lift_result (py_getitem tool_input "paths") in
       with_tools (handler "read_multiple_files" paths)
     else if String.eqb tool_name "list_files" then
       let* path := lift_result (py_get tool_input "path" (VStr "./_generations")) in
       with_tools (handler "list_files" path)
     else ret (error_envelope ("Unknown tool: " +:+ tool_name)))
    (λ e, ret (error_envelope
                 ("Error executing " +:+ tool_name +:+ ": " +:+ exn_str e))).

(** [Config.update_system_prompt] *)
Definition update_system_prompt (current_iteration max_iterations : option nat)
  : string :=
  let base_prompt :=
    "You are Claude, an AI assistant created by Anthropic to be helpful, harmless, and honest. Your primary function is to assist users with coding tasks, answer questions, and provide guidance on software development topics." in
  match current_iteration, max_iterations with
  | Some i, Some m =>
      base_prompt +:+ nl +:+ "Current iteration: " +:+ pretty i +:+ "/" +:+ pretty m
  | _, _ => base_prompt
  end.

(** The [for content_block in response.content] loop: the text so far,
    the completion flag and the tool calls. *)
Definition split_step (acc : string * bool * list (string * string * pyval))
    (block : content_block) : string * bool * list (string * string * pyval) :=
  let '(assistant_response, exit_continuation, tool_uses) := acc in
  match block with
  | TextBlock text =>
      (assistant_response +:+ text,
       if str_contains (CONTINUATION_EXIT_PHRASE E) text then true
       else exit_continuation,
       tool_uses)
  | ToolUseBlock id name input =>
      (assistant_response, exit_continuation, tool_uses ++ [(id, name, input)])
  | OtherBlock _ => acc
  end.

Definition tool_use_message (tool_use_id tool_name : string) (tool_input : pyval)
  : message :=
  Message Assistant
    (VList [ VDict {[ "type" := VStr "tool_use"; "id" := VStr tool_use_id;
                      "name" := VStr tool_name; "input" := tool_input ]} ]).

(** The text the orchestrator stores for a tool result. *)
Definition tool_result_text (tool_result : pyval) : string :=
  if is_dict_or_list tool_result then json_dumps E None tool_result
  else py_str E tool_result.

Definition tool_result_message (tool_use_id text : string) (is_error : pyval)
  : message :=
  Message User
    (VList [ VDict {[ "type" := VStr "tool_result";
                      "tool_use_id" := VStr tool_use_id;
                      "content" := VList [ VDict {[ "type" := VStr "text";
                                                     "text" := VStr text ]} ];
                      "is_error" := is_error ]} ]).

(** The [except] clause of the follow-up step. *)
Definition follow_up_failed (assistant_response : string) (e : exn)
  : M Session string :=
  let error_message := "Error in tool response: " +:+ exn_str e in
  with_world (show (Error error_message)) ;;
  ret (assistant_response +:+ nl +:+ nl +:+ error_message).

(** The retry of an edit, once [decide_retry] has asked for it. *)
Definition retry_edit (assistant_response : string) (tool_input : pyval)
    (retry_decision : RetryDecision) : M Session string :=
  let* names := lift_result (py_join ", " (files_to_retry retry_decision)) in
  with_world (show (Info ("AI has decided to retry editing for files: " +:+ names))) ;;
  let* files := lift_result (py_getitem tool_input "files") in
  let* files := lift_result (py_iter files) in
  let* retry_files :=
    map_M (λ file, let* path := lift_result (py_getitem file "path") in
                   ret (file, existsb (py_eq path) (files_to_retry retry_decision)))
      files in
  let retry_files := (filter (λ p, snd p = true) retry_files).*1 in
  let* project_context := lift_result (py_getitem tool_input "project_context") in
  let* results :=
    with_file_ops
      (FileOperations.edit_and_apply_multiple E (VList retry_files) project_context) in
  (* [retry_result, retry_console_output = ...] unpacks the list *)
  match results with
  | [retry_result; retry_console_output] =>
      with_world (show (Info (fmt E retry_console_output))) ;;
      ret (assistant_response +:+ nl +:+ nl +:+ "Retry result: "
           +:+ json_dumps E (Some 2) retry_result)
  | _ => raise (ValueError "wrong number of values to unpack (expected 2)")
  end.

(** The tool call itself: two tools are called directly, the others
    go through [execute_tool]. *)
Definition run_tool (tool_name : string) (tool_input : pyval) : M Session pyval :=
  if String.eqb tool_name "create_files" then
    let* files := lift_result (py_get tool_input "files" (VList [tool_input])) in
    with_tools (handler "create_files" files)
  else if String.eqb tool_name "tavily_search" then
    let* query := lift_result (py_getitem tool_input "query") in
    with_tools (handler "tavily_search" query)
  else execute_tool tool_name tool_input.

Definition is_error_of (tool_result : pyval) : pyval :=
  match tool_result with
  | VDict d => default (VBool false) (d !! "is_error")
  | _ => VBool false
  end.

Definition display_result (tool_name : string) (tool_result : pyval)
  : M Session unit :=
  if is_dict tool_result
     && match tool_result with
        | VDict d => truthy (default VNone (d !! "is_error"))
        | _ => false
        end
  then
    let* content := lift_result (py_getitem tool_result "content") in
    with_world (show (Error (fmt E content)))
  else
    with_world (show (ToolResult tool_name
      (if is_dict_or_list tool_result then json_dumps E (Some 2) tool_result
       else py_str E tool_result))).

(** The follow-up model call of one tool call, and what hangs on it.
    The commentary is appended to [assistant_response] before
    [decide_retry] runs, so the [except] clause sees it. *)
Definition follow_up (messages : list message) (system_prompt : string)
    (assistant_response tool_name : string) (tool_input tool_result : pyval)
  : M Session string :=
  let* checked :=
    try_except
      (let* tool_response :=
         with_world (ClaudeClient.generate_response E messages system_prompt) in
       with_token_tracker
         (TokenTracker.update_token_usage "tool_checker"
            (input_tokens tool_response) (output_tokens tool_response)) ;;
       ret (inr (ClaudeClient.joined_text (resp_content tool_response))))
      (λ e, ret (inl e)) in
  match checked with
  | inl e => follow_up_failed assistant_response e
  | inr tool_checker_response =>
      let assistant_response :=
        assistant_response +:+ nl +:+ nl +:+ tool_checker_response in
      try_except
        (if String.eqb tool_name "edit_and_apply_multiple" then
           let* retry_decision := decide_retry tool_checker_response tool_result in
           if retry retry_decision then
             retry_edit assistant_response tool_input retry_decision
           else
             with_world (show (Success "Claude has decided not to retry editing")) ;;
             ret assistant_response
         else ret assistant_response)
        (follow_up_failed assistant_response)
  end.

(** The first half of one pass of [for tool_use in tool_uses]: the
    tool call and its two entries in the turn buffer. *)
Definition call_tool (current_conversation : list message)
    (tool_use : string * string * pyval)
  : M Session (pyval * list message) :=
  let '(tool_use_id, tool_name, tool_input) := tool_use in
  with_world (show (Info ("Tool Used: " +:+ tool_name))) ;;
  with_world (show (Info ("Tool Input: " +:+ json_dumps E (Some 2) tool_input))) ;;
  let* tool_result := run_tool tool_name tool_input in
  display_result tool_name tool_result ;;
  let current_conversation :=
    current_conversation ++ [tool_use_message tool_use_id tool_name tool_input] in
  let current_conversation :=
    current_conversation
    ++ [tool_result_message tool_use_id (tool_result_text tool_result)
          (is_error_of tool_result)] in
  with_file_ops (on_self (FileOperations.update_file_contents E tool_name tool_input)) ;;
  ret (tool_result, current_conversation).

(** One pass of [for tool_use in tool_uses]; the accumulator is
    [(current_conversation, messages, assistant_response)]. *)
Definition tool_round (filtered_conversation_history : list message)
    (system_prompt : string)
    (acc : list message * list message * string)
    (tool_use : string * string * pyval)
  : M Session (list message * list message * string) :=
  let '(current_conversation, _, assistant_response) := acc in
  let* called := call_tool current_conversation tool_use in
  let '(tool_result, current_conversation) := called in
  let messages := filtered_conversation_history ++ current_conversation in
  let* assistant_response :=
    follow_up messages system_prompt assistant_response
      (snd (fst tool_use)) (snd tool_use) tool_result in
  ret (current_conversation, messages, assistant_response).

Definition image_content (mime_type data user_input : string) : pyval :=
  VList [ VDict {[ "type" := VStr "image";
                   "source" := VDict {[ "type" := VStr "base64";
                                        "media_type" := VStr mime_type;
                                        "data" := VStr data ]} ]};
          VDict {[ "type" := VStr "text";
                   "text" := VStr ("User input for image: " +:+ user_input) ]} ].

(** The first lines of a turn: the new user message goes to the turn
    buffer and to the history; [None] is the early return. *)
Definition begin_turn (user_input : string) (image_path : option string)
  : M Session (option (list message)) :=
  match image_path with
  | Some path =>
      if String.eqb path EmptyString then
        with_conversation (Conversation.add_message User (VStr user_input)) ;;
        ret (Some [Message User (VStr user_input)])
      else
        with_world (show (Info ("Processing image at path: " +:+ path))) ;;
        match encode_image E path with
        | Some (mime_type, data) =>
            let content := image_content mime_type data user_input in
            with_conversation (Conversation.add_message User content) ;;
            with_world (show (Success "Image message added to conversation history")) ;;
            ret (Some [Message User content])
        | None => ret None
        end
  | None =>
      with_conversation (Conversation.add_message User (VStr user_input)) ;;
      ret (Some [Message User (VStr user_input)])
  end.

Definition chat_with_claude (user_input : string) (image_path : option string)
    (current_iteration max_iterations : option nat) : M Session (string * bool) :=
  let* started := begin_turn user_input image_path in
  match started with
  | None =>
      ret ("Error processing the image. Please try again with a different image.",
           false)
  | Some current_conversation =>
      let* filtered_conversation_history :=
        with_conversation Conversation.filter_history in
      let messages :=
        ensure_alternating_roles
          (filtered_conversation_history ++ current_conversation) in
      let system_prompt := update_system_prompt current_iteration max_iterations in
      let* answer :=
        try_except
          (let* response :=
             with_world (ClaudeClient.generate_response E messages system_prompt) in
           with_token_tracker
             (TokenTracker.update_token_usage "main_model"
                (input_tokens response) (output_tokens response)) ;;
           ret (inr response))
          (λ e,
             let error_message :=
               "Error communicating with the AI: " +:+ exn_str e in
             with_world (show (Error error_message)) ;;
             ret (inl error_message)) in
      match answer with
      | inl error_message => ret (error_message, false)
      | inr response =>
          let '(assistant_response, exit_continuation, tool_uses) :=
            fold_left split_step (resp_content response)
              (EmptyString, false, []) in
          with_world (show (AssistantResponse assistant_response)) ;;
          with_file_ops FileOperations.display_files_in_context ;;
          let* after_tools :=
            for_each (tool_round filtered_conversation_history system_prompt)
              tool_uses (current_conversation, messages, assistant_response) in
          let '(current_conversation, messages, assistant_response) :=
            after_tools in
          (* [messages.append(...)] and [conversation_history = messages]
             act on names local to the call; the [add_message] line that
             would store the reply is a comment in the source *)
          let messages :=
            if String.eqb assistant_response EmptyString then messages
            else messages ++ [Message Assistant (VStr assistant_response)] in
          let conversation_history := messages in
          with_token_tracker TokenTracker.display_token_usage ;;
          ret (assistant_response, exit_continuation)
      end
  end.

(** *** Autonomous mode *)

(** The variables of the [while] loop. *)
Record LoopVars := mkLoopVars {
  iteration_count : nat;
  error_count : nat;
  user_input : string;
}.

Inductive Control :=
| Continue (vars : LoopVars)   (* back to the loop condition *)
| Stop.                        (* the condition failed, or [break] *)

Definition max_errors : nat := 3.

Definition next_step_prompt : string :=
  "Continue with the next step. Or STOP by saying 'AUTOMODE_COMPLETE' if you think you've achieved the results established in the original request.".

(** The orchestrator as the loop calls it:
    [chat_with_claude(user_input, current_iteration=..., max_iterations=...)] *)
Definition Orchestrator : Type :=
  string → option nat → option nat → M Session (string * bool).

(** The loop condition and one pass of the body. *)
Definition iteration (chat : Orchestrator) (max_iterations : nat) (vars : LoopVars)
  : M Session Control :=
  let* running := gets automode in
  if running && (iteration_count vars <? max_iterations) then
    let* outcome :=
      try_except
        (let* reply :=
           chat (user_input vars) (Some (iteration_count vars + 1))
             (Some max_iterations) in
         ret (inr reply))
        (λ e, ret (inl e)) in
    match outcome with
    | inl e =>
        with_world (show (Error ("Error in automode iteration: " +:+ exn_str e))) ;;
        let error_count := error_count vars + 1 in
        if max_errors <=? error_count then
          with_world (show (Error ("Exiting automode due to " +:+ pretty max_errors
                                   +:+ " consecutive errors."))) ;;
          modify (set_automode false) ;;
          ret Stop
        else
          ret (Continue (mkLoopVars (iteration_count vars) error_count
                           (user_input vars)))
    | inr (response, exit_continuation) =>
        let error_count := 0 in
        let* user_input :=
          if exit_continuation
             || str_contains (CONTINUATION_EXIT_PHRASE E) response
          then
            with_world (show (Success "Automode completed.")) ;;
            modify (set_automode false) ;;
            ret (user_input vars)
          else
            with_world (show (Info ("Continuation iteration "
                                    +:+ pretty (iteration_count vars + 1)
                                    +:+ " completed. Press Ctrl+C to exit automode. "))) ;;
            ret next_step_prompt in
        let iteration_count := iteration_count vars + 1 in
        (if max_iterations <=? iteration_count then
           with_world (show (Error "Max iterations reached. Exiting automode.")) ;;
           modify (set_automode false)
         else ret ()) ;;
        ret (Continue (mkLoopVars iteration_count error_count user_input))
    end
  else ret Stop.

(** What is left of the loop: iterations still allowed, and errors
    still allowed before the next one. *)
Definition fuel (max_iterations : nat) (vars : LoopVars) : nat :=
  4 * (max_iterations - iteration_count vars) + (max_errors - error_count vars).

Definition inspect {A} (x : A) : {y : A | x = y} := exist _ x eq_refl.

(** [while self.automode and iteration_count < max_iterations: ...] *)
Equations? automode_loop (chat : Orchestrator) (max_iterations : nat)
    (vars : LoopVars) (s : Session) : result unit * Session
    by wf (fuel max_iterations vars) lt :=
  automode_loop chat max_iterations vars s
    with inspect (iteration chat max_iterations vars s) := {
    | exist _ (Ret (Continue vars'), s') H =>
        automode_loop chat max_iterations vars' s'
    | exist _ (Ret Stop, s') _ => (Ret (), s')
    | exist _ (Raise e, s') _ => (Raise e, s') }.
Proof.
  revert H. unfold fuel, iteration.
  cbv beta iota delta [bind gets ret try_except modify with_world zoom show].
  unfold max_errors.
  destruct (automode s); [|discriminate].
  destruct (iteration_count vars <? max_iterations) eqn:Hlt; [|discriminate].
  apply Nat.ltb_lt in Hlt. cbn [andb].
  destruct (chat _ _ _ s) as [[[response exit_continuation]|e'] s1].
  - destruct (exit_continuation || _);
      destruct (max_iterations <=? _);
      intros [= <- _]; cbn [iteration_count error_count]; lia.
  - destruct (is_Exception e'); [|discriminate].
    destruct (3 <=? error_count vars + 1) eqn:Hle; [discriminate|].
    apply Nat.leb_gt in Hle.
    intros [= <- _]; cbn [iteration_count error_count]; lia.
Qed.

(** [except KeyboardInterrupt: ...] *)
Definition except_KeyboardInterrupt {A} (body handler : M Session A)
  : M Session A :=
  λ s, match body s with
       | (Raise KeyboardInterrupt, s') => handler s'
       | r => r
       end.

(** [handle_automode] from [self.automode = True] on; [max_iterations]
    is the number parsed from the command (or the configured default)
    and [goal] the line the user then types. *)
Definition handle_automode (chat : Orchestrator) (max_iterations : nat)
    (goal : string) : M Session unit :=
  modify (set_automode true) ;;
  with_world (show (Info ("Entering automode with " +:+ pretty max_iterations
    +:+ " iterations. Please provide the goal of the automode."))) ;;
  with_world (show (Info "Press Ctrl+C at any time to exit the automode loop.")) ;;
  except_KeyboardInterrupt
    (automode_loop chat max_iterations (mkLoopVars 0 0 goal))
    (with_world (show (Error (nl +:+ "Automode interrupted by user. Exiting automode."))) ;;
     modify (set_automode false) ;;
     with_conversation
       (Conversation.add_message Assistant
          (VStr "Automode interrupted. How can I assist you further?"))) ;;
  with_world (show (Success "Exited automode. Returning to regular chat.")).

(** *** Reset *)

(** [self.token_tracker.reset()] and [self.code_executor.reset()] name
    a method [reset]; the statement is the attribute lookup, and
    neither class has a body to run under that name. *)
Definition reset_conversation : M Session unit :=
  with_conversation Conversation.reset ;;
  getattr "TokenTracker" TokenTracker.names "reset" ;;
  with_file_ops (on_self FileOperations.reset_file_contents) ;;
  with_claude_client ClaudeClient.reset_code_editor_memory ;;
  getattr "CodeExecutor" CodeExecutor.names "reset" ;;
  with_world (show (Success "Conversation history, token counts, file contents, code editor memory, and code editor files have been reset.")) ;;
  with_token_tracker TokenTracker.display_token_usage ;;
  with_world (show ClearConsole) ;;
  with_world (show WelcomeMessage).

(** *** Regular chat *)

Definition handle_regular_chat (user_input : string) : M Session unit :=
  let* reply := chat_with_claude user_input None None None in
  with_world (show (AssistantResponse (fst reply))).

End WithExternals.

End ChatManager.

(** The session after one more request to the model backend. *)
Definition count_request (s : Session) : Session :=
  set_world (set_model_calls (S (model_calls (world s))) (world s)) s.

(** ** A sample session *)

Module Sample.

(** A backend that is down, and one that answers every request with
    the same text. *)
Definition backend_down : nat → list message → string → string + response :=
  λ _ _ _, inl "connection refused".

Definition backend_hello : nat → list message → string → string + response :=
  λ _ _ _, inr (Response [TextBlock "hello"] 12 3).

Definition externals (backend : nat → list message → string → string + response)
  : Externals :=
  {| cwd := "/home/user/project";
     MAX_CONTINUATION_ITERATIONS := 10;
     CONTINUATION_EXIT_PHRASE := "AUTOMODE_COMPLETE";
     backend := backend;
     encode_image := λ _, None;
     json_dumps := λ _ _, "{}";
     py_str := λ _, "None";
     re_findall := λ _ _, [];
     re_findall_pairs := λ _ _, [] |}.

(** Every other tool reports an empty listing. *)
Definition handler : string → pyval → M Tools pyval :=
  λ _ _, ret (VDict {[ "status" := VStr "success"; "files" := VList [] ]}).

(** One file next to the [_generations] directory, none inside it. *)
Definition files : World :=
  mkWorld {[ ["home"; "user"; "project"; "secret.txt"] := "TOP SECRET" ]} [] [] 0.

Definition session : Session := ChatManager.init files.

(** An orchestrator that sends one request and raises, on every call. *)
Definition raising_orchestrator : ChatManager.Orchestrator :=
  λ _ _ _, modify count_request ;; raise (GenericException "boom").

Definition list_files_call : string * string * pyval :=
  ("toolu_1", "list_files", VDict ∅).

Definition failed_edit : pyval :=
  VDict {[ "path" := VStr "app.py"; "status" := VStr "error";
           "message" := VStr "disk full"; "is_error" := VBool true ]}.

(** A turn buffer with the user message, and the buffer and the
    session after the sample tool call. *)
Definition turn_buffer : list message := [Message User (VStr "list the files")].

Definition turn_buffer_after_call : list message :=
  turn_buffer
  ++ [ ChatManager.tool_use_message "toolu_1" "list_files" (VDict ∅);
       ChatManager.tool_result_message "toolu_1" "{}" (VBool false) ].

Definition session_after_call : Session :=
  snd (ChatManager.call_tool (externals backend_down) handler turn_buffer
         list_files_call session).

End Sample.

(** ** Notions the statements below use *)

(** Adjacent messages never share a role. *)
Fixpoint strictly_alternating (l : list message) : Prop :=
  match l with
  | m1 :: ((m2 :: _) as rest) =>
      msg_role m1 ≠ msg_role m2 ∧ strictly_alternating rest
  | _ => True
  end.

(** [only_placeholders_inserted input output]: [output] is [input] with
    placeholder messages inserted and nothing else changed. *)
Inductive only_placeholders_inserted : list message → list message → Prop :=
| opi_nil : only_placeholders_inserted [] []
| opi_keep m l l' :
    only_placeholders_inserted l l' →
    only_placeholders_inserted (m :: l) (m :: l')
| opi_insert l l' :
    only_placeholders_inserted l l' →
    only_placeholders_inserted l (ChatManager.placeholder :: l').

(** The messages of [l] without each assistant message that comes
    directly after another assistant message; [prev] is the role of the
    message before [l]. *)
Fixpoint without_repeated_assistant (prev : option role) (l : list message)
  : list message :=
  match l with
  | [] => []
  | m :: rest =>
      if bool_decide (prev = Some Assistant ∧ msg_role m = Assistant)
      then without_repeated_assistant (Some Assistant) rest
      else m :: without_repeated_assistant (Some (msg_role m)) rest
  end.

(** What the repair loop appends for the messages [l] when the message
    before them had role [last_role]. *)
Fixpoint repaired (last_role : option role) (l : list message) : list message :=
  match l with
  | [] => []
  | m :: rest =>
      if bool_decide (Some (msg_role m) ≠ last_role) then
        m :: repaired (Some (msg_role m)) rest
      else if bool_decide (msg_role m = User) then
        ChatManager.placeholder :: m :: repaired (Some User) rest
      else repaired last_role rest
  end.

Definition first_role_differs (last_role : option role) (l : list message) : Prop :=
  match l with
  | [] => True
  | m :: _ => Some (msg_role m) ≠ last_role
  end.

(** The session after one more panel on the console. *)
Definition print (d : display) (s : Session) : Session :=
  set_world (set_console (console (world s) ++ [d]) (world s)) s.

(** An entry of an edit-result list as the specification describes it:
    exactly the keys [path], [status] and [message], a status that is
    ['success'] or ['error'], and no [is_error]. *)
Definition well_formed_edit_result (r : pyval) : Prop :=
  ∃ d : gmap string pyval,
    r = VDict d
    ∧ dom d = {[ "path"; "status"; "message" ]}
    ∧ (d !! "status" = Some (VStr "success") ∨ d !! "status" = Some (VStr "error"))
    ∧ d !! "is_error" = None.

(** The session after [add_message]. *)
Definition remember (m : message) (s : Session) : Session :=
  set_conversation
    (Conversation.mk (Conversation.history (conversation s) ++ [m])
       (Conversation.file_contents (conversation s))) s.

(** A computation that leaves the [Conversation] object as it found it. *)
Definition keeps_conversation {A} (c : M Session A) : Prop :=
  ∀ s, conversation (snd (c s)) = conversation s.

(** A message as the turns and the autonomous mode store them: plain
    text, or an image with the text that came with it. *)
Inductive stored_by_turns : message → Prop :=
| stored_text r text : stored_by_turns (Message r (VStr text))
| stored_image mime_type data user_input :
    stored_by_turns
      (Message User (ChatManager.image_content mime_type data user_input)).

Definition is_user_message (m : message) : bool :=
  bool_decide (msg_role m = User).

(** The last [n] elements of a list, [l[-n:]]. *)
Definition last_n {A} (n : nat) (l : list A) : list A :=
  drop (length l - n) l.







(** The tool call a content block stands for, if it is one. *)
Definition tool_use_of (block : content_block) : option (string * string * pyval) :=
  match block with
  | ToolUseBlock id name input => Some (id, name, input)
  | _ => None
  end.

(** The block is a text block with the exit phrase in it. *)
Definition says_exit (phrase : string) (block : content_block) : bool :=
  match block with
  | TextBlock text => str_contains phrase text
  | _ => false
  end.

(** The tool names that [chat_with_claude] and [execute_tool] compare
    the name of a tool call with. *)
Definition tools_with_a_branch : list string :=
  [ "create_files"; "tavily_search"; "create_folders"; "edit_and_apply_multiple";
    "execute_code"; "stop_process"; "read_multiple_files"; "list_files" ].

(** The key that [execute_tool] subscripts first, by tool. *)
Definition first_argument : list (string * string) :=
  [ ("create_folders", "paths"); ("edit_and_apply_multiple", "files");
    ("execute_code", "code"); ("stop_process", "process_id");
    ("read_multiple_files", "paths") ].

(** [formatted] is the entry of a search result for the item [item]:
    the three fields, each [None] when the item lacks it. *)
Definition formatted_from (item formatted : pyval) : Prop :=
  ∃ d : gmap string pyval,
    item = VDict d
    ∧ formatted = VDict {[ "title" := default VNone (d !! "title");
                           "url" := default VNone (d !! "url");
                           "content" := default VNone (d !! "content") ]}.

(** ** More sample data *)

Module Scenario.

(** Services with a working directory and a result of the
    search-and-replace pattern of choice. *)
Definition externals (directory : string) (pairs : list (string * string))
  : Externals :=
  {| cwd := directory;
     MAX_CONTINUATION_ITERATIONS := 10;
     CONTINUATION_EXIT_PHRASE := "AUTOMODE_COMPLETE";
     backend := Sample.backend_hello;
     encode_image := λ _, None;
     json_dumps := λ _ _, "{}";
     py_str := λ _, "None";
     re_findall := λ _ _, [];
     re_findall_pairs := λ _ _, pairs |}.


(** A backend that asks for a web search and names no query. *)
Definition backend_search : nat → list message → string → string + response :=
  λ _ _ _, inr (Response [ToolUseBlock "toolu_1" "tavily_search" (VDict ∅)] 20 5).

(** Orchestrators that send one request and then report completion,
    report progress, or are interrupted. *)
Definition completing_orchestrator : ChatManager.Orchestrator :=
  λ _ _ _, modify count_request ;; ret ("All done. AUTOMODE_COMPLETE", false).

Definition working_orchestrator : ChatManager.Orchestrator :=
  λ _ _ _, modify count_request ;; ret ("working on it", false).

Definition interrupted_orchestrator : ChatManager.Orchestrator :=
  λ _ _ _, modify count_request ;; raise KeyboardInterrupt.

(** A message whose one block carries a marker under ['output']. *)
Definition marked_message : message :=
  Message User
    (VList [ VDict {[ "type" := VStr "tool_result";
                      "output" := VStr "File contents updated in system prompt" ]} ]).

(** A conversation whose cache got [b.py] before [a.py]. *)
Definition saved_conversation : Conversation.t :=
  Conversation.mk [Message User (VStr "hi")]
    {[ "b.py" := "x = 1"; "a.py" := "y = 2" ]}.

Definition new_file : pyval :=
  VDict {[ "path" := VStr "notes/todo.txt"; "content" := VStr "buy milk" ]}.

Definition foreign_file : gmap string pyval :=
  {[ "path" := VStr "/home/user/.bashrc"; "content" := VStr "echo hi" ]}.

Definition search_response : gmap string pyval :=
  {[ "query" := VStr "rocq";
     "results" := VList [ VDict {[ "title" := VStr "Rocq"; "score" := VInt 1 ]} ] ]}.

End Scenario.

(** * Alternation repair *)

Section Alternation.

Lemma fold_alternate_repaired l out last_role :
  fst (fold_left ChatManager.alternate l (out, last_role))
  = out ++ repaired last_role l.
Proof.
  revert out last_role.
  induction l as [|m l IH]; intros out last_role; cbn [fold_left repaired].
  - by rewrite app_nil_r.
  - unfold ChatManager.alternate at 2.
    destruct (bool_decide (Some (msg_role m) ≠ last_role));
      [|destruct (bool_decide (msg_role m = User))];
      rewrite IH, <- ?app_assoc; reflexivity.
Qed.

Lemma ensure_alternating_roles_repaired l :
  ChatManager.ensure_alternating_roles l = repaired None l.
Proof. apply fold_alternate_repaired. Qed.

(** The client's copy of the routine is the same function. *)
Lemma ClaudeClient_ensure_alternating_roles l :
  ClaudeClient.ensure_alternating_roles l = ChatManager.ensure_alternating_roles l.
Proof. reflexivity. Qed.

Lemma repaired_alternates l : ∀ last_role,
  first_role_differs last_role (repaired last_role l)
  ∧ strictly_alternating (repaired last_role l).
Proof.
  induction l as [|m l IH]; intros last_role; cbn [repaired]; [done|].
  destruct (decide (Some (msg_role m) = last_role)) as [Hsame|Hdiff].
  - rewrite bool_decide_eq_false_2 by (intros Hn; by apply Hn).
    case_bool_decide as Huser; [|apply IH].
    destruct (IH (Some User)) as [Hfirst Halt].
    rewrite Huser in Hsame. subst last_role.
    split; [done|]. cbn [strictly_alternating]. split; [by rewrite Huser|].
    destruct (repaired (Some User) l) as [|m2 rest]; [done|].
    split; [|done]. cbn in Hfirst. congruence.
  - rewrite bool_decide_eq_true_2 by done.
    destruct (IH (Some (msg_role m))) as [Hfirst Halt].
    split; [done|]. cbn [strictly_alternating].
    destruct (repaired (Some (msg_role m)) l) as [|m2 rest]; [done|].
    split; [|done]. cbn in Hfirst. congruence.
Qed.

Lemma repaired_fixes_alternating l : ∀ last_role,
  first_role_differs last_role l → strictly_alternating l →
  repaired last_role l = l.
Proof.
  induction l as [|m l IH]; intros last_role Hfirst Halt; cbn [repaired]; [done|].
  cbn in Hfirst. rewrite bool_decide_eq_true_2 by done.
  f_equal. apply IH.
  - destruct l as [|m2 rest]; [done|]. cbn. destruct Halt. congruence.
  - destruct l as [|m2 rest]; [done|]. by destruct Halt.
Qed.

(** C6. For every message list, the output of [ensure_alternating_roles]
    strictly alternates between the user and the assistant role, and
    applying [ensure_alternating_roles] to its own output gives the same
    list again (idempotence); this holds for the orchestrator's routine
    and for the client's copy of it. *)
Theorem ensure_alternating_roles_alternates_idempotent (messages : list message) :
  (strictly_alternating (ChatManager.ensure_alternating_roles messages)
   ∧ ChatManager.ensure_alternating_roles
       (ChatManager.ensure_alternating_roles messages)
     = ChatManager.ensure_alternating_roles messages)
  ∧ (strictly_alternating (ClaudeClient.ensure_alternating_roles messages)
     ∧ ClaudeClient.ensure_alternating_roles
         (ClaudeClient.ensure_alternating_roles messages)
       = ClaudeClient.ensure_alternating_roles messages).
Proof.
  change ClaudeClient.ensure_alternating_roles
    with ChatManager.ensure_alternating_roles.
  rewrite !ensure_alternating_roles_repaired.
  destruct (repaired_alternates messages None) as [Hfirst Halt].
  assert (repaired None (repaired None messages) = repaired None messages)
    by by apply repaired_fixes_alternating.
  done.
Qed.

Lemma repaired_inserts_placeholders l : ∀ last_role,
  only_placeholders_inserted
    (without_repeated_assistant last_role l) (repaired last_role l).
Proof.
  induction l as [|m l IH]; intros last_role;
    cbn [repaired without_repeated_assistant]; [constructor|].
  destruct (decide (Some (msg_role m) = last_role)) as [Hsame|Hdiff].
  - rewrite (bool_decide_eq_false_2 (_ ≠ _)) by (intros Hn; by apply Hn).
    destruct (decide (msg_role m = User)) as [Huser|Huser].
    + rewrite (bool_decide_eq_true_2 (_ = User)) by done.
      rewrite bool_decide_eq_false_2 by (rewrite Huser; by intros [_ ?]).
      rewrite Huser. apply opi_insert, opi_keep, IH.
    + rewrite (bool_decide_eq_false_2 (_ = User)) by done.
      assert (msg_role m = Assistant) as Hm by (by destruct (msg_role m)).
      rewrite Hm in Hsame. subst last_role.
      rewrite bool_decide_eq_true_2 by done. apply IH.
  - rewrite (bool_decide_eq_true_2 (_ ≠ _)) by done.
    rewrite bool_decide_eq_false_2 by (intros [-> Hm]; by rewrite Hm in Hdiff).
    apply opi_keep, IH.
Qed.

(** C5, as the code has it. For every message list, the output of
    [ensure_alternating_roles] (the orchestrator's routine and the
    client's copy alike) is the input without each assistant message that
    comes directly after another assistant message, in the original
    order, with placeholder messages inserted and no other change. *)
Theorem ensure_alternating_roles_keeps_all_but_repeats (messages : list message) :
  only_placeholders_inserted
    (without_repeated_assistant None messages)
    (ChatManager.ensure_alternating_roles messages)
  ∧ only_placeholders_inserted
      (without_repeated_assistant None messages)
      (ClaudeClient.ensure_alternating_roles messages).
Proof.
  change ClaudeClient.ensure_alternating_roles
    with ChatManager.ensure_alternating_roles.
  rewrite ensure_alternating_roles_repaired.
  split; apply repaired_inserts_placeholders.
Qed.

(** C5, read literally, fails: of two assistant messages in a
    row the second is deleted, so the output is not the input with
    placeholders inserted. *)
Lemma ensure_alternating_roles_deletes_message :
  ¬ only_placeholders_inserted
      [Message Assistant (VStr "first"); Message Assistant (VStr "second")]
      (ChatManager.ensure_alternating_roles
         [Message Assistant (VStr "first"); Message Assistant (VStr "second")]).
Proof.
  change (ChatManager.ensure_alternating_roles _)
    with [Message Assistant (VStr "first")].
  intros H. inversion H as [|m l l' H'|]; subst. inversion H'.
Qed.

End Alternation.

(** * History filtering *)

Section Filtering.

(** A message whose content is not a list is passed on as it is. *)
Lemma filter_messages_non_list m rest :
  (∀ blocks, msg_content m ≠ VList blocks) →
  Conversation.filter_messages (m :: rest)
  = match Conversation.filter_messages rest with
    | Ret rest' => Ret (m :: rest')
    | Raise e => Raise e
    end.
Proof.
  intros Hplain. cbn [Conversation.filter_messages].
  destruct (msg_content m) as [| | | |blocks|] eqn:Hcontent; try reflexivity.
  by destruct (Hplain blocks).
Qed.

(** A message whose content list is empty after filtering is left out. *)
Lemma filter_messages_omits_empty r blocks rest :
  Conversation.filter_content blocks = Ret [] →
  Conversation.filter_messages (Message r (VList blocks) :: rest)
  = Conversation.filter_messages rest.
Proof.
  intros H. cbn [Conversation.filter_messages msg_content]. rewrite H.
  by destruct (Conversation.filter_messages rest).
Qed.

Lemma any_result_pure {X} (f : X → bool) (xs : list X) :
  any_result (λ x, Ret (f x)) xs = Ret (existsb f xs).
Proof.
  induction xs as [|x xs IH]; [done|].
  cbn [any_result existsb]. destruct (f x); [done|]. by rewrite IH.
Qed.

(** A tool-result block is dropped when the text under its key
    ['output'] holds one of the markers. *)
Lemma kept_output_marker (d : gmap string pyval) (output : string) :
  d !! "type" = Some (VStr "tool_result") →
  d !! "output" = Some (VStr output) →
  Conversation.kept (VDict d)
  = Ret (negb (existsb (λ keyword, str_contains keyword output)
                 Conversation.keywords)).
Proof.
  intros Htype Hout.
  unfold Conversation.kept, py_get. rewrite Htype, Hout. cbn [default is_str].
  change (String.eqb "tool_result" "tool_result") with true. cbn [negb].
  change (any_result _ Conversation.keywords)
    with (any_result (λ keyword, Ret (str_contains keyword output))
            Conversation.keywords).
  by rewrite any_result_pure.
Qed.

(** A block with no ['output'] key is kept, whatever else it holds:
    none of the markers occurs in the empty default. *)
Lemma kept_without_output (d : gmap string pyval) :
  d !! "output" = None → Conversation.kept (VDict d) = Ret true.
Proof.
  intros Hout. unfold Conversation.kept, py_get. rewrite Hout.
  destruct (negb _); reflexivity.
Qed.

Lemma filter_messages_app a b a' b' :
  Conversation.filter_messages a = Ret a' →
  Conversation.filter_messages b = Ret b' →
  Conversation.filter_messages (a ++ b) = Ret (a' ++ b').
Proof.
  revert a'. induction a as [|m a IH]; intros a' Ha Hb.
  - injection Ha as <-. exact Hb.
  - cbn [app Conversation.filter_messages] in *.
    destruct (match msg_content m with VList _ => _ | _ => _ end)
      as [here|]; [|discriminate].
    destruct (Conversation.filter_messages a) as [rest|]; [|discriminate].
    injection Ha as <-. rewrite (IH rest eq_refl Hb). by rewrite app_assoc.
Qed.

(** C3. The orchestrator stores the text of a tool result under the key
    ['content'] of the block; [filter_history] looks under ['output'],
    finds nothing, and keeps the block whatever its text is, also when
    the text holds one of the three markers: wherever the stored message
    stands in the history, it stands in the filtered history. *)
Theorem filter_history_keeps_orchestrator_tool_results
    (self : Conversation.t) (before after before' after' : list message)
    (tool_use_id text : string) (is_error : pyval) :
  let stored := ChatManager.tool_result_message tool_use_id text is_error in
  Conversation.history self = before ++ [stored] ++ after →
  Conversation.filter_messages before = Ret before' →
  Conversation.filter_messages after = Ret after' →
  Conversation.filter_history self = (Ret (before' ++ [stored] ++ after'), self).
Proof.
  intros stored Hhistory Hbefore Hafter.
  unfold Conversation.filter_history. rewrite Hhistory.
  assert (Conversation.filter_messages [stored] = Ret [stored]) as Hstored.
  { unfold stored, ChatManager.tool_result_message.
    cbn [Conversation.filter_messages Conversation.filter_content msg_content].
    rewrite kept_without_output by reflexivity. reflexivity. }
  by rewrite (filter_messages_app _ _ before' ([stored] ++ after') Hbefore
                (filter_messages_app _ _ _ _ Hstored Hafter)).
Qed.

End Filtering.

(** * The retry decision *)

Section RetryDecision.
Context (E : Externals).

Lemma errors_present_found (results : list pyval) (d : gmap string pyval) :
  Forall (λ r, is_dict r = true) results →
  VDict d ∈ results →
  d !! "is_error" = Some (VBool true) →
  ChatManager.errors_present (VList results) = Ret true.
Proof.
  unfold ChatManager.errors_present. cbn [py_iter].
  induction results as [|r results IH]; intros Hdicts Hin Herr.
  - by apply elem_of_nil in Hin.
  - apply Forall_cons in Hdicts as [Hr Hdicts].
    destruct r as [| | | | |d']; try discriminate Hr.
    cbn [any_result py_get].
    destruct (truthy (default (VBool false) (d' !! "is_error"))) eqn:Htruthy;
      [done|].
    apply elem_of_cons in Hin as [[= <-]|Hin]; [|by apply IH].
    by rewrite Herr in Htruthy.
Qed.

(** Once the retry branch is entered, by an error entry or by a phrase,
    the lookup of [re] ends the call. *)
Lemma decide_retry_NameError commentary edit_results errors s :
  ChatManager.errors_present edit_results = Ret errors →
  errors || ChatManager.phrase_present commentary = true →
  ChatManager.decide_retry E commentary edit_results s
  = (Raise (NameError "name 're' is not defined"), s).
Proof.
  intros Herr Htrigger. unfold ChatManager.decide_retry, bind, lift_result.
  rewrite Herr, Htrigger. reflexivity.
Qed.

(** So no decision that [decide_retry] returns asks for a retry. *)
Lemma decide_retry_never_returns_retry commentary edit_results s decision s' :
  ChatManager.decide_retry E commentary edit_results s = (Ret decision, s') →
  retry decision = false.
Proof.
  destruct (ChatManager.errors_present edit_results) as [errors|e] eqn:Herr.
  - destruct (errors || ChatManager.phrase_present commentary) eqn:Htrigger.
    + by rewrite (decide_retry_NameError _ _ errors).
    + unfold ChatManager.decide_retry, bind, lift_result.
      rewrite Herr, Htrigger. by intros [= <- _].
  - unfold ChatManager.decide_retry, bind, lift_result. by rewrite Herr.
Qed.

(** C2. [chat_manager.py] uses [re.findall] and never imports [re]: for
    every list of edit results with an entry whose [is_error] is true,
    and every commentary, [decide_retry] raises [NameError] where it
    should return a decision with [retry] true. *)
Theorem decide_retry_raises_on_error_entry
    (commentary : string) (results : list pyval) (d : gmap string pyval)
    (s : Session) :
  Forall (λ r, is_dict r = true) results →
  VDict d ∈ results →
  d !! "is_error" = Some (VBool true) →
  ChatManager.decide_retry E commentary (VList results) s
  = (Raise (NameError "name 're' is not defined"), s).
Proof.
  intros Hdicts Hin Herr.
  apply (decide_retry_NameError _ _ true); [|done].
  by eapply errors_present_found.
Qed.

(** Without an error entry and without a retry phrase the decision is
    not to retry, with no files. *)
Lemma decide_retry_no_trigger commentary edit_results s :
  ChatManager.errors_present edit_results = Ret false →
  ChatManager.phrase_present commentary = false →
  ChatManager.decide_retry E commentary edit_results s
  = (Ret (mkRetryDecision false []), print (Success "No retry needed") s).
Proof.
  intros Herr Hphrase. unfold ChatManager.decide_retry, bind, lift_result.
  rewrite Herr, Hphrase. reflexivity.
Qed.

End RetryDecision.

(** * Reset *)

(** C9. [reset_conversation] calls [self.token_tracker.reset()], and
    [TokenTracker] has no method of that name (its reset is
    [reset_token_usage]): the call raises [AttributeError] after the
    conversation alone was cleared; the token ledger, the file cache and
    the code-editor memory are as they were. *)
Theorem reset_conversation_raises (s : Session) :
  fst (ChatManager.reset_conversation s)
  = Raise (AttributeError "'TokenTracker' object has no attribute 'reset'")
  ∧ conversation (snd (ChatManager.reset_conversation s)) = Conversation.init
  ∧ token_tracker (snd (ChatManager.reset_conversation s)) = token_tracker s
  ∧ file_ops (snd (ChatManager.reset_conversation s)) = file_ops s
  ∧ claude_client (snd (ChatManager.reset_conversation s)) = claude_client s.
Proof.
  assert (ChatManager.reset_conversation s
          = (Raise (AttributeError "'TokenTracker' object has no attribute 'reset'"),
             set_conversation Conversation.init s)) as ->.
  { unfold ChatManager.reset_conversation.
    unfold bind at 1. unfold with_conversation, zoom, Conversation.reset, modify.
    cbn [conversation]. unfold bind at 1, getattr.
    rewrite bool_decide_eq_false_2; [reflexivity|].
    unfold TokenTracker.names. rewrite !elem_of_cons, elem_of_nil.
    intros H. repeat destruct H as [H|H]; (discriminate H || done). }
  repeat split.
Qed.

(** * Autonomous mode *)

Section Automode.
Context (E : Externals).

Lemma automode_loop_step chat max_iterations vars s :
  ChatManager.automode_loop E chat max_iterations vars s
  = match ChatManager.iteration E chat max_iterations vars s with
    | (Ret (ChatManager.Continue vars'), s') =>
        ChatManager.automode_loop E chat max_iterations vars' s'
    | (Ret ChatManager.Stop, s') => (Ret (), s')
    | (Raise e, s') => (Raise e, s')
    end.
Proof.
  rewrite ChatManager.automode_loop_equation_1.
  assert (∀ r (H : ChatManager.iteration E chat max_iterations vars s = r),
    ChatManager.automode_loop_unfold_clause_1 E chat max_iterations vars s
      (exist _ r H)
    = match r with
      | (Ret (ChatManager.Continue vars'), s') =>
          ChatManager.automode_loop E chat max_iterations vars' s'
      | (Ret ChatManager.Stop, s') => (Ret (), s')
      | (Raise e, s') => (Raise e, s')
      end) as Hgen.
  { intros [[[vars'|]|e] s'] H; reflexivity. }
  apply Hgen.
Qed.

(** One pass of the loop when the orchestrator raises; [tick] is what a
    call of the orchestrator does to the session before it raises. *)
Lemma iteration_failure chat e tick max_iterations vars s :
  is_Exception e = true →
  (∀ u i m s, chat u i m s = (Raise e, tick s)) →
  automode s = true →
  ChatManager.iteration_count vars < max_iterations →
  ChatManager.iteration E chat max_iterations vars s
  = let s1 := print (Error ("Error in automode iteration: " +:+ exn_str e)) (tick s) in
    if 3 <=? ChatManager.error_count vars + 1 then
      (Ret ChatManager.Stop,
       set_automode false
         (print (Error "Exiting automode due to 3 consecutive errors.") s1))
    else
      (Ret (ChatManager.Continue
              (ChatManager.mkLoopVars (ChatManager.iteration_count vars)
                 (ChatManager.error_count vars + 1)
                 (ChatManager.user_input vars))), s1).
Proof.
  intros Hexc Hchat Hauto Hlt. apply Nat.ltb_lt in Hlt.
  unfold ChatManager.iteration.
  cbv beta iota delta [bind gets ret try_except modify with_world zoom show].
  rewrite Hauto, Hlt. cbn [andb]. cbv beta. rewrite Hchat, Hexc.
  unfold ChatManager.max_errors.
  destruct (3 <=? ChatManager.error_count vars + 1); reflexivity.
Qed.

(** C7. With [max_iterations = 3] and an orchestrator that raises on
    every call, [handle_automode] calls the orchestrator exactly three
    times ([tick] is applied three times and no more) and returns: the
    console shows three iteration errors and then the error-budget
    message, never the max-iterations message, and autonomous mode is
    off. *)
Theorem automode_stops_on_error_budget
    (chat : ChatManager.Orchestrator) (e : exn) (tick : Session → Session)
    (goal : string) (s : Session) :
  is_Exception e = true →
  (∀ u i m s, chat u i m s = (Raise e, tick s)) →
  (∀ s, automode (tick s) = automode s) →
  (∀ s, console (world (tick s)) = console (world s)) →
  let failed := Error ("Error in automode iteration: " +:+ exn_str e) in
  let attempt := λ s, print failed (tick s) in
  let printed :=
    [ Info "Entering automode with 3 iterations. Please provide the goal of the automode.";
      Info "Press Ctrl+C at any time to exit the automode loop.";
      failed; failed; failed;
      Error "Exiting automode due to 3 consecutive errors.";
      Success "Exited automode. Returning to regular chat." ] in
  ChatManager.handle_automode E chat 3 goal s
  = (Ret (),
     print (Success "Exited automode. Returning to regular chat.")
       (set_automode false
          (print (Error "Exiting automode due to 3 consecutive errors.")
             (attempt (attempt (attempt
                (print (Info "Press Ctrl+C at any time to exit the automode loop.")
                   (print (Info "Entering automode with 3 iterations. Please provide the goal of the automode.")
                      (set_automode true s)))))))))
  ∧ console (world (snd (ChatManager.handle_automode E chat 3 goal s)))
    = console (world s) ++ printed
  ∧ automode (snd (ChatManager.handle_automode E chat 3 goal s)) = false
  ∧ Error "Max iterations reached. Exiting automode." ∉ printed.
Proof.
  intros Hexc Hchat Htick_automode Htick_console failed attempt printed.
  assert (∀ s, automode (attempt s) = automode s) as Hattempt
    by (intros s'; apply Htick_automode).
  assert (ChatManager.handle_automode E chat 3 goal s
          = (Ret (),
             print (Success "Exited automode. Returning to regular chat.")
               (set_automode false
                  (print (Error "Exiting automode due to 3 consecutive errors.")
                     (attempt (attempt (attempt
                        (print (Info "Press Ctrl+C at any time to exit the automode loop.")
                           (print (Info "Entering automode with 3 iterations. Please provide the goal of the automode.")
                              (set_automode true s)))))))))) as Hrun.
  { unfold ChatManager.handle_automode, ChatManager.except_KeyboardInterrupt.
    cbv beta iota delta [bind ret modify with_world zoom show].
    rewrite automode_loop_step, (iteration_failure _ e tick);
      [ | exact Hexc | exact Hchat
        | repeat (cbn [automode print set_world set_automode]
                  || rewrite Htick_automode); reflexivity
        | cbn [ChatManager.iteration_count]; lia ].
    cbn [ChatManager.error_count ChatManager.iteration_count Nat.add Nat.leb].
    rewrite automode_loop_step, (iteration_failure _ e tick);
      [ | exact Hexc | exact Hchat
        | repeat (cbn [automode print set_world set_automode]
                  || rewrite Htick_automode); reflexivity
        | cbn [ChatManager.iteration_count]; lia ].
    cbn [ChatManager.error_count ChatManager.iteration_count Nat.add Nat.leb].
    rewrite automode_loop_step, (iteration_failure _ e tick);
      [ | exact Hexc | exact Hchat
        | repeat (cbn [automode print set_world set_automode]
                  || rewrite Htick_automode); reflexivity
        | cbn [ChatManager.iteration_count]; lia ].
    cbn [ChatManager.error_count ChatManager.iteration_count Nat.add Nat.leb].
    reflexivity. }
  rewrite Hrun. cbn [fst snd]. split; [done|]. split; [|split; [done|]].
  - unfold attempt, print, printed.
    cbn [world console set_world set_console set_automode].
    rewrite !Htick_console. cbn [world console set_world set_console set_automode].
    by rewrite <- !app_assoc.
  - unfold printed, failed. rewrite !elem_of_cons, elem_of_nil.
    intros [H|[H|[H|[H|[H|[H|[H|[]]]]]]]]; discriminate H.
Qed.

End Automode.

(** * Multi-file edits *)

Section Monad_inversion.
Context {S : Type}.

Lemma bind_Ret_inv {A B} (c : M S A) (k : A → M S B) s b s' :
  bind c k s = (Ret b, s') →
  ∃ a s1, c s = (Ret a, s1) ∧ k a s1 = (Ret b, s').
Proof.
  unfold bind. destruct (c s) as [[a|e] s1]; [eauto|discriminate].
Qed.

Lemma try_except_Ret_inv {A} (body : M S A) handler s a s' :
  try_except body handler s = (Ret a, s') →
  body s = (Ret a, s')
  ∨ ∃ e s1, body s = (Raise e, s1) ∧ handler e s1 = (Ret a, s').
Proof.
  unfold try_except. destruct (body s) as [[a1|e] s1]; [by left|].
  destruct (is_Exception e); [|discriminate]. right. eauto.
Qed.

Lemma map_M_Forall {X Y} (f : X → M S Y) (P : Y → Prop) :
  (∀ x s y s', f x s = (Ret y, s') → P y) →
  ∀ xs s ys s', map_M f xs s = (Ret ys, s') → Forall P ys.
Proof.
  intros Hf. induction xs as [|x xs IH]; intros s ys s' H; cbn [map_M] in H.
  - injection H as <- _. constructor.
  - apply bind_Ret_inv in H as (y & s1 & Hy & H).
    apply bind_Ret_inv in H as (ys' & s2 & Hys & H).
    injection H as <- _. constructor; eauto.
Qed.

End Monad_inversion.

Section Edits.
Context (E : Externals).

Lemma edit_result_well_formed path status message :
  status = "success" ∨ status = "error" →
  well_formed_edit_result (FileOperations.edit_result path status message).
Proof.
  intros Hstatus. exists {[ "path" := path; "status" := VStr status;
                           "message" := VStr message ]}.
  split; [done|]. split; [|split; [|done]].
  - rewrite !dom_insert_L, dom_singleton_L. set_solver.
  - destruct Hstatus as [-> | ->]; [left|right]; reflexivity.
Qed.

Lemma edit_file_well_formed generations_dir project_context file st r st' :
  FileOperations.edit_file E generations_dir project_context file st = (Ret r, st') →
  well_formed_edit_result r.
Proof.
  unfold FileOperations.edit_file. intros H.
  apply try_except_Ret_inv in H as [H|(e & s1 & _ & H)].
  - apply bind_Ret_inv in H as (relative_path & ? & _ & H).
    apply bind_Ret_inv in H as (full_path & ? & _ & H).
    apply bind_Ret_inv in H as (instructions & ? & _ & H).
    destruct (negb _); [discriminate|].
    apply bind_Ret_inv in H as (current_content & ? & _ & H).
    apply bind_Ret_inv in H as (has_client & ? & _ & H).
    apply bind_Ret_inv in H as (? & ? & _ & H).
    apply bind_Ret_inv in H as (edit_instructions & ? & _ & H).
    apply bind_Ret_inv in H as (? & ? & _ & H).
    apply bind_Ret_inv in H as (? & ? & _ & H).
    injection H as <- _. apply edit_result_well_formed. by left.
  - apply bind_Ret_inv in H as (path & ? & _ & H).
    injection H as <- _. apply edit_result_well_formed. by right.
Qed.

Lemma edit_and_apply_multiple_well_formed files project_context st results st' :
  FileOperations.edit_and_apply_multiple E files project_context st
  = (Ret results, st') →
  Forall well_formed_edit_result results.
Proof.
  unfold FileOperations.edit_and_apply_multiple. intros H.
  apply bind_Ret_inv in H as (files' & s1 & _ & H).
  eapply map_M_Forall; [|exact H].
  intros ????. apply edit_file_well_formed.
Qed.

Lemma errors_present_well_formed results :
  Forall well_formed_edit_result results →
  ChatManager.errors_present (VList results) = Ret false.
Proof.
  unfold ChatManager.errors_present. cbn [py_iter].
  induction 1 as [|r results (d & -> & _ & _ & Hno) _ IH]; [done|].
  cbn [any_result py_get]. by rewrite Hno.
Qed.

(** C10. Every entry of a result list that [edit_and_apply_multiple]
    returns is a dictionary with exactly the keys [path], [status] and
    [message], its status is ['success'] or ['error'], and it has no
    [is_error]; so for such a list the error test of [decide_retry] is
    false, and with no retry phrase in the commentary the decision is
    not to retry. *)
Theorem edit_results_never_flag_errors
    (files project_context : pyval) (st st' : FileOperations.t * World)
    (results : list pyval) :
  FileOperations.edit_and_apply_multiple E files project_context st
  = (Ret results, st') →
  Forall well_formed_edit_result results
  ∧ ChatManager.errors_present (VList results) = Ret false
  ∧ ∀ commentary s,
      ChatManager.phrase_present commentary = false →
      ChatManager.decide_retry E commentary (VList results) s
      = (Ret (mkRetryDecision false []), print (Success "No retry needed") s).
Proof.
  intros H. apply edit_and_apply_multiple_well_formed in H.
  split; [done|]. split; [by apply errors_present_well_formed|].
  intros commentary s Hphrase.
  apply decide_retry_no_trigger; [by apply errors_present_well_formed|done].
Qed.

(** The recursion of the loop over the files: an entry for one file,
    whatever it says, is followed by the entries of the files after it. *)
Lemma edit_and_apply_multiple_cons file files project_context st r st1 :
  FileOperations.edit_file E (OsPath.join_str (cwd E) "_generations")
    project_context file st = (Ret r, st1) →
  FileOperations.edit_and_apply_multiple E (VList (file :: files)) project_context st
  = match FileOperations.edit_and_apply_multiple E (VList files) project_context st1
    with
    | (Ret rs, st2) => (Ret (r :: rs), st2)
    | (Raise e, st2) => (Raise e, st2)
    end.
Proof.
  intros H. unfold FileOperations.edit_and_apply_multiple, bind, lift_result.
  cbn [py_iter map_M]. unfold bind at 1. rewrite H.
  unfold bind at 1.
  by destruct (map_M _ files st1) as [[rs|e] st2].
Qed.

(** An absolute path that does not begin with the text of the
    [_generations] directory is rejected with no file access at all. *)
Lemma edit_file_rejects_foreign_root generations_dir project_context
    (d : gmap string pyval) (path : string) (instructions : pyval) st :
  d !! "path" = Some (VStr path) →
  d !! "instructions" = Some instructions →
  startswith path "/" = true →
  startswith path generations_dir = false →
  FileOperations.edit_file E generations_dir project_context (VDict d) st
  = (Ret (FileOperations.edit_result (VStr path) "error"
            ("File " +:+ path +:+ " is not within the _generations directory")),
     st).
Proof.
  intros Hpath Hinstr Habs Hout.
  unfold FileOperations.edit_file, try_except, bind, lift_result, py_getitem,
    OsPath.join, raise, ret.
  rewrite Hpath, Hinstr, Habs, Hout. reflexivity.
Qed.

(** A path whose joined text begins with the [_generations] directory passes
    the test, and the file it names is read: with no [claude_client] on
    the instance, the next step raises and the entry reports that. *)
Lemma edit_file_reads_then_fails generations_dir project_context
    (d : gmap string pyval) (path : string) (instructions : pyval)
    (files_cache : gmap string pyval) (w : World) (data : string) :
  d !! "path" = Some (VStr path) →
  d !! "instructions" = Some instructions →
  startswith (OsPath.join_str generations_dir path) generations_dir = true →
  fs w !! OsPath.resolve (OsPath.join_str generations_dir path) = Some data →
  FileOperations.edit_file E generations_dir project_context (VDict d)
    (FileOperations.mk files_cache false, w)
  = (Ret (FileOperations.edit_result (VStr path) "error"
            "'FileOperations' object has no attribute 'claude_client'"),
     (FileOperations.mk files_cache false,
      set_fs_log (fs_log w ++ [FsRead (OsPath.join_str generations_dir path)]) w)).
Proof.
  intros Hpath Hinstr Hstarts Hfile.
  unfold FileOperations.edit_file, try_except, bind, lift_result, py_getitem,
    on_world, zoom, FileOperations.read_file, gets, raise, ret.
  rewrite Hpath, Hinstr. cbv beta iota.
  change (OsPath.join generations_dir (VStr path))
    with (Ret (A := string) (OsPath.join_str generations_dir path)).
  cbv beta iota. rewrite Hstarts. cbn [negb fst snd].
  rewrite Hfile. reflexivity.
Qed.

(** C1. The test for the [_generations] directory compares the text of
    the joined path with the text of the directory and never resolves
    [..]: for the edit of [../secret.txt] the joined path begins with the
    directory, so the file [/home/user/project/secret.txt], outside it,
    is opened and read; the entry reported for it is the failure of a
    later step. The sibling after it is still processed. *)
Theorem edit_reads_outside_generations_dir
    (project_context instructions : pyval) (secret : string)
    (files_cache : gmap string pyval) (w : World) :
  cwd E = "/home/user/project" →
  fs w !! ["home"; "user"; "project"; "secret.txt"] = Some secret →
  let escaping :=
    VDict {[ "path" := VStr "../secret.txt"; "instructions" := instructions ]} in
  let sibling :=
    VDict {[ "path" := VStr "/etc/passwd"; "instructions" := instructions ]} in
  let full_path := "/home/user/project/_generations/../secret.txt" in
  ¬ OsPath.within "/home/user/project/_generations" full_path
  ∧ FileOperations.edit_and_apply_multiple E (VList [escaping; sibling])
      project_context (FileOperations.mk files_cache false, w)
    = (Ret [ FileOperations.edit_result (VStr "../secret.txt") "error"
               "'FileOperations' object has no attribute 'claude_client'";
             FileOperations.edit_result (VStr "/etc/passwd") "error"
               "File /etc/passwd is not within the _generations directory" ],
       (FileOperations.mk files_cache false,
        set_fs_log (fs_log w ++ [FsRead full_path]) w)).
Proof.
  intros Hcwd Hsecret escaping sibling full_path. split.
  - unfold OsPath.within. vm_compute. intros [k Hk]. discriminate Hk.
  - erewrite edit_and_apply_multiple_cons; cycle 1.
    { rewrite Hcwd.
      apply (edit_file_reads_then_fails _ _ _ "../secret.txt" instructions _ _ secret);
        [reflexivity | reflexivity | reflexivity | exact Hsecret]. }
    erewrite edit_and_apply_multiple_cons; cycle 1.
    { rewrite Hcwd.
      apply (edit_file_rejects_foreign_root _ _ _ "/etc/passwd" instructions);
        reflexivity. }
    reflexivity.
Qed.

End Edits.

(** * One turn *)

Section Keeps_conversation.

Lemma keeps_ret {A} (a : A) : keeps_conversation (ret a).
Proof. done. Qed.

Lemma keeps_raise {A} e : keeps_conversation (raise (A := A) e).
Proof. done. Qed.

Lemma keeps_lift_result {A} (r : result A) : keeps_conversation (lift_result r).
Proof. done. Qed.

Lemma keeps_gets {A} (f : Session → A) : keeps_conversation (gets f).
Proof. done. Qed.

Lemma keeps_bind {A B} (c : M Session A) (k : A → M Session B) :
  keeps_conversation c → (∀ a, keeps_conversation (k a)) →
  keeps_conversation (bind c k).
Proof.
  intros Hc Hk s. unfold bind. specialize (Hc s).
  destruct (c s) as [[a|e] s1]; [|done].
  cbn [snd] in Hc. by rewrite Hk.
Qed.

Lemma keeps_try_except {A} (body : M Session A) handler :
  keeps_conversation body → (∀ e, keeps_conversation (handler e)) →
  keeps_conversation (try_except body handler).
Proof.
  intros Hbody Hhandler s. unfold try_except. specialize (Hbody s).
  destruct (body s) as [[a|e] s1]; [done|].
  destruct (is_Exception e); [|done].
  cbn [snd] in Hbody. by rewrite Hhandler.
Qed.

Lemma keeps_for_each {A X} (body : A → X → M Session A) xs :
  (∀ acc x, keeps_conversation (body acc x)) →
  ∀ acc, keeps_conversation (for_each body xs acc).
Proof.
  intros Hbody. induction xs as [|x xs IH]; intros acc; cbn [for_each].
  - apply keeps_ret.
  - apply keeps_bind; [apply Hbody|apply IH].
Qed.

Lemma keeps_map_M {X Y} (f : X → M Session Y) xs :
  (∀ x, keeps_conversation (f x)) → keeps_conversation (map_M f xs).
Proof.
  intros Hf. induction xs as [|x xs IH]; cbn [map_M].
  - apply keeps_ret.
  - apply keeps_bind; [apply Hf|intros y].
    apply keeps_bind; [apply IH|intros ys; apply keeps_ret].
Qed.

Lemma keeps_with_world {A} (c : M World A) : keeps_conversation (with_world c).
Proof. intros s. unfold with_world, zoom. by destruct (c _). Qed.

Lemma keeps_with_token_tracker {A} (c : M (TokenTracker.t * World) A) :
  keeps_conversation (with_token_tracker c).
Proof. intros s. unfold with_token_tracker, zoom. by destruct (c _). Qed.

Lemma keeps_with_file_ops {A} (c : M (FileOperations.t * World) A) :
  keeps_conversation (with_file_ops c).
Proof. intros s. unfold with_file_ops, zoom. by destruct (c _). Qed.

Lemma keeps_with_tools {A} (c : M Tools A) : keeps_conversation (with_tools c).
Proof. intros s. unfold with_tools, zoom. by destruct (c _). Qed.

Lemma keeps_filter_history :
  keeps_conversation (with_conversation Conversation.filter_history).
Proof. by intros []. Qed.

Lemma keeps_load_global names name :
  keeps_conversation (load_global (S := Session) names name).
Proof. unfold load_global. by destruct (bool_decide _). Qed.

End Keeps_conversation.

Create HintDb keeps.

#[local] Hint Resolve keeps_ret keeps_raise keeps_lift_result keeps_gets
  keeps_with_world keeps_with_token_tracker keeps_with_file_ops keeps_with_tools
  keeps_filter_history keeps_load_global : keeps.

(** Walk down a method body: binds, handlers, loops and case splits. *)
Ltac keeps :=
  repeat first
    [ solve [eauto with keeps]
    | apply keeps_bind; [|intros]
    | apply keeps_try_except; [|intros]
    | apply keeps_for_each; intros
    | apply keeps_map_M; intros
    | match goal with
      | |- keeps_conversation (if ?b then _ else _) => destruct b
      | |- keeps_conversation (match ?x with _ => _ end) => destruct x
      end ].

Section Turn.
Context (E : Externals) (handler : string → pyval → M Tools pyval).

Lemma keeps_decide_retry commentary edit_results :
  keeps_conversation (ChatManager.decide_retry E commentary edit_results).
Proof. unfold ChatManager.decide_retry. keeps. Qed.

Lemma keeps_execute_tool tool_name tool_input :
  keeps_conversation (ChatManager.execute_tool E handler tool_name tool_input).
Proof. unfold ChatManager.execute_tool. keeps. Qed.

Lemma keeps_follow_up_failed assistant_response e :
  keeps_conversation (ChatManager.follow_up_failed assistant_response e).
Proof. unfold ChatManager.follow_up_failed. keeps. Qed.

Lemma keeps_retry_edit assistant_response tool_input retry_decision :
  keeps_conversation
    (ChatManager.retry_edit E assistant_response tool_input retry_decision).
Proof. unfold ChatManager.retry_edit. keeps. Qed.

#[local] Hint Resolve keeps_decide_retry keeps_execute_tool
  keeps_follow_up_failed keeps_retry_edit : keeps.

Lemma keeps_follow_up messages prompt assistant_response name input tool_result :
  keeps_conversation
    (ChatManager.follow_up E messages prompt assistant_response name input
       tool_result).
Proof. unfold ChatManager.follow_up. keeps. Qed.

Lemma keeps_call_tool current_conversation tool_use :
  keeps_conversation (ChatManager.call_tool E handler current_conversation tool_use).
Proof.
  unfold ChatManager.call_tool, ChatManager.run_tool, ChatManager.display_result.
  destruct tool_use as [[tool_use_id tool_name] tool_input]. keeps.
Qed.

#[local] Hint Resolve keeps_follow_up keeps_call_tool : keeps.

Lemma keeps_tool_round filtered prompt acc tool_use :
  keeps_conversation (ChatManager.tool_round E handler filtered prompt acc tool_use).
Proof.
  unfold ChatManager.tool_round. destruct acc as [[cc msgs] resp]. keeps.
Qed.

#[local] Hint Resolve keeps_tool_round : keeps.

(** Whatever the turn is (text or image) and however it ends, the
    [Conversation] object after it is the one [begin_turn] left. *)
Lemma chat_with_claude_keeps_conversation
    (user_input : string) (image_path : option string)
    (current_iteration max_iterations : option nat) (s : Session) :
  conversation
    (snd (ChatManager.chat_with_claude E handler user_input image_path
            current_iteration max_iterations s))
  = conversation (snd (ChatManager.begin_turn E user_input image_path s)).
Proof.
  unfold ChatManager.chat_with_claude. unfold bind at 1.
  destruct (ChatManager.begin_turn E user_input image_path s)
    as [[[current_conversation|]|e] s1]; [|done|done].
  cbn [snd].
  match goal with
  | |- conversation (snd (?rest s1)) = _ =>
      assert (keeps_conversation rest) as Hrest by keeps
  end.
  apply Hrest.
Qed.

(** C4. The line that would store the reply is a comment in the source,
    and what the turn appends to is a list local to the call: after a
    text turn, however it ends and whatever the model answered, the
    stored history is the old history and the user message, with no
    assistant message after it. *)
Theorem chat_with_claude_never_stores_reply
    (user_input : string) (current_iteration max_iterations : option nat)
    (s : Session) :
  Conversation.history
    (conversation
       (snd (ChatManager.chat_with_claude E handler user_input None
               current_iteration max_iterations s)))
  = Conversation.history (conversation s) ++ [Message User (VStr user_input)].
Proof.
  unfold ChatManager.chat_with_claude, ChatManager.begin_turn.
  unfold bind at 1. unfold bind at 1.
  unfold with_conversation at 1, zoom at 1, Conversation.add_message, modify.
  cbn [ret].
  match goal with
  | |- context [snd (?rest ?s1)] =>
      assert (keeps_conversation rest) as Hrest
  end.
  { keeps. }
  by rewrite Hrest.
Qed.


Lemma begin_text_turn user_input s :
  ChatManager.begin_turn E user_input None s
  = (Ret (Some [Message User (VStr user_input)]),
     remember (Message User (VStr user_input)) s).
Proof. reflexivity. Qed.

Lemma filter_history_result s r :
  Conversation.filter_messages (Conversation.history (conversation s)) = r →
  with_conversation Conversation.filter_history s = (r, s).
Proof. intros <-. by destruct s. Qed.






End Turn.

(** * The statements at the sample session *)

(** C2 at a list with one failed edit. *)
Lemma decide_retry_raises_on_error_entry_witness :
  Forall (λ r, is_dict r = true) [Sample.failed_edit]
  ∧ Sample.failed_edit ∈ [Sample.failed_edit]
  ∧ ChatManager.decide_retry (Sample.externals Sample.backend_hello)
      "All edits applied." (VList [Sample.failed_edit]) Sample.session
    = (Raise (NameError "name 're' is not defined"), Sample.session).
Proof.
  split; [repeat constructor|]. split; [apply list_elem_of_here|].
  apply (decide_retry_raises_on_error_entry (Sample.externals Sample.backend_hello)
           "All edits applied." [Sample.failed_edit]
           {[ "path" := VStr "app.py"; "status" := VStr "error";
              "message" := VStr "disk full"; "is_error" := VBool true ]}
           Sample.session).
  - repeat constructor.
  - apply list_elem_of_here.
  - reflexivity.
Defined.

(** C7 at an orchestrator that sends one request and raises: three
    requests are sent in all. *)
Lemma automode_stops_on_error_budget_witness :
  is_Exception (GenericException "boom") = true
  ∧ console (world (snd (ChatManager.handle_automode
                           (Sample.externals Sample.backend_down)
                           Sample.raising_orchestrator 3 "build the app"
                           Sample.session)))
    = [ Info "Entering automode with 3 iterations. Please provide the goal of the automode.";
        Info "Press Ctrl+C at any time to exit the automode loop.";
        Error "Error in automode iteration: boom";
        Error "Error in automode iteration: boom";
        Error "Error in automode iteration: boom";
        Error "Exiting automode due to 3 consecutive errors.";
        Success "Exited automode. Returning to regular chat." ]
  ∧ model_calls (world (snd (ChatManager.handle_automode
                               (Sample.externals Sample.backend_down)
                               Sample.raising_orchestrator 3 "build the app"
                               Sample.session)))
    = 3.
Proof.
  split; [reflexivity|].
  destruct (automode_stops_on_error_budget (Sample.externals Sample.backend_down)
              Sample.raising_orchestrator (GenericException "boom") count_request
              "build the app" Sample.session)
    as (Hrun & Hconsole & _ & _).
  - reflexivity.
  - intros u i m s. reflexivity.
  - intros s. reflexivity.
  - intros s. reflexivity.
  - split; [exact Hconsole|]. rewrite Hrun. reflexivity.
Defined.

(** C10 at the edit of a file that does not exist. *)
Lemma edit_results_never_flag_errors_witness :
  FileOperations.edit_and_apply_multiple (Sample.externals Sample.backend_hello)
    (VList [VDict {[ "path" := VStr "app.py"; "instructions" := VStr "add a test" ]}])
    (VStr "a small web app") (FileOperations.init, Sample.files)
  = (Ret [FileOperations.edit_result (VStr "app.py") "error"
            "[Errno 2] No such file or directory: '/home/user/project/_generations/app.py'"],
     (FileOperations.init, Sample.files))
  ∧ ChatManager.errors_present
      (VList [FileOperations.edit_result (VStr "app.py") "error"
                "[Errno 2] No such file or directory: '/home/user/project/_generations/app.py'"])
    = Ret false.
Proof.
  split; [reflexivity|].
  apply (edit_results_never_flag_errors (Sample.externals Sample.backend_hello)
           (VList [VDict {[ "path" := VStr "app.py";
                            "instructions" := VStr "add a test" ]}])
           (VStr "a small web app") (FileOperations.init, Sample.files)
           (FileOperations.init, Sample.files)).
  reflexivity.
Defined.

(** C1 at the sample files: the one file access is the read of the file
    outside the [_generations] directory. *)
Lemma edit_reads_outside_generations_dir_witness :
  cwd (Sample.externals Sample.backend_hello) = "/home/user/project"
  ∧ fs Sample.files !! ["home"; "user"; "project"; "secret.txt"] = Some "TOP SECRET"
  ∧ fs_log (snd (snd (FileOperations.edit_and_apply_multiple
                        (Sample.externals Sample.backend_hello)
                        (VList [ VDict {[ "path" := VStr "../secret.txt";
                                          "instructions" := VStr "append a line" ]};
                                 VDict {[ "path" := VStr "/etc/passwd";
                                          "instructions" := VStr "append a line" ]} ])
                        (VStr "a small web app") (FileOperations.init, Sample.files))))
    = [FsRead "/home/user/project/_generations/../secret.txt"].
Proof.
  split; [reflexivity|]. split; [reflexivity|].
  destruct (edit_reads_outside_generations_dir (Sample.externals Sample.backend_hello)
              (VStr "a small web app") (VStr "append a line") "TOP SECRET"
              ∅ Sample.files eq_refl eq_refl) as [_ H].
  unfold FileOperations.init. rewrite H. reflexivity.
Defined.


(** C4 at the sample session: the model answers ["hello"], the turn
    returns it, and the history holds the user message alone. *)
Example reply_is_returned_and_not_stored :
  fst (ChatManager.chat_with_claude (Sample.externals Sample.backend_hello)
         Sample.handler "hi" None None None Sample.session)
  = Ret ("hello", false)
  ∧ Conversation.history
      (conversation
         (snd (ChatManager.chat_with_claude (Sample.externals Sample.backend_hello)
                 Sample.handler "hi" None None None Sample.session)))
    = [Message User (VStr "hi")].
Proof. split; reflexivity. Qed.

(** C3 at a stored tool result whose text is the first marker. *)
Lemma filter_history_keeps_orchestrator_tool_results_witness :
  Conversation.filter_history
    (Conversation.mk
       [ Message User (VStr "read app.py");
         ChatManager.tool_result_message "toolu_1"
           "File contents updated in system prompt" (VBool false) ] ∅)
  = (Ret [ Message User (VStr "read app.py");
           ChatManager.tool_result_message "toolu_1"
             "File contents updated in system prompt" (VBool false) ],
     Conversation.mk
       [ Message User (VStr "read app.py");
         ChatManager.tool_result_message "toolu_1"
           "File contents updated in system prompt" (VBool false) ] ∅).
Proof.
  apply (filter_history_keeps_orchestrator_tool_results
           (Conversation.mk
              [ Message User (VStr "read app.py");
                ChatManager.tool_result_message "toolu_1"
                  "File contents updated in system prompt" (VBool false) ] ∅)
           [Message User (VStr "read app.py")] []
           [Message User (VStr "read app.py")] []
           "toolu_1" "File contents updated in system prompt" (VBool false));
    reflexivity.
Defined.

(** * More of the repair routine *)

Section Alternation_more.

Lemma repaired_user_messages l : ∀ last_role,
  filter (λ m, is_user_message m = true) (repaired last_role l)
  = filter (λ m, is_user_message m = true) l.
Proof.
  induction l as [|m l IH]; intros last_role; cbn [repaired]; [done|].
  destruct (bool_decide (Some (msg_role m) ≠ last_role)).
  - rewrite !filter_cons. rewrite IH. done.
  - case_bool_decide as Huser.
    + rewrite (filter_cons _ ChatManager.placeholder).
      rewrite decide_False by (by cbv).
      rewrite !filter_cons. by rewrite IH.
    + rewrite filter_cons. rewrite decide_False.
      * apply IH.
      * unfold is_user_message. by rewrite bool_decide_eq_false_2.
Qed.

Lemma repaired_length l : ∀ last_role,
  length (repaired last_role l) ≤ 2 * length l.
Proof.
  induction l as [|m l IH]; intros last_role; cbn [repaired length]; [lia|].
  destruct (bool_decide _); [|destruct (bool_decide _)]; cbn [length];
    match goal with |- context [repaired ?r l] => specialize (IH r) end; lia.
Qed.

(** X1. The repair never loses, adds or reorders a user message, it
    keeps the first message of the list in place, and it at most doubles
    the length of the list. *)
Theorem ensure_alternating_roles_keeps_user_messages (messages : list message) :
  filter (λ m, is_user_message m = true)
    (ChatManager.ensure_alternating_roles messages)
  = filter (λ m, is_user_message m = true) messages
  ∧ head (ChatManager.ensure_alternating_roles messages) = head messages
  ∧ length (ChatManager.ensure_alternating_roles messages) ≤ 2 * length messages.
Proof.
  rewrite !ensure_alternating_roles_repaired.
  split; [apply repaired_user_messages|]. split; [|apply repaired_length].
  destruct messages as [|m l]; [done|]. cbn [repaired].
  by rewrite bool_decide_eq_true_2.
Qed.

End Alternation_more.

(** * More of the conversation store *)

Section Conversation_more.

Lemma filter_content_stable blocks : ∀ filtered,
  Conversation.filter_content blocks = Ret filtered →
  Conversation.filter_content filtered = Ret filtered.
Proof.
  induction blocks as [|b blocks IH]; intros filtered H;
    cbn [Conversation.filter_content] in H.
  - by injection H as <-.
  - destruct (Conversation.kept b) as [keep|] eqn:Hkept; [|discriminate].
    destruct (Conversation.filter_content blocks) as [rest|]; [|discriminate].
    injection H as <-. specialize (IH rest eq_refl).
    destruct keep; [|done].
    cbn [Conversation.filter_content]. by rewrite Hkept, IH.
Qed.

Lemma filter_content_sublist blocks : ∀ filtered,
  Conversation.filter_content blocks = Ret filtered → filtered `sublist_of` blocks.
Proof.
  induction blocks as [|b blocks IH]; intros filtered H;
    cbn [Conversation.filter_content] in H.
  - by injection H as <-.
  - destruct (Conversation.kept b) as [keep|]; [|discriminate].
    destruct (Conversation.filter_content blocks) as [rest|]; [|discriminate].
    injection H as <-. specialize (IH rest eq_refl).
    destruct keep; [by apply sublist_skip|by apply sublist_cons].
Qed.

(** X2. Filtering again changes nothing: the list [filter_history]
    returns is returned as it is when it is filtered once more. *)
Theorem filter_messages_stable (messages filtered : list message) :
  Conversation.filter_messages messages = Ret filtered →
  Conversation.filter_messages filtered = Ret filtered.
Proof.
  revert filtered. induction messages as [|m messages IH]; intros filtered H;
    cbn [Conversation.filter_messages] in H.
  - by injection H as <-.
  - destruct (Conversation.filter_messages messages) as [rest|];
      [specialize (IH rest eq_refl)|by repeat case_match].
    destruct m as [r content].
    destruct content as [| | | |blocks|]; cbn [msg_content] in H;
      try (injection H as <-; cbn [app Conversation.filter_messages msg_content];
           by rewrite IH).
    destruct (Conversation.filter_content blocks) as [[|b fc]|] eqn:Hfc;
      [| |discriminate].
    + by injection H as <-.
    + injection H as <-. apply filter_content_stable in Hfc.
      cbn [app Conversation.filter_messages msg_content msg_role].
      by rewrite Hfc, IH.
Qed.

(** X3. Filtering only leaves things out: the roles of the filtered list
    are a sublist of the roles of the history, in the same order, and
    the filtered list is never longer than the history. *)
Theorem filter_messages_only_drops (messages filtered : list message) :
  Conversation.filter_messages messages = Ret filtered →
  (msg_role <$> filtered) `sublist_of` (msg_role <$> messages)
  ∧ length filtered ≤ length messages.
Proof.
  intros H.
  assert ((msg_role <$> filtered) `sublist_of` (msg_role <$> messages)) as Hsub.
  { revert filtered H. induction messages as [|m messages IH]; intros filtered H;
      cbn [Conversation.filter_messages] in H.
    - by injection H as <-.
    - destruct (Conversation.filter_messages messages) as [rest|];
        [specialize (IH rest eq_refl)|by repeat case_match].
      destruct m as [r content].
      destruct content as [| | | |blocks|]; cbn [msg_content] in H;
        try (injection H as <-; cbn; by apply sublist_skip).
      destruct (Conversation.filter_content blocks) as [[|b fc]|]; [| |discriminate].
      + injection H as <-. cbn. by apply sublist_cons.
      + injection H as <-. cbn. by apply sublist_skip. }
  split; [done|]. apply sublist_length in Hsub. by rewrite !length_fmap in Hsub.
Qed.

(** The history that text turns, image turns and interrupts of the
    autonomous mode build has nothing for the filter to drop. *)
Lemma filter_messages_stored messages :
  Forall stored_by_turns messages →
  Conversation.filter_messages messages = Ret messages.
Proof.
  induction 1 as [|m messages Hm _ IH]; [done|].
  cbn [Conversation.filter_messages]. rewrite IH.
  destruct Hm; reflexivity.
Qed.

End Conversation_more.

(** * The stored history *)

Section Stored_history.
Context (E : Externals) (handler : string → pyval → M Tools pyval).

Lemma begin_turn_stores user_input image_path s :
  Forall stored_by_turns (Conversation.history (conversation s)) →
  Forall stored_by_turns
    (Conversation.history
       (conversation (snd (ChatManager.begin_turn E user_input image_path s)))).
Proof.
  intros Hs. unfold ChatManager.begin_turn.
  destruct image_path as [path|].
  - destruct (String.eqb path EmptyString).
    + cbn. apply Forall_app. split; [done|]. repeat constructor.
    + cbv beta iota delta [bind ret modify with_world zoom show].
      destruct (encode_image E path) as [[mime_type data]|].
      * cbn. apply Forall_app. split; [done|]. repeat constructor.
      * cbn. done.
  - cbn. apply Forall_app. split; [done|]. repeat constructor.
Qed.

Lemma chat_with_claude_stores user_input image_path current_iteration
    max_iterations s :
  Forall stored_by_turns (Conversation.history (conversation s)) →
  Forall stored_by_turns
    (Conversation.history
       (conversation
          (snd (ChatManager.chat_with_claude E handler user_input image_path
                  current_iteration max_iterations s)))).
Proof.
  intros Hs. rewrite chat_with_claude_keeps_conversation.
  by apply begin_turn_stores.
Qed.

(** X4. A turn, text or image, whatever the model answers and however
    the turn ends, keeps the stored history made of plain-text messages
    and image messages only: no tool-use or tool-result block is ever
    stored, so [filter_history] returns the history after the turn
    unchanged. *)
Theorem turn_stores_plain_messages
    (user_input : string) (image_path : option string)
    (current_iteration max_iterations : option nat) (s : Session) :
  Forall stored_by_turns (Conversation.history (conversation s)) →
  let s' := snd (ChatManager.chat_with_claude E handler user_input image_path
                   current_iteration max_iterations s) in
  Forall stored_by_turns (Conversation.history (conversation s'))
  ∧ with_conversation Conversation.filter_history s'
    = (Ret (Conversation.history (conversation s')), s').
Proof.
  intros Hs s'.
  assert (Forall stored_by_turns (Conversation.history (conversation s'))) as Hs'.
  { by apply chat_with_claude_stores. }
  split; [done|].
  apply filter_history_result. by apply filter_messages_stored.
Qed.

Lemma iteration_conversation (Q : Conversation.t → Prop)
    (chat : ChatManager.Orchestrator) max_iterations vars s :
  (∀ u i m s, Q (conversation s) → Q (conversation (snd (chat u i m s)))) →
  Q (conversation s) →
  Q (conversation (snd (ChatManager.iteration E chat max_iterations vars s))).
Proof.
  intros Hchat Hs. unfold ChatManager.iteration.
  cbv beta iota delta [bind gets ret try_except modify with_world zoom show].
  destruct (automode s && _); [|done].
  specialize (Hchat (ChatManager.user_input vars)
                (Some (ChatManager.iteration_count vars + 1)) (Some max_iterations) s Hs).
  destruct (chat _ _ _ s) as [[[response exit_continuation]|e] s1]; cbn [snd] in Hchat.
  - destruct (exit_continuation || _); destruct (max_iterations <=? _); exact Hchat.
  - destruct (is_Exception e); [|exact Hchat].
    destruct (ChatManager.max_errors <=? _); exact Hchat.
Qed.

Lemma automode_loop_invariant (I : Session → Prop)
    (chat : ChatManager.Orchestrator) max_iterations vars s :
  (∀ vars s, I s → I (snd (ChatManager.iteration E chat max_iterations vars s))) →
  I s → I (snd (ChatManager.automode_loop E chat max_iterations vars s)).
Proof.
  intros Hiteration.
  funelim (ChatManager.automode_loop E chat max_iterations vars s);
    intros Hs; pose proof (Hiteration vars s Hs) as Hstep;
    match goal with
    | H : ChatManager.iteration _ _ _ _ _ = _ |- _ => rewrite H in Hstep
    end; cbn [snd] in *; first [done | match goal with IH : ∀ _ : Session → Prop, _ |- _ => by apply IH end].
Qed.

(** X5. The same holds for a whole run of the autonomous mode over
    [chat_with_claude], for every number of iterations and also when the
    run is interrupted: the stored history still holds plain messages
    only, and [filter_history] returns it unchanged. *)
Theorem automode_stores_plain_messages (max_iterations : nat) (goal : string)
    (s : Session) :
  Forall stored_by_turns (Conversation.history (conversation s)) →
  let chat := λ user_input current_iteration max_iterations,
    ChatManager.chat_with_claude E handler user_input None
      current_iteration max_iterations in
  let s' := snd (ChatManager.handle_automode E chat max_iterations goal s) in
  Forall stored_by_turns (Conversation.history (conversation s'))
  ∧ with_conversation Conversation.filter_history s'
    = (Ret (Conversation.history (conversation s')), s').
Proof.
  intros Hs chat s'.
  set (I := λ s : Session,
         Forall stored_by_turns (Conversation.history (conversation s))).
  assert (I s') as Hs'.
  { unfold s', ChatManager.handle_automode, ChatManager.except_KeyboardInterrupt.
    cbv beta iota delta [bind ret modify with_world with_conversation zoom show
                           Conversation.add_message].
    match goal with
    | |- context [ChatManager.automode_loop E chat max_iterations ?vars ?s0] =>
        assert (I (snd (ChatManager.automode_loop E chat max_iterations vars s0)))
          as Hloop;
        [ apply automode_loop_invariant; [|exact Hs]
        | destruct (ChatManager.automode_loop E chat max_iterations vars s0)
            as [[[]|e] s1] ]
    end.
    - intros vars' s0 Hs0.
      apply (iteration_conversation
               (λ c, Forall stored_by_turns (Conversation.history c)));
        [|exact Hs0].
      intros u i m s1 Hs1. by apply chat_with_claude_stores.
    - exact Hloop.
    - destruct e; try exact Hloop.
      unfold I. cbn. apply Forall_app. split; [exact Hloop|]. repeat constructor. }
  split; [exact Hs'|].
  apply filter_history_result. by apply filter_messages_stored.
Qed.
End Stored_history.

(** * Strings *)

Section Strings.

Lemma str_append_cons c s t : String c s +:+ t = String c (s +:+ t).
Proof. reflexivity. Qed.

Lemma str_append_nil_r s : s +:+ EmptyString = s.
Proof. induction s as [|c s IH]; [done|]. by rewrite str_append_cons, IH. Qed.

Lemma str_append_assoc a b c : (a +:+ b) +:+ c = a +:+ (b +:+ c).
Proof. induction a as [|x a IH]; [done|]. by rewrite !str_append_cons, IH. Qed.

Lemma str_prefix_nil s : String.prefix EmptyString s = true.
Proof. by destruct s. Qed.

Lemma str_prefix_cons c p c' s :
  String.prefix (String c p) (String c' s)
  = bool_decide (c = c') && String.prefix p s.
Proof.
  cbn [String.prefix]. destruct (ascii_dec c c') as [->|Hne].
  - by rewrite bool_decide_eq_true_2.
  - by rewrite bool_decide_eq_false_2.
Qed.

Lemma str_prefix_append p s : String.prefix p (p +:+ s) = true.
Proof.
  induction p as [|c p IH]; [apply str_prefix_nil|].
  rewrite str_append_cons, str_prefix_cons, IH. by rewrite bool_decide_eq_true_2.
Qed.

Lemma str_prefix_append_r p s t :
  String.prefix p s = true → String.prefix p (s +:+ t) = true.
Proof.
  revert s. induction p as [|c p IH]; intros s H; [apply str_prefix_nil|].
  destruct s as [|c' s]; [done|].
  rewrite str_append_cons, str_prefix_cons. rewrite str_prefix_cons in H.
  apply andb_true_iff in H as [-> H]. by rewrite IH.
Qed.

Lemma str_contains_cons needle c s :
  str_contains needle (String c s)
  = String.prefix needle (String c s) || str_contains needle s.
Proof. reflexivity. Qed.

Lemma str_contains_append_r needle s t :
  str_contains needle s = true → str_contains needle (s +:+ t) = true.
Proof.
  induction s as [|c s IH]; intros H.
  - destruct needle; [|done]. destruct t; reflexivity.
  - rewrite str_contains_cons in H. rewrite str_append_cons, str_contains_cons.
    apply orb_true_iff in H as [H|H].
    + rewrite <- str_append_cons. by rewrite str_prefix_append_r.
    + rewrite IH by done. apply orb_true_r.
Qed.

Lemma str_contains_append_l needle s t :
  str_contains needle t = true → str_contains needle (s +:+ t) = true.
Proof.
  intros H. induction s as [|c s IH]; [done|].
  rewrite str_append_cons, str_contains_cons, IH. apply orb_true_r.
Qed.

End Strings.

(** * The file cache of the conversation and the export *)

Section Conversation_files.


End Conversation_files.

Section Export_to_file.
Context (E : Externals).

Lemma export_message_text r text :
  Conversation.export_message E (Message r (VStr text))
  = ("## " +:+ Conversation.capitalize r +:+ nl +:+ nl +:+ text +:+ nl +:+ nl, None).
Proof. by destruct r. Qed.

Lemma export_message_image mime_type data user_input :
  Conversation.export_message E
    (Message User (ChatManager.image_content mime_type data user_input))
  = ("## User" +:+ nl +:+ nl +:+ "[Image data not displayed]" +:+ nl +:+ nl
     +:+ "User input for image: " +:+ user_input +:+ nl +:+ nl, None).
Proof.
  unfold Conversation.export_message, ChatManager.image_content.
  cbn [msg_content msg_role Conversation.export_items].
  change (Conversation.export_item E (VDict {[ "type" := VStr "image"; "source" := _ ]}))
    with (Ret (A := string) ("[Image data not displayed]" +:+ nl +:+ nl)).
  change (Conversation.export_item E (VDict {[ "type" := VStr "text"; "text" := _ ]}))
    with (Ret (A := string) (("User input for image: " +:+ user_input) +:+ nl +:+ nl)).
  cbv beta iota. rewrite str_append_nil_r, !str_append_assoc. reflexivity.
Qed.

Lemma export_messages_stored messages :
  Forall stored_by_turns messages →
  Conversation.export_messages E messages
  = (String.concat EmptyString
       ((λ m, fst (Conversation.export_message E m)) <$> messages), None).
Proof.
  induction 1 as [|m messages Hm _ IH]; [done|].
  cbn [Conversation.export_messages fmap list_fmap]. rewrite IH.
  assert (∃ text, Conversation.export_message E m = (text, None)) as [text Hm'].
  { destruct Hm; [rewrite export_message_text|rewrite export_message_image]; eauto. }
  rewrite Hm'. cbn [fst]. f_equal.
  destruct messages as [|m' messages']; [apply str_append_nil_r|done].
Qed.

Lemma export_files_inserted (files : gmap string string) inserted :
  Forall (λ file_path, is_Some (files !! file_path)) inserted →
  Conversation.export_files files inserted
  = String.concat EmptyString
      ((λ file_path,
          "### " +:+ file_path +:+ nl +:+ nl +:+ Conversation.fence +:+ nl
          +:+ default EmptyString (files !! file_path)
          +:+ nl +:+ Conversation.fence +:+ nl +:+ nl) <$> inserted).
Proof.
  unfold Conversation.export_files. intros Hkeys. f_equal.
  induction Hkeys as [|file_path inserted [content Hcontent] _ IH]; [done|].
  cbn [omap list_omap fmap list_fmap]. rewrite Hcontent. cbn [fmap option_fmap option_map default].
  by rewrite <- IH.
Qed.

(** X7. On a history as the turns store it, [save_to_file] returns the
    file name built from the time stamp, leaves the conversation as it
    is, and writes one file: the heading, one section per message in the
    order of the history, and one section per cached file in the order
    in which the cache got its keys. The section of an image message
    holds the fixed marker and the text that came with the image, never
    the image data. *)
Theorem save_to_file_writes_history (timestamp : string) (inserted : list string)
    (self : Conversation.t) (w : World) :
  Forall stored_by_turns (Conversation.history self) →
  inserted ≡ₚ (map_to_list (Conversation.file_contents self)).*1 →
  let filename := "chat_history_" +:+ timestamp +:+ ".md" in
  let document :=
    "# Chat History" +:+ nl +:+ nl
    +:+ String.concat EmptyString
          ((λ m, fst (Conversation.export_message E m)) <$> Conversation.history self)
    +:+ "## File Contents" +:+ nl +:+ nl
    +:+ String.concat EmptyString
          ((λ file_path,
              "### " +:+ file_path +:+ nl +:+ nl +:+ "```" +:+ nl
              +:+ default EmptyString (Conversation.file_contents self !! file_path)
              +:+ nl +:+ "```" +:+ nl +:+ nl) <$> inserted) in
  Conversation.save_to_file E timestamp inserted (self, w)
  = (Ret filename,
     (self,
      set_fs (<[OsPath.resolve (OsPath.join_str (cwd E) filename) := document]> (fs w))
        (set_fs_log (fs_log w ++ [FsWrite filename document]) w)))
  ∧ ∀ mime_type data user_input,
      fst (Conversation.export_message E
             (Message User (ChatManager.image_content mime_type data user_input)))
      = "## User" +:+ nl +:+ nl +:+ "[Image data not displayed]" +:+ nl +:+ nl
        +:+ "User input for image: " +:+ user_input +:+ nl +:+ nl.
Proof.
  intros Hstored Hinserted filename document.
  split; [|intros; by rewrite export_message_image].
  unfold Conversation.save_to_file, Conversation.export_document.
  unfold bind at 1, gets. cbn [fst].
  rewrite export_messages_stored by done.
  rewrite export_files_inserted; [reflexivity|].
  apply Forall_forall. intros file_path Hin. rewrite Hinserted in Hin.
  apply list_elem_of_fmap in Hin as ([k content] & -> & Hin).
  apply elem_of_map_to_list in Hin. cbn. eauto.
Qed.

End Export_to_file.

(** * The token ledger *)

Section Tokens.

Lemma total_insert (f : Z * Z → Z) (m : gmap string (Z * Z)) k v :
  map_fold (λ _ usage total, (total + f usage)%Z) 0%Z (<[k := v]> m)
  = (map_fold (λ _ usage total, (total + f usage)%Z) 0%Z m
     - from_option f 0 (m !! k) + f v)%Z.
Proof.
  assert (∀ m' : gmap string (Z * Z), m' !! k = None →
    map_fold (λ _ usage total, (total + f usage)%Z) 0%Z (<[k := v]> m')
    = (map_fold (λ _ usage total, (total + f usage)%Z) 0%Z m' + f v)%Z) as Hfresh.
  { intros m' Hm'. rewrite map_fold_insert_L; [done| |done]. intros. lia. }
  destruct (m !! k) as [old|] eqn:Hk; cbn [from_option].
  - rewrite <- insert_delete_eq.
    rewrite Hfresh by apply lookup_delete_eq.
    rewrite (map_fold_delete_L _ _ k old m); [lia| |done]. intros. lia.
  - rewrite Hfresh by done. lia.
Qed.

Lemma total_reset (f : Z * Z → Z) (m : gmap string (Z * Z)) :
  f (0, 0)%Z = 0%Z →
  map_fold (λ _ usage total, (total + f usage)%Z) 0%Z ((λ _, (0, 0)%Z) <$> m)
  = 0%Z.
Proof.
  intros Hf. induction m as [|k v m Hk IH] using map_ind.
  - by rewrite fmap_empty, map_fold_empty.
  - rewrite fmap_insert, total_insert, IH, lookup_fmap, Hk. cbn. lia.
Qed.

(** X8. [update_token_usage] always returns and never changes the set
    of models in the ledger. For a model of the ledger the two totals of
    [get_total_tokens] grow by exactly the numbers booked and no other
    model's entry changes; for an unknown model the ledger is untouched
    and an error is printed. *)
Theorem update_token_usage_totals (model : string) (input output : Z)
    (self : TokenTracker.t) (w : World) :
  let after := snd (TokenTracker.update_token_usage model input output (self, w)) in
  let total := TokenTracker.get_total_tokens self in
  fst (TokenTracker.update_token_usage model input output (self, w)) = Ret ()
  ∧ dom (TokenTracker.token_usage (fst after)) = dom (TokenTracker.token_usage self)
  ∧ TokenTracker.get_total_tokens (fst after)
    = (if bool_decide (is_Some (TokenTracker.token_usage self !! model))
       then ((fst total + input)%Z, (snd total + output)%Z) else total)
  ∧ (∀ other, other ≠ model →
       TokenTracker.token_usage (fst after) !! other
       = TokenTracker.token_usage self !! other)
  ∧ (TokenTracker.token_usage self !! model = None →
       after = (self, set_console
                        (console w ++ [Error ("Error: Unknown model '" +:+ model +:+ "'")])
                        w)).
Proof.
  intros after total. unfold after, total, TokenTracker.update_token_usage.
  unfold bind, gets. cbn [fst].
  destruct (TokenTracker.token_usage self !! model) as [[i o]|] eqn:Hmodel.
  - rewrite bool_decide_eq_true_2 by eauto.
    cbn. unfold TokenTracker.get_total_tokens. cbn [TokenTracker.token_usage].
    rewrite !total_insert, Hmodel. cbn [from_option fst snd].
    split; [done|]. split.
    { apply set_eq. intros k. rewrite dom_insert, elem_of_union, elem_of_singleton.
      split; [intros [->|]; [by apply elem_of_dom|done]|by right]. }
    split; [f_equal; lia|]. split; [|done].
    intros other Hother. by rewrite lookup_insert_ne.
  - rewrite bool_decide_eq_false_2 by (by intros [? ?]).
    cbn. by destruct self.
Qed.

(** X9. After [reset_token_usage] every model of the ledger is still
    there with both counters at zero, the totals are zero, and nothing
    outside the ledger has changed. *)
Theorem reset_token_usage_zeroes (self : TokenTracker.t) (w : World) :
  let after := snd (TokenTracker.reset_token_usage (self, w)) in
  TokenTracker.get_total_tokens (fst after) = (0, 0)%Z
  ∧ dom (TokenTracker.token_usage (fst after)) = dom (TokenTracker.token_usage self)
  ∧ (∀ model usage,
       TokenTracker.token_usage (fst after) !! model = Some usage → usage = (0, 0)%Z)
  ∧ snd after = w.
Proof.
  intros after. cbn.
  unfold TokenTracker.get_total_tokens. cbn [TokenTracker.token_usage].
  rewrite !total_reset by done. split; [done|]. split; [apply dom_fmap_L|].
  split; [|done]. intros model usage. rewrite lookup_fmap.
  destruct (_ !! model); cbn; congruence.
Qed.

End Tokens.

(** * The model client *)

Section Client.
Context (E : Externals).

(** X10. [update_code_editor_memory] keeps the last five entries of the
    memory with the new entry appended: never more than five, the new
    entry last, and the set of files untouched. *)
Theorem update_code_editor_memory_keeps_last_five (new_memory : string)
    (self : ClaudeClient.t) :
  let after := snd (ClaudeClient.update_code_editor_memory new_memory self) in
  ClaudeClient.code_editor_memory after
  = last_n 5 (ClaudeClient.code_editor_memory self ++ [new_memory])
  ∧ length (ClaudeClient.code_editor_memory after) ≤ 5
  ∧ last (ClaudeClient.code_editor_memory after) = Some new_memory
  ∧ ClaudeClient.code_editor_files after = ClaudeClient.code_editor_files self.
Proof.
  intros after.
  assert (ClaudeClient.code_editor_memory after
          = last_n 5 (ClaudeClient.code_editor_memory self ++ [new_memory])) as Hmem.
  { unfold after, ClaudeClient.update_code_editor_memory, modify, last_n.
    cbn [snd ClaudeClient.code_editor_memory].
    set (memory := ClaudeClient.code_editor_memory self ++ [new_memory]).
    destruct (5 <? length memory) eqn:Hlen; [done|].
    apply Nat.ltb_ge in Hlen.
    by replace (length memory - 5) with 0 by lia. }
  split; [done|]. rewrite Hmem. unfold last_n.
  split; [rewrite length_drop; lia|]. split; [|done].
  set (memory := ClaudeClient.code_editor_memory self ++ [new_memory]).
  assert (last memory = Some new_memory) as <- by apply last_snoc.
  assert (0 < length memory) by (unfold memory; rewrite length_app; cbn; lia).
  rewrite !last_lookup, lookup_drop, length_drop. f_equal. lia.
Qed.

(** X11. [generate_response] sends exactly one request, whether it
    succeeds or fails; the message list of the request is the repaired
    list, which strictly alternates; a failure of the backend comes back
    as an exception with the prefix [Error generating response: ]; and a
    list that was repaired before the call gives the same outcome as the
    list itself. *)
Theorem generate_response_request (messages : list message) (system_prompt : string)
    (w : World) :
  let request := ClaudeClient.ensure_alternating_roles messages in
  strictly_alternating request
  ∧ ClaudeClient.generate_response E messages system_prompt w
    = (match backend E (model_calls w) request system_prompt with
       | inr r => Ret r
       | inl error =>
           Raise (GenericException ("Error generating response: " +:+ error))
       end,
       set_model_calls (S (model_calls w)) w)
  ∧ ClaudeClient.generate_response E request system_prompt w
    = ClaudeClient.generate_response E messages system_prompt w.
Proof.
  intros request.
  assert (strictly_alternating request
          ∧ ClaudeClient.ensure_alternating_roles request = request) as [Halt Hsame].
  { unfold request.
    change ClaudeClient.ensure_alternating_roles
      with ChatManager.ensure_alternating_roles.
    rewrite !ensure_alternating_roles_repaired.
    destruct (repaired_alternates messages None) as [Hfirst Halt].
    split; [done|]. by apply repaired_fixes_alternating. }
  split; [done|].
  unfold ClaudeClient.generate_response. rewrite Hsame. fold request.
  split; [|done].
  unfold try_except, bind, gets, modify, ret, raise.
  by destruct (backend E (model_calls w) request system_prompt).
Qed.

End Client.

(** * Creating, reading and editing files *)

Section Files.
Context (E : Externals).

Lemma create_file_writes gen d path content st :
  d !! "path" = Some (VStr path) →
  d !! "content" = Some (VStr content) →
  let full_path := OsPath.join_str gen path in
  FileOperations.create_file gen (VDict d) st
  = (Ret (VDict {[ "path" := VStr full_path; "status" := VStr "success" ]}),
     (FileOperations.mk
        (<[full_path := VStr content]> (FileOperations.file_contents (fst st)))
        (FileOperations.claude_client (fst st)),
      set_fs (<[OsPath.resolve full_path := content]> (fs (snd st)))
        (set_fs_log (fs_log (snd st) ++ [FsWrite full_path content]) (snd st)))).
Proof.
  intros Hpath Hcontent full_path. destruct st as [self w].
  unfold FileOperations.create_file, try_except, bind, lift_result, py_getitem.
  rewrite Hpath, Hcontent. reflexivity.
Qed.

Lemma read_one_reads gen results path content st :
  FileOperations.excluded (OsPath.join_str gen path) = false →
  fs (snd st) !! OsPath.resolve (OsPath.join_str gen path) = Some content →
  FileOperations.read_one gen results (VStr path) st
  = (Ret (<[path := VDict {[ "status" := VStr "success";
                             "content" := VStr (universal_newlines content) ]}]>
            results),
     (FileOperations.mk
        (<[OsPath.join_str gen path := VStr (universal_newlines content)]>
           (FileOperations.file_contents (fst st)))
        (FileOperations.claude_client (fst st)),
      set_fs_log (fs_log (snd st) ++ [FsRead (OsPath.join_str gen path)]) (snd st))).
Proof.
  intros Hexcluded Hfile. destruct st as [self w]. cbn [fst snd] in *.
  unfold FileOperations.read_one. rewrite Hexcluded.
  unfold try_except, bind, on_world, on_self, zoom, FileOperations.read_file.
  cbn [fst snd]. rewrite Hfile. reflexivity.
Qed.

(** X12. [create_files] has no containment check: the file it opens for
    writing is the plain join of the [_generations] directory and the
    path of the entry, it is reported as a success and cached under that
    path; for an absolute path the join is the path itself. (In the file
    system of the model every write succeeds.) *)
Theorem create_files_writes_where_the_path_says
    (d : gmap string pyval) (path content : string)
    (st : FileOperations.t * World) :
  d !! "path" = Some (VStr path) →
  d !! "content" = Some (VStr content) →
  let full_path :=
    OsPath.join_str (OsPath.join_str (cwd E) "_generations") path in
  FileOperations.create_files E (VList [VDict d]) st
  = (Ret (VDict {[ "results" :=
                     VList [VDict {[ "path" := VStr full_path;
                                     "status" := VStr "success" ]}] ]}),
     (FileOperations.mk
        (<[full_path := VStr content]> (FileOperations.file_contents (fst st)))
        (FileOperations.claude_client (fst st)),
      set_fs (<[OsPath.resolve full_path := content]> (fs (snd st)))
        (set_fs_log (fs_log (snd st) ++ [FsWrite full_path content]) (snd st))))
  ∧ (startswith path "/" = true → full_path = path).
Proof.
  intros Hpath Hcontent full_path. split.
  - unfold FileOperations.create_files, bind at 1, lift_result, py_iter.
    cbn [map_M]. unfold bind at 1, bind at 1.
    rewrite (create_file_writes _ d path content) by done. reflexivity.
  - intros Habs. unfold full_path, OsPath.join_str at 1. by rewrite Habs.
Qed.

Lemma universal_newlines_without_cr s :
  str_contains cr s = false → universal_newlines s = s.
Proof.
  induction s as [|c s IH]; [done|]. rewrite str_contains_cons.
  intros [Hprefix Hrest]%orb_false_iff.
  unfold cr in Hprefix. rewrite str_prefix_cons, str_prefix_nil, andb_true_r in Hprefix.
  apply bool_decide_eq_false in Hprefix.
  cbn [universal_newlines].
  destruct (Ascii.eqb_spec c (ascii_of_nat 13)) as [->|_]; [done|].
  by rewrite IH.
Qed.

(** X13. What [create_files] wrote under a path, [read_multiple_files]
    reads back under the same path, with the ends of lines as reading
    in text mode gives them, and caches under the full path, unless the
    full path holds one of the excluded words; a content without a
    carriage return comes back as it was written. *)
Theorem create_then_read_round_trip
    (path content : string) (st : FileOperations.t * World) :
  let full_path :=
    OsPath.join_str (OsPath.join_str (cwd E) "_generations") path in
  FileOperations.excluded full_path = false →
  let created :=
    snd (FileOperations.create_files E
           (VList [VDict {[ "path" := VStr path; "content" := VStr content ]}]) st) in
  fst (FileOperations.read_multiple_files E (VList [VStr path]) created)
  = Ret (VDict {[ path := VDict {[ "status" := VStr "success";
                                   "content" := VStr (universal_newlines content) ]} ]})
  ∧ FileOperations.file_contents
      (fst (snd (FileOperations.read_multiple_files E (VList [VStr path]) created)))
    !! full_path = Some (VStr (universal_newlines content))
  ∧ (str_contains cr content = false → universal_newlines content = content).
Proof.
  intros full_path Hexcluded created.
  assert (created
          = (FileOperations.mk
               (<[full_path := VStr content]> (FileOperations.file_contents (fst st)))
               (FileOperations.claude_client (fst st)),
             set_fs (<[OsPath.resolve full_path := content]> (fs (snd st)))
               (set_fs_log (fs_log (snd st) ++ [FsWrite full_path content]) (snd st))))
    as ->.
  { unfold created, FileOperations.create_files, bind at 1, lift_result, py_iter.
    cbn [map_M]. unfold bind at 1, bind at 1.
    rewrite (create_file_writes _ _ path content) by done. reflexivity. }
  match goal with
  | |- context [FileOperations.read_multiple_files E ?paths ?created] =>
      assert (∃ st', FileOperations.read_multiple_files E paths created
                = (Ret (VDict {[ path :=
                                   VDict {[ "status" := VStr "success";
                                            "content" :=
                                              VStr (universal_newlines content) ]} ]}),
                   st')
                ∧ FileOperations.file_contents (fst st') !! full_path
                  = Some (VStr (universal_newlines content))) as (st' & -> & Hcached)
  end.
  - unfold FileOperations.read_multiple_files, bind at 1, lift_result, py_iter.
    cbn [for_each]. unfold bind at 1, bind at 1.
    rewrite (read_one_reads _ _ path content);
      [|exact Hexcluded|cbn [snd fs set_fs set_fs_log]; apply lookup_insert_eq].
    eexists. split; [reflexivity|]. apply lookup_insert_eq.
  - split; [done|]. split; [done|]. apply universal_newlines_without_cr.
Qed.

Lemma excluded_append_l prefix rest :
  FileOperations.excluded prefix = true →
  FileOperations.excluded (prefix +:+ rest) = true.
Proof.
  unfold FileOperations.excluded. rewrite !existsb_exists.
  intros (word & Hword & Hin). exists word. split; [done|].
  by apply str_contains_append_r.
Qed.

Lemma join_str_relative a b :
  startswith b "/" = false →
  ∃ sep, OsPath.join_str a b = a +:+ sep +:+ b.
Proof.
  intros Hrel. unfold OsPath.join_str. rewrite Hrel.
  destruct (_ || _); [by exists EmptyString|by exists "/"].
Qed.

Lemma read_excluded gen paths : ∀ results st,
  FileOperations.excluded gen = true →
  Forall (λ path, startswith path "/" = false) paths →
  for_each (FileOperations.read_one gen) (VStr <$> paths) results st
  = (Ret results, st).
Proof.
  induction paths as [|path paths IH]; intros results st Hgen Hrel; [done|].
  apply Forall_cons in Hrel as [Hpath Hrel].
  cbn [fmap list_fmap for_each]. unfold bind at 1.
  unfold FileOperations.read_one at 1.
  destruct (join_str_relative gen path Hpath) as [sep ->].
  rewrite excluded_append_l by done. cbn [ret]. by apply IH.
Qed.

(** X14. The exclusion test of [read_multiple_files] looks at the full
    path: when the working directory itself holds one of the excluded
    words (such as [venv]), every relative path is passed over, the
    result is the empty dictionary, and no file is opened. *)
Theorem read_multiple_files_under_excluded_directory
    (paths : list string) (st : FileOperations.t * World) :
  FileOperations.excluded (cwd E) = true →
  Forall (λ path, startswith path "/" = false) paths →
  FileOperations.read_multiple_files E (VList (VStr <$> paths)) st
  = (Ret (VDict ∅), st).
Proof.
  intros Hcwd Hrel.
  unfold FileOperations.read_multiple_files, bind at 1, lift_result, py_iter.
  unfold bind at 1. rewrite read_excluded; [done| |done].
  destruct (join_str_relative (cwd E) "_generations" eq_refl) as [sep ->].
  by apply excluded_append_l.
Qed.

Lemma read_one_entry gen results path st :
  ∃ results' st',
    FileOperations.read_one gen results (VStr path) st = (Ret results', st')
    ∧ (FileOperations.excluded (OsPath.join_str gen path) = true →
       results' = results ∧ st' = st)
    ∧ (FileOperations.excluded (OsPath.join_str gen path) = false →
       ∃ entry, results' = <[path := VDict entry]> results
                ∧ (entry !! "status" = Some (VStr "success")
                   ∨ entry !! "status" = Some (VStr "error"))).
Proof.
  unfold FileOperations.read_one.
  destruct (FileOperations.excluded (OsPath.join_str gen path)).
  - eexists _, _. split; [done|]. split; [done|discriminate].
  - unfold try_except, bind, on_world, on_self, zoom, FileOperations.read_file.
    destruct st as [self w]. cbn [fst snd].
    destruct (fs w !! OsPath.resolve (OsPath.join_str gen path)) as [content|].
    + eexists _, _. split; [reflexivity|]. split; [discriminate|].
      intros _. eexists. split; [reflexivity|]. by left.
    + eexists _, _. split; [reflexivity|]. split; [discriminate|].
      intros _. eexists. split; [reflexivity|]. by right.
Qed.

Lemma read_all gen paths : ∀ results st,
  ∃ results' st',
    for_each (FileOperations.read_one gen) (VStr <$> paths) results st
    = (Ret results', st')
    ∧ ∀ path, is_Some (results' !! path)
              ↔ is_Some (results !! path)
                ∨ (path ∈ paths
                   ∧ FileOperations.excluded (OsPath.join_str gen path) = false).
Proof.
  induction paths as [|path paths IH]; intros results st.
  - exists results, st. split; [done|]. intros p. rewrite elem_of_nil. tauto.
  - cbn [fmap list_fmap for_each]. unfold bind at 1.
    destruct (read_one_entry gen results path st)
      as (results1 & st1 & -> & Hexcluded & Hread).
    destruct (IH results1 st1) as (results' & st' & -> & Hdom).
    exists results', st'. split; [done|]. intros p. rewrite Hdom, elem_of_cons.
    destruct (FileOperations.excluded (OsPath.join_str gen path)) eqn:Hex.
    + destruct (Hexcluded eq_refl) as [-> _]. split; [tauto|].
      intros [?|[[->|?] Hp]]; [tauto|congruence|tauto].
    + destruct (Hread eq_refl) as (entry & -> & _).
      rewrite lookup_insert_is_Some.
      destruct (decide (path = p)); naive_solver.
Qed.

(** X15. For a list of path strings [read_multiple_files] always
    returns a dictionary, whatever files exist: it has an entry for
    exactly those paths of the list whose full path holds none of the
    excluded words. *)
Theorem read_multiple_files_entries (paths : list string)
    (st : FileOperations.t * World) :
  ∃ (results : gmap string pyval) (st' : FileOperations.t * World),
    FileOperations.read_multiple_files E (VList (VStr <$> paths)) st
    = (Ret (VDict results), st')
    ∧ ∀ path,
        is_Some (results !! path)
        ↔ path ∈ paths
          ∧ FileOperations.excluded
              (OsPath.join_str (OsPath.join_str (cwd E) "_generations") path)
            = false.
Proof.
  unfold FileOperations.read_multiple_files, bind at 1, lift_result, py_iter.
  unfold bind at 1.
  destruct (read_all (OsPath.join_str (cwd E) "_generations") paths ∅ st)
    as (results & st' & -> & Hdom).
  exists results, st'. split; [done|]. intros path. rewrite Hdom, lookup_empty.
  split; [intros [[? [=]]|?]; done|tauto].
Qed.

Lemma replace_from_absent old new s :
  str_contains old s = false → replace_from old new 0 s = s.
Proof.
  induction s as [|c s IH]; [done|]. rewrite str_contains_cons.
  intros [Hprefix Hrest]%orb_false_iff.
  cbn [replace_from]. by rewrite Hprefix, IH.
Qed.

Lemma str_replace_absent s old new :
  str_contains old s = false → str_replace s old new = s.
Proof.
  intros H. unfold str_replace.
  destruct (String.eqb_spec old EmptyString) as [->|_].
  - destruct s; discriminate H.
  - by apply replace_from_absent.
Qed.

(** X16. [apply_edits] leaves the content as it is when none of the
    search texts of the instructions, once stripped, occurs in it. *)
Theorem apply_edits_without_match (content edit_instructions : string) :
  Forall (λ pair, str_contains (strip (fst pair)) content = false)
    (re_findall_pairs E "<SEARCH>(.*?)</SEARCH>\s*<REPLACE>(.*?)</REPLACE>"
       edit_instructions) →
  FileOperations.apply_edits E content edit_instructions = content.
Proof.
  unfold FileOperations.apply_edits.
  induction 1 as [|[search replace] pairs Hpair _ IH]; [done|].
  cbn [fold_left]. cbn [fst] in Hpair. by rewrite str_replace_absent.
Qed.





End Files.


(** * The dispatcher and the turn *)

Section Console.

Lemma show_prints d s : with_world (show d) s = (Ret (), print d s).
Proof. reflexivity. Qed.

End Console.


Section Dispatch.
Context (E : Externals) (handler : string → pyval → M Tools pyval).

Lemma concat_cons (x : string) (l : list string) :
  String.concat EmptyString (x :: l) = x +:+ String.concat EmptyString l.
Proof. destruct l; [by rewrite str_append_nil_r|done]. Qed.

Lemma fold_split_step content : ∀ text flag tool_uses,
  fold_left (ChatManager.split_step E) content (text, flag, tool_uses)
  = (text +:+ ClaudeClient.joined_text content,
     flag || existsb (says_exit (CONTINUATION_EXIT_PHRASE E)) content,
     tool_uses ++ omap tool_use_of content).
Proof.
  unfold ClaudeClient.joined_text.
  induction content as [|block content IH]; intros text flag tool_uses.
  - cbn. by rewrite str_append_nil_r, orb_false_r, app_nil_r.
  - cbn [fold_left fmap list_fmap existsb omap]. rewrite concat_cons.
    destruct block as [block_text|id name input|type];
      cbn [ChatManager.split_step ClaudeClient.text_of says_exit tool_use_of];
      rewrite IH.
    + rewrite str_append_assoc. f_equal. f_equal.
      destruct (str_contains _ block_text); [by rewrite orb_true_r|done].
    + by rewrite <- app_assoc.
    + done.
Qed.

(** X18. The loop over the content blocks of a reply returns the text
    blocks joined in order (the same text as [joined_text] of the
    client), the completion flag exactly when some text block holds the
    exit phrase, and the tool calls in their order. *)
Theorem reply_split (content : list content_block) :
  fold_left (ChatManager.split_step E) content (EmptyString, false, [])
  = (ClaudeClient.joined_text content,
     existsb (says_exit (CONTINUATION_EXIT_PHRASE E)) content,
     omap tool_use_of content).
Proof. by rewrite fold_split_step. Qed.

Lemma eqb_of_not_elem (name : string) (names : list string) other :
  name ∉ names → other ∈ names → String.eqb name other = false.
Proof. intros Hname Hother. apply String.eqb_neq. by intros ->. Qed.

(** X19. A tool name for which the dispatcher has no branch yields the
    [Unknown tool] envelope and leaves the session as it is. Of the
    tools in the catalog sent to the model this is the case for
    [scan_folder]. *)
Theorem tool_without_a_branch (tool_name : string) (tool_input : pyval)
    (s : Session) :
  tool_name ∉ tools_with_a_branch →
  ChatManager.run_tool E handler tool_name tool_input s
  = (Ret (ChatManager.error_envelope ("Unknown tool: " +:+ tool_name)), s).
Proof.
  intros Hname.
  unfold ChatManager.run_tool, ChatManager.execute_tool, try_except.
  rewrite !(eqb_of_not_elem tool_name tools_with_a_branch)
    by (done || unfold tools_with_a_branch; set_solver).
  reflexivity.
Qed.

Lemma execute_tool_no_Exception tool_name tool_input s e s' :
  ChatManager.execute_tool E handler tool_name tool_input s = (Raise e, s') →
  e = KeyboardInterrupt.
Proof.
  unfold ChatManager.execute_tool, try_except.
  destruct (_ s) as [[result|e'] s1]; [discriminate|].
  destruct e'; cbn [is_Exception]; by intros [= <- _].
Qed.

(** X20. [execute_tool] turns a missing first argument into the error
    envelope [Error executing <tool>: '<key>'] with the session
    unchanged, and it never lets an [Exception] through: the only thing
    it can raise is [KeyboardInterrupt]. *)
Theorem execute_tool_contains_failures (tool_name key : string)
    (d : gmap string pyval) (s : Session) :
  (tool_name, key) ∈ first_argument →
  d !! key = None →
  ChatManager.execute_tool E handler tool_name (VDict d) s
  = (Ret (ChatManager.error_envelope
            ("Error executing " +:+ tool_name +:+ ": '" +:+ key +:+ "'")), s)
  ∧ ∀ tool_name tool_input s e s',
      ChatManager.execute_tool E handler tool_name tool_input s = (Raise e, s') →
      e = KeyboardInterrupt.
Proof.
  intros Hin Hkey. split; [|apply execute_tool_no_Exception].
  unfold first_argument in Hin. rewrite !elem_of_cons, elem_of_nil in Hin.
  destruct Hin as [[= -> ->]|[[= -> ->]|[[= -> ->]|[[= -> ->]|[[= -> ->]|[]]]]]];
    unfold ChatManager.execute_tool, try_except, bind, lift_result, py_getitem;
    cbn [String.eqb Ascii.eqb Bool.eqb]; by rewrite Hkey.
Qed.

(** X21. A tool call that returns appends exactly two messages to the
    turn buffer, the assistant's tool-use block and the user's
    tool-result block with the same id; it caches the input of the tool
    under the name of the tool, as if the name were a path below
    [_generations]; and it leaves the conversation as it is. *)
Theorem call_tool_records_the_call
    (current_conversation : list message) (tool_use_id tool_name : string)
    (tool_input tool_result : pyval) (buffer : list message) (s s' : Session) :
  ChatManager.call_tool E handler current_conversation
    (tool_use_id, tool_name, tool_input) s
  = (Ret (tool_result, buffer), s') →
  buffer
  = current_conversation
    ++ [ ChatManager.tool_use_message tool_use_id tool_name tool_input;
         ChatManager.tool_result_message tool_use_id
           (ChatManager.tool_result_text E tool_result)
           (ChatManager.is_error_of tool_result) ]
  ∧ FileOperations.file_contents (file_ops s')
    !! OsPath.join_str (OsPath.join_str (cwd E) "_generations") tool_name
    = Some tool_input
  ∧ conversation s' = conversation s.
Proof.
  intros Hcall.
  assert (conversation s' = conversation s) as Hconversation.
  { pose proof (keeps_call_tool E handler current_conversation
                  (tool_use_id, tool_name, tool_input) s) as Hkeeps.
    by rewrite Hcall in Hkeeps. }
  split; [|split; [|done]];
    unfold ChatManager.call_tool in Hcall;
    apply bind_Ret_inv in Hcall as ([] & s1 & _ & Hcall);
    apply bind_Ret_inv in Hcall as ([] & s2 & _ & Hcall);
    apply bind_Ret_inv in Hcall as (result & s3 & _ & Hcall);
    apply bind_Ret_inv in Hcall as ([] & s4 & _ & Hcall);
    apply bind_Ret_inv in Hcall as ([] & s5 & Hcache & Hcall);
    injection Hcall as <- <- <-.
  - by rewrite <- app_assoc.
  - injection Hcache as <-. cbn. apply lookup_insert_eq.
Qed.

(** X22. [decide_retry] has two outcomes only: the decision not to retry
    with the one success line printed, or an exception with the session
    unchanged. It never returns a decision to retry. *)
Theorem decide_retry_outcomes (commentary : string) (edit_results : pyval)
    (s : Session) :
  ChatManager.decide_retry E commentary edit_results s
  = (Ret (mkRetryDecision false []), print (Success "No retry needed") s)
  ∨ ∃ e, ChatManager.decide_retry E commentary edit_results s = (Raise e, s).
Proof.
  destruct (ChatManager.errors_present edit_results) as [errors|e] eqn:Herr.
  - destruct (errors || ChatManager.phrase_present commentary) eqn:Htrigger.
    + right. eexists. by apply (decide_retry_NameError _ _ _ errors).
    + left. apply orb_false_iff in Htrigger as [-> Hphrase].
      by apply decide_retry_no_trigger.
  - right. exists e. unfold ChatManager.decide_retry, bind, lift_result.
    by rewrite Herr.
Qed.

(** X23. An image turn whose image cannot be encoded returns the fixed
    error text with the flag false; nothing is stored, no request is
    sent, and the one change is the line printed before the encoding. *)
Theorem image_turn_without_image (user_input path : string)
    (current_iteration max_iterations : option nat) (s : Session) :
  path ≠ EmptyString →
  encode_image E path = None →
  ChatManager.chat_with_claude E handler user_input (Some path)
    current_iteration max_iterations s
  = (Ret ("Error processing the image. Please try again with a different image.",
          false),
     print (Info ("Processing image at path: " +:+ path)) s).
Proof.
  intros Hpath Hencode.
  unfold ChatManager.chat_with_claude, ChatManager.begin_turn.
  apply String.eqb_neq in Hpath. rewrite Hpath.
  unfold bind at 1. unfold bind at 1.
  change (with_world (show ?d) s) with (Ret (), print d s).
  cbv beta iota. by rewrite Hencode.
Qed.

Lemma generate_response_answers messages prompt r s :
  backend E (model_calls (world s))
    (ChatManager.ensure_alternating_roles messages) prompt = inr r →
  with_world (ClaudeClient.generate_response E messages prompt) s
  = (Ret r, count_request s).
Proof.
  intros Hbackend.
  unfold with_world, zoom, ClaudeClient.generate_response, try_except, bind,
    gets, modify, raise, ret.
  cbn [model_calls set_model_calls].
  change ClaudeClient.ensure_alternating_roles
    with ChatManager.ensure_alternating_roles.
  rewrite Hbackend. reflexivity.
Qed.

Lemma repaired_twice l :
  ChatManager.ensure_alternating_roles (ChatManager.ensure_alternating_roles l)
  = ChatManager.ensure_alternating_roles l.
Proof.
  rewrite !ensure_alternating_roles_repaired.
  destruct (repaired_alternates l None). by apply repaired_fixes_alternating.
Qed.

Lemma update_token_usage_session model input output s :
  with_token_tracker (TokenTracker.update_token_usage model input output) s
  = (Ret (),
     match TokenTracker.token_usage (token_tracker s) !! model with
     | Some (i, o) =>
         set_token_tracker
           (TokenTracker.mk (<[model := ((i + input)%Z, (o + output)%Z)]>
                               (TokenTracker.token_usage (token_tracker s)))) s
     | None => print (Error ("Error: Unknown model '" +:+ model +:+ "'")) s
     end).
Proof.
  unfold with_token_tracker, zoom, TokenTracker.update_token_usage, bind, gets.
  cbn [fst]. destruct (_ !! model) as [[i o]|]; destruct s; reflexivity.
Qed.

Lemma display_files_in_context_session s :
  with_file_ops FileOperations.display_files_in_context s
  = (Ret (),
     print (FilesInContext
              (if bool_decide (FileOperations.file_contents (file_ops s) = ∅)
               then "No files in context. Read, create, or edit files to add."
               else str_join nl (map_to_list
                                   (FileOperations.file_contents (file_ops s))).*1))
       s).
Proof. destruct s. reflexivity. Qed.

(** X24. [tavily_search] is called outside [execute_tool] and outside
    any [try]: when the model asks for it without a [query], the
    [KeyError] leaves [chat_with_claude]. *)
Theorem tavily_search_without_query_aborts_the_turn
    (user_input : string) (current_iteration max_iterations : option nat)
    (s : Session) (reply : response) (tool_use_id : string)
    (d : gmap string pyval) (others : list (string * string * pyval)) :
  Forall stored_by_turns (Conversation.history (conversation s)) →
  backend E (model_calls (world s))
    (ChatManager.ensure_alternating_roles
       (Conversation.history (conversation s)
        ++ [Message User (VStr user_input); Message User (VStr user_input)]))
    (ChatManager.update_system_prompt current_iteration max_iterations)
  = inr reply →
  omap tool_use_of (resp_content reply)
  = (tool_use_id, "tavily_search", VDict d) :: others →
  d !! "query" = None →
  fst (ChatManager.chat_with_claude E handler user_input None
         current_iteration max_iterations s)
  = Raise (KeyError "query").
Proof.
  intros Hstored Hbackend Huses Hquery.
  unfold ChatManager.chat_with_claude.
  unfold bind at 1. rewrite begin_text_turn.
  unfold bind at 1.
  rewrite (filter_history_result _
             (Ret (Conversation.history (conversation s)
                   ++ [Message User (VStr user_input)]))).
  2: { apply filter_messages_stored. cbn. apply Forall_app. split; [done|].
       repeat constructor. }
  rewrite <- app_assoc. cbn [app].
  unfold bind at 1, try_except at 1, bind at 1.
  rewrite (generate_response_answers _ _ reply).
  2: { rewrite repaired_twice. exact Hbackend. }
  unfold bind at 1. rewrite update_token_usage_session. cbn [ret].
  rewrite fold_split_step, Huses. cbn [app].
  unfold bind at 1. rewrite show_prints.
  unfold bind at 1. rewrite display_files_in_context_session.
  unfold bind at 1. cbn [for_each]. unfold bind at 1.
  unfold ChatManager.tool_round at 1. unfold bind at 1.
  unfold ChatManager.call_tool at 1.
  unfold bind at 1. rewrite show_prints.
  unfold bind at 1. rewrite show_prints.
  unfold bind at 1. unfold ChatManager.run_tool at 1.
  cbn [String.eqb Ascii.eqb Bool.eqb].
  unfold bind at 1, lift_result, py_getitem. rewrite Hquery. reflexivity.
Qed.

Lemma user_message_sent_twice history text :
  ∃ before,
    ChatManager.ensure_alternating_roles
      (history ++ [Message User (VStr text); Message User (VStr text)])
    = before ++ [Message User (VStr text); ChatManager.placeholder;
                 Message User (VStr text)].
Proof.
  unfold ChatManager.ensure_alternating_roles. rewrite fold_left_app.
  destruct (fold_left ChatManager.alternate history ([], None)) as [out last_role].
  cbn [fold_left]. unfold ChatManager.alternate at 2. cbn [msg_role].
  destruct (bool_decide (Some User ≠ last_role)).
  - exists out. unfold ChatManager.alternate. cbn [msg_role].
    rewrite bool_decide_eq_false_2 by (intros Hn; by apply Hn).
    rewrite bool_decide_eq_true_2 by done. cbn [fst]. by rewrite <- app_assoc.
  - rewrite bool_decide_eq_true_2 by done.
    exists (out ++ [ChatManager.placeholder]).
    unfold ChatManager.alternate. cbn [msg_role].
    rewrite bool_decide_eq_false_2 by (intros Hn; by apply Hn).
    rewrite bool_decide_eq_true_2 by done. cbn [fst]. by rewrite <- !app_assoc.
Qed.

(** X25. A regular chat turn on a stored history, when the model
    answers without tool calls: the user message is stored and the reply
    is not, one request is sent, the tokens are booked on [main_model],
    the reply is displayed twice (by the turn and by
    [handle_regular_chat]), and the request ends with the user message,
    a placeholder and the user message again. *)
Theorem regular_chat_turn
    (user_input : string) (s : Session) (content : list content_block)
    (input output spent_input spent_output : Z) :
  Forall stored_by_turns (Conversation.history (conversation s)) →
  let msg := Message User (VStr user_input) in
  let request :=
    ChatManager.ensure_alternating_roles
      (Conversation.history (conversation s) ++ [msg; msg]) in
  backend E (model_calls (world s)) request
    (ChatManager.update_system_prompt None None)
  = inr (Response content input output) →
  omap tool_use_of content = [] →
  TokenTracker.token_usage (token_tracker s) !! "main_model"
  = Some (spent_input, spent_output) →
  let text := ClaudeClient.joined_text content in
  let s' := snd (ChatManager.handle_regular_chat E handler user_input s) in
  fst (ChatManager.handle_regular_chat E handler user_input s) = Ret ()
  ∧ Conversation.history (conversation s')
    = Conversation.history (conversation s) ++ [msg]
  ∧ model_calls (world s') = S (model_calls (world s))
  ∧ TokenTracker.token_usage (token_tracker s') !! "main_model"
    = Some ((spent_input + input)%Z, (spent_output + output)%Z)
  ∧ (∃ files,
       console (world s')
       = console (world s)
         ++ [ AssistantResponse text; FilesInContext files; TokenUsageTable;
              AssistantResponse text ])
  ∧ ∃ before, request = before ++ [msg; ChatManager.placeholder; msg].
Proof.
  intros Hstored msg request Hbackend Huses Hspent text s'.
  assert (∃ files,
    ChatManager.handle_regular_chat E handler user_input s
    = (Ret (),
       print (AssistantResponse text)
         (print TokenUsageTable
            (print (FilesInContext files)
               (print (AssistantResponse text)
                  (set_token_tracker
                     (TokenTracker.mk
                        (<["main_model" := ((spent_input + input)%Z,
                                            (spent_output + output)%Z)]>
                           (TokenTracker.token_usage (token_tracker s))))
                     (count_request (remember msg s)))))))) as [files Hrun].
  { eexists. unfold ChatManager.handle_regular_chat.
    unfold bind at 1. unfold ChatManager.chat_with_claude.
    unfold bind at 1. rewrite begin_text_turn.
    unfold bind at 1.
    rewrite (filter_history_result _
               (Ret (Conversation.history (conversation s) ++ [msg]))).
    2: { apply filter_messages_stored. cbn. apply Forall_app. split; [done|].
         repeat constructor. }
    rewrite <- app_assoc. cbn [app].
    unfold bind at 1, try_except at 1, bind at 1.
    rewrite (generate_response_answers _ _ (Response content input output)).
    2: { rewrite repaired_twice. exact Hbackend. }
    unfold bind at 1. rewrite update_token_usage_session.
    cbn [token_tracker count_request remember set_world set_conversation].
    rewrite Hspent. cbn [ret input_tokens output_tokens resp_content].
    rewrite fold_split_step, Huses. cbn [app for_each].
    unfold bind at 1. rewrite show_prints.
    unfold bind at 1. rewrite display_files_in_context_session.
    unfold bind at 1. cbn [ret].
    unfold bind at 1.
    change (with_token_tracker TokenTracker.display_token_usage)
      with (with_world (show TokenUsageTable)). rewrite show_prints.
    cbn [ret fst]. rewrite show_prints. reflexivity. }
  unfold s'. rewrite Hrun. cbn [fst snd].
  split; [done|]. split; [done|]. split; [done|].
  split; [cbn; apply lookup_insert_eq|].
  split; [|apply user_message_sent_twice].
  eexists. cbn. rewrite <- !app_assoc. reflexivity.
Qed.

End Dispatch.


(** * More of the autonomous mode *)

Section Automode_more.
Context (E : Externals).

(** One pass of the loop when the orchestrator returns. *)
Lemma iteration_success (chat : ChatManager.Orchestrator) max_iterations vars s
    reply flag s1 :
  automode s = true →
  ChatManager.iteration_count vars < max_iterations →
  chat (ChatManager.user_input vars) (Some (ChatManager.iteration_count vars + 1))
    (Some max_iterations) s
  = (Ret (reply, flag), s1) →
  ChatManager.iteration E chat max_iterations vars s
  = let done := flag || str_contains (CONTINUATION_EXIT_PHRASE E) reply in
    let s2 :=
      if done then set_automode false (print (Success "Automode completed.") s1)
      else print (Info ("Continuation iteration "
                        +:+ pretty (ChatManager.iteration_count vars + 1)
                        +:+ " completed. Press Ctrl+C to exit automode. ")) s1 in
    (Ret (ChatManager.Continue
            (ChatManager.mkLoopVars (ChatManager.iteration_count vars + 1) 0
               (if done then ChatManager.user_input vars
                else ChatManager.next_step_prompt))),
     if max_iterations <=? ChatManager.iteration_count vars + 1
     then set_automode false
            (print (Error "Max iterations reached. Exiting automode.") s2)
     else s2).
Proof.
  intros Hauto Hlt Hchat. apply Nat.ltb_lt in Hlt.
  unfold ChatManager.iteration.
  cbv beta iota delta [bind gets ret try_except modify with_world zoom show].
  rewrite Hauto, Hlt. cbn [andb]. cbv beta. rewrite Hchat.
  destruct (flag || _); destruct (max_iterations <=? _); reflexivity.
Qed.

Lemma iteration_stopped (chat : ChatManager.Orchestrator) max_iterations vars s :
  automode s && (ChatManager.iteration_count vars <? max_iterations) = false →
  ChatManager.automode_loop E chat max_iterations vars s = (Ret (), s).
Proof.
  intros Hstop. rewrite automode_loop_step. unfold ChatManager.iteration.
  unfold bind at 1, gets. by rewrite Hstop.
Qed.

(** X26. With zero iterations the autonomous mode never calls the
    orchestrator and returns at once, and the [automode] flag stays
    set. *)
Theorem automode_without_iterations (chat : ChatManager.Orchestrator)
    (goal : string) (s : Session) :
  ChatManager.handle_automode E chat 0 goal s
  = (Ret (),
     print (Success "Exited automode. Returning to regular chat.")
       (print (Info "Press Ctrl+C at any time to exit the automode loop.")
          (print (Info "Entering automode with 0 iterations. Please provide the goal of the automode.")
             (set_automode true s))))
  ∧ automode (snd (ChatManager.handle_automode E chat 0 goal s)) = true.
Proof.
  assert (ChatManager.handle_automode E chat 0 goal s
          = (Ret (),
             print (Success "Exited automode. Returning to regular chat.")
               (print (Info "Press Ctrl+C at any time to exit the automode loop.")
                  (print (Info "Entering automode with 0 iterations. Please provide the goal of the automode.")
                     (set_automode true s))))) as Hrun.
  { unfold ChatManager.handle_automode, ChatManager.except_KeyboardInterrupt.
    cbv beta iota delta [bind ret modify with_world zoom show].
    rewrite iteration_stopped; [reflexivity|].
    cbn [ChatManager.iteration_count Nat.ltb Nat.leb]. apply andb_false_r. }
  rewrite Hrun. done.
Qed.

(** X27. When the first reply completes the goal (by the flag or by the
    exit phrase in the text) the loop ends after that one call with the
    flag off; with one iteration allowed the max-iterations error is
    printed as well, after the completion message. *)
Theorem automode_completes_on_first_reply (chat : ChatManager.Orchestrator)
    (max_iterations : nat) (goal reply : string) (flag : bool) (s s1 : Session) :
  0 < max_iterations →
  let s0 :=
    print (Info "Press Ctrl+C at any time to exit the automode loop.")
      (print (Info ("Entering automode with " +:+ pretty max_iterations
                    +:+ " iterations. Please provide the goal of the automode."))
         (set_automode true s)) in
  chat goal (Some 1) (Some max_iterations) s0 = (Ret (reply, flag), s1) →
  flag || str_contains (CONTINUATION_EXIT_PHRASE E) reply = true →
  let completed := set_automode false (print (Success "Automode completed.") s1) in
  ChatManager.handle_automode E chat max_iterations goal s
  = (Ret (),
     print (Success "Exited automode. Returning to regular chat.")
       (if max_iterations =? 1
        then set_automode false
               (print (Error "Max iterations reached. Exiting automode.") completed)
        else completed)).
Proof.
  intros Hmax s0 Hchat Hdone completed.
  unfold ChatManager.handle_automode, ChatManager.except_KeyboardInterrupt.
  unfold bind at 1, modify. unfold bind at 1. rewrite show_prints.
  unfold bind at 1. rewrite show_prints. fold s0.
  unfold bind at 1.
  rewrite automode_loop_step.
  rewrite (iteration_success chat _ _ _ reply flag s1); [|done|cbn; lia|exact Hchat].
  rewrite Hdone. cbn [ChatManager.iteration_count ChatManager.user_input Nat.add].
  rewrite iteration_stopped.
  2: { by destruct (max_iterations <=? 1). }
  rewrite show_prints.
  replace (max_iterations <=? 1) with (max_iterations =? 1); [done|].
  destruct (Nat.eqb_spec max_iterations 1) as [->|Hne]; [done|].
  symmetry. apply Nat.leb_gt. lia.
Qed.

(** X28. A [KeyboardInterrupt] in the first call ends the autonomous
    mode normally: the error line is printed, the flag is off, and the
    acknowledgment is stored as an assistant message. *)
Theorem automode_interrupt_is_acknowledged (chat : ChatManager.Orchestrator)
    (max_iterations : nat) (goal : string) (s s1 : Session) :
  0 < max_iterations →
  let s0 :=
    print (Info "Press Ctrl+C at any time to exit the automode loop.")
      (print (Info ("Entering automode with " +:+ pretty max_iterations
                    +:+ " iterations. Please provide the goal of the automode."))
         (set_automode true s)) in
  chat goal (Some 1) (Some max_iterations) s0 = (Raise KeyboardInterrupt, s1) →
  ChatManager.handle_automode E chat max_iterations goal s
  = (Ret (),
     print (Success "Exited automode. Returning to regular chat.")
       (remember
          (Message Assistant
             (VStr "Automode interrupted. How can I assist you further?"))
          (set_automode false
             (print (Error (nl +:+ "Automode interrupted by user. Exiting automode."))
                s1)))).
Proof.
  intros Hmax s0 Hchat.
  unfold ChatManager.handle_automode, ChatManager.except_KeyboardInterrupt.
  unfold bind at 1, modify. unfold bind at 1. rewrite show_prints.
  unfold bind at 1. rewrite show_prints. fold s0.
  unfold bind at 1.
  rewrite automode_loop_step.
  assert (ChatManager.iteration E chat max_iterations
            (ChatManager.mkLoopVars 0 0 goal) s0
          = (Raise KeyboardInterrupt, s1)) as ->.
  { unfold ChatManager.iteration.
    cbv beta iota delta [bind gets ret try_except modify with_world zoom show].
    change (automode s0) with true. cbn [ChatManager.iteration_count].
    replace (0 <? max_iterations) with true by (symmetry; by apply Nat.ltb_lt).
    cbn [andb ChatManager.user_input Nat.add]. cbv beta. by rewrite Hchat. }
  reflexivity.
Qed.

(** The loop with an orchestrator that never completes, from iteration
    [i] on. *)
Lemma loop_without_completion (chat : ChatManager.Orchestrator)
    (tick : Session → Session) max_iterations :
  (∀ u i m s, ∃ reply,
      chat u i m s = (Ret (reply, false), tick s)
      ∧ str_contains (CONTINUATION_EXIT_PHRASE E) reply = false) →
  (∀ s, automode (tick s) = automode s) →
  (∀ s, model_calls (world (tick s)) = S (model_calls (world s))) →
  ∀ remaining vars s,
    automode s = true →
    ChatManager.iteration_count vars + S remaining = max_iterations →
    ∃ s',
      ChatManager.automode_loop E chat max_iterations vars s = (Ret (), s')
      ∧ automode s' = false
      ∧ model_calls (world s') = model_calls (world s) + S remaining
      ∧ last (console (world s'))
        = Some (Error "Max iterations reached. Exiting automode.").
Proof.
  intros Hchat Htick_automode Htick_calls.
  induction remaining as [|remaining IH]; intros vars s Hauto Hcount.
  - rewrite automode_loop_step.
    destruct (Hchat (ChatManager.user_input vars)
                (Some (ChatManager.iteration_count vars + 1))
                (Some max_iterations) s) as (reply & Hcall & Hreply).
    rewrite (iteration_success chat _ _ _ reply false (tick s));
      [|done|lia|exact Hcall].
    rewrite Hreply. cbn [orb].
    replace (max_iterations <=? ChatManager.iteration_count vars + 1) with true
      by (symmetry; apply Nat.leb_le; lia).
    rewrite iteration_stopped by done.
    eexists. split; [reflexivity|]. split; [done|].
    split; [cbn; rewrite Htick_calls; lia|].
    cbn. by rewrite last_snoc.
  - rewrite automode_loop_step.
    destruct (Hchat (ChatManager.user_input vars)
                (Some (ChatManager.iteration_count vars + 1))
                (Some max_iterations) s) as (reply & Hcall & Hreply).
    rewrite (iteration_success chat _ _ _ reply false (tick s));
      [|done|lia|exact Hcall].
    rewrite Hreply. cbn [orb].
    replace (max_iterations <=? ChatManager.iteration_count vars + 1) with false
      by (symmetry; apply Nat.leb_gt; lia).
    edestruct (IH (ChatManager.mkLoopVars (ChatManager.iteration_count vars + 1) 0
                     ChatManager.next_step_prompt))
      as (s' & -> & Hoff & Hcalls & Hlast).
    + cbn. by rewrite Htick_automode.
    + cbn [ChatManager.iteration_count]. lia.
    + exists s'. split; [done|]. split; [done|]. split; [|done].
      rewrite Hcalls. cbn. rewrite Htick_calls. lia.
Qed.

(** X29. With an orchestrator that always returns and never completes,
    the autonomous mode calls it exactly [max_iterations] times and
    returns, whatever [max_iterations] is. With at least one iteration
    it ends with the flag off and prints the max-iterations error last
    before the exit line; with none the flag is still set. *)
Theorem automode_uses_all_iterations (chat : ChatManager.Orchestrator)
    (tick : Session → Session) (max_iterations : nat) (goal : string)
    (s : Session) :
  (∀ u i m s, ∃ reply,
      chat u i m s = (Ret (reply, false), tick s)
      ∧ str_contains (CONTINUATION_EXIT_PHRASE E) reply = false) →
  (∀ s, automode (tick s) = automode s) →
  (∀ s, model_calls (world (tick s)) = S (model_calls (world s))) →
  let s' := snd (ChatManager.handle_automode E chat max_iterations goal s) in
  fst (ChatManager.handle_automode E chat max_iterations goal s) = Ret ()
  ∧ model_calls (world s') = model_calls (world s) + max_iterations
  ∧ automode s' = bool_decide (max_iterations = 0)
  ∧ (0 < max_iterations →
     ∃ printed,
       console (world s')
       = printed ++ [ Error "Max iterations reached. Exiting automode.";
                      Success "Exited automode. Returning to regular chat." ]).
Proof.
  intros Hchat Htick_automode Htick_calls s'.
  assert (∃ s1,
    ChatManager.handle_automode E chat max_iterations goal s
    = (Ret (), print (Success "Exited automode. Returning to regular chat.") s1)
    ∧ automode s1 = bool_decide (max_iterations = 0)
    ∧ model_calls (world s1) = model_calls (world s) + max_iterations
    ∧ (0 < max_iterations →
       last (console (world s1))
       = Some (Error "Max iterations reached. Exiting automode.")))
    as (s1 & Hrun & Hflag & Hcalls & Hlast).
  { unfold ChatManager.handle_automode, ChatManager.except_KeyboardInterrupt.
    unfold bind at 1, modify. unfold bind at 1. rewrite show_prints.
    unfold bind at 1. rewrite show_prints.
    unfold bind at 1.
    destruct max_iterations as [|n].
    - rewrite iteration_stopped
        by (cbn [ChatManager.iteration_count Nat.ltb Nat.leb]; apply andb_false_r).
      rewrite show_prints. eexists. split; [reflexivity|].
      split; [reflexivity|]. split; [cbn; lia|lia].
    - match goal with
      | |- context [ChatManager.automode_loop E chat (S n) ?vars ?s0] =>
          destruct (loop_without_completion chat tick (S n)
                      Hchat Htick_automode Htick_calls n vars s0)
            as (s1 & -> & Hoff & Hcalls & Hlast)
      end; [done|cbn [ChatManager.iteration_count]; lia|].
      rewrite show_prints. exists s1. split; [done|].
      split; [by rewrite bool_decide_eq_false_2|].
      split; [|done]. cbn in Hcalls. rewrite Hcalls. lia. }
  unfold s'. rewrite Hrun. cbn [fst snd].
  split; [done|]. split; [done|]. split; [done|].
  intros Hmax. apply Hlast, last_Some in Hmax as [printed Hprinted].
  exists printed. cbn. by rewrite Hprinted, <- app_assoc.
Qed.

End Automode_more.

(** * Search results *)

Section Search_results.

Lemma format_items_each items :
  Forall (λ item, is_dict item = true) items →
  ∃ formatted,
    TavilyClient.format_items items = Ret formatted
    ∧ Forall2 formatted_from items formatted.
Proof.
  induction 1 as [|item items Hitem _ (formatted & IH & Hall)].
  - exists []. split; [done|constructor].
  - destruct item as [| | | | |d]; try discriminate Hitem.
    eexists. cbn [TavilyClient.format_items]. rewrite IH.
    split; [reflexivity|]. constructor; [|done]. by exists d.
Qed.

(** X30. [_format_search_results] returns one entry per result, in
    order, each with exactly the keys [title], [url] and [content], a
    missing field as [None]; without a [results] key it returns the
    empty list. *)
Theorem format_search_results_fields (d : gmap string pyval) (items : list pyval) :
  d !! "results" = Some (VList items) →
  Forall (λ item, is_dict item = true) items →
  (∃ formatted,
     TavilyClient._format_search_results (VDict d) = Ret formatted
     ∧ Forall2 formatted_from items formatted
     ∧ length formatted = length items)
  ∧ ∀ d' : gmap string pyval,
      d' !! "results" = None →
      TavilyClient._format_search_results (VDict d') = Ret [].
Proof.
  intros Hresults Hitems. split.
  - destruct (format_items_each items Hitems) as (formatted & Hformat & Hall).
    exists formatted. unfold TavilyClient._format_search_results, py_get.
    rewrite Hresults. cbn [default py_iter]. split; [done|]. split; [done|].
    symmetry. by eapply Forall2_length.
  - intros d' Hnone. unfold TavilyClient._format_search_results, py_get.
    by rewrite Hnone.
Qed.

End Search_results.

(** * The further statements at the sample data *)

(** X2 at a history whose second message is left out by the filter. *)
Lemma filter_messages_stable_witness :
  Conversation.filter_messages [Message User (VStr "hi"); Scenario.marked_message]
  = Ret [Message User (VStr "hi")]
  ∧ Conversation.filter_messages [Message User (VStr "hi")]
    = Ret [Message User (VStr "hi")].
Proof.
  split; [reflexivity|].
  apply (filter_messages_stable
           [Message User (VStr "hi"); Scenario.marked_message]).
  reflexivity.
Defined.

(** X3 at the same history. *)
Lemma filter_messages_only_drops_witness :
  (msg_role <$> [Message User (VStr "hi")])
    `sublist_of` (msg_role <$> [Message User (VStr "hi"); Scenario.marked_message])
  ∧ length [Message User (VStr "hi")]
    ≤ length [Message User (VStr "hi"); Scenario.marked_message].
Proof.
  apply (filter_messages_only_drops
           [Message User (VStr "hi"); Scenario.marked_message]
           [Message User (VStr "hi")]).
  reflexivity.
Defined.

(** X4 at the first turn of the sample session. *)
Lemma turn_stores_plain_messages_witness :
  Forall stored_by_turns (Conversation.history (conversation Sample.session))
  ∧ Forall stored_by_turns
      (Conversation.history
         (conversation
            (snd (ChatManager.chat_with_claude
                    (Sample.externals Sample.backend_hello) Sample.handler
                    "hi" None None None Sample.session)))).
Proof.
  assert (Forall stored_by_turns
            (Conversation.history (conversation Sample.session))) as Hempty
    by constructor.
  split; [exact Hempty|].
  exact (proj1 (turn_stores_plain_messages
                  (Sample.externals Sample.backend_hello) Sample.handler
                  "hi" None None None Sample.session Hempty)).
Defined.

(** X5 at a run of two iterations from the sample session. *)
Lemma automode_stores_plain_messages_witness :
  Forall stored_by_turns (Conversation.history (conversation Sample.session))
  ∧ Forall stored_by_turns
      (Conversation.history
         (conversation
            (snd (ChatManager.handle_automode
                    (Sample.externals Sample.backend_hello)
                    (λ user_input current_iteration max_iterations,
                       ChatManager.chat_with_claude
                         (Sample.externals Sample.backend_hello) Sample.handler
                         user_input None current_iteration max_iterations)
                    2 "build the app" Sample.session)))).
Proof.
  assert (Forall stored_by_turns
            (Conversation.history (conversation Sample.session))) as Hempty
    by constructor.
  split; [exact Hempty|].
  exact (proj1 (automode_stores_plain_messages
                  (Sample.externals Sample.backend_hello) Sample.handler
                  2 "build the app" Sample.session Hempty)).
Defined.

(** X7 at a conversation of one message and two cached files, the
    second of which comes first in the order of the keys. *)
Lemma save_to_file_writes_history_witness :
  ["b.py"; "a.py"]
    ≡ₚ (map_to_list (Conversation.file_contents Scenario.saved_conversation)).*1
  ∧ fst (Conversation.save_to_file (Sample.externals Sample.backend_hello)
           "20240101_120000" ["b.py"; "a.py"]
           (Scenario.saved_conversation, Sample.files))
    = Ret "chat_history_20240101_120000.md"
  ∧ fs (snd (snd (Conversation.save_to_file (Sample.externals Sample.backend_hello)
                    "20240101_120000" ["b.py"; "a.py"]
                    (Scenario.saved_conversation, Sample.files))))
    !! ["home"; "user"; "project"; "chat_history_20240101_120000.md"]
    = Some ("# Chat History" +:+ nl +:+ nl +:+ "## User" +:+ nl +:+ nl
            +:+ "hi" +:+ nl +:+ nl +:+ "## File Contents" +:+ nl +:+ nl
            +:+ "### b.py" +:+ nl +:+ nl +:+ "```" +:+ nl +:+ "x = 1"
            +:+ nl +:+ "```" +:+ nl +:+ nl
            +:+ "### a.py" +:+ nl +:+ nl +:+ "```" +:+ nl +:+ "y = 2"
            +:+ nl +:+ "```" +:+ nl +:+ nl).
Proof.
  assert (["b.py"; "a.py"]
            ≡ₚ (map_to_list
                  (Conversation.file_contents Scenario.saved_conversation)).*1)
    as Hinserted.
  { unfold Scenario.saved_conversation. cbn [Conversation.file_contents].
    rewrite map_to_list_insert by reflexivity.
    by rewrite map_to_list_singleton. }
  split; [exact Hinserted|].
  destruct (save_to_file_writes_history (Sample.externals Sample.backend_hello)
              "20240101_120000" ["b.py"; "a.py"] Scenario.saved_conversation
              Sample.files) as [Hrun _].
  - repeat constructor.
  - exact Hinserted.
  - rewrite Hrun. split; reflexivity.
Defined.

(** X12 at an entry with an absolute path: the file written lies
    outside the [_generations] directory. *)
Lemma create_files_writes_where_the_path_says_witness :
  Scenario.foreign_file !! "path" = Some (VStr "/home/user/.bashrc")
  ∧ fs (snd (snd (FileOperations.create_files
                    (Sample.externals Sample.backend_hello)
                    (VList [VDict Scenario.foreign_file])
                    (FileOperations.init, Sample.files))))
    !! ["home"; "user"; ".bashrc"] = Some "echo hi".
Proof.
  split; [reflexivity|].
  destruct (create_files_writes_where_the_path_says
              (Sample.externals Sample.backend_hello) Scenario.foreign_file
              "/home/user/.bashrc" "echo hi" (FileOperations.init, Sample.files)
              eq_refl eq_refl) as [Hrun _].
  rewrite Hrun. reflexivity.
Defined.

(** X13 at a new file of the sample project, and at a file written
    with the line ends of another system. *)
Lemma create_then_read_round_trip_witness :
  fst (FileOperations.read_multiple_files (Sample.externals Sample.backend_hello)
         (VList [VStr "notes/todo.txt"])
         (snd (FileOperations.create_files (Sample.externals Sample.backend_hello)
                 (VList [Scenario.new_file])
                 (FileOperations.init, Sample.files))))
  = Ret (VDict {[ "notes/todo.txt" :=
                    VDict {[ "status" := VStr "success";
                             "content" := VStr "buy milk" ]} ]})
  ∧ fst (FileOperations.read_multiple_files (Sample.externals Sample.backend_hello)
           (VList [VStr "notes/dos.txt"])
           (snd (FileOperations.create_files (Sample.externals Sample.backend_hello)
                   (VList [VDict {[ "path" := VStr "notes/dos.txt";
                                    "content" := VStr ("a" +:+ cr +:+ nl +:+ "b" +:+ cr) ]}])
                   (FileOperations.init, Sample.files))))
    = Ret (VDict {[ "notes/dos.txt" :=
                      VDict {[ "status" := VStr "success";
                               "content" := VStr ("a" +:+ nl +:+ "b" +:+ nl) ]} ]}).
Proof.
  split.
  - exact (proj1 (create_then_read_round_trip
                    (Sample.externals Sample.backend_hello)
                    "notes/todo.txt" "buy milk" (FileOperations.init, Sample.files)
                    eq_refl)).
  - exact (proj1 (create_then_read_round_trip
                    (Sample.externals Sample.backend_hello)
                    "notes/dos.txt" ("a" +:+ cr +:+ nl +:+ "b" +:+ cr)
                    (FileOperations.init, Sample.files) eq_refl)).
Defined.

(** X14 at a project that lives below a directory named [venv]. *)
Lemma read_multiple_files_under_excluded_directory_witness :
  FileOperations.excluded (cwd (Scenario.externals "/srv/venv/app" [])) = true
  ∧ FileOperations.read_multiple_files (Scenario.externals "/srv/venv/app" [])
      (VList (VStr <$> ["main.py"; "lib/util.py"]))
      (FileOperations.init, Sample.files)
    = (Ret (VDict ∅), (FileOperations.init, Sample.files)).
Proof.
  split; [reflexivity|].
  apply (read_multiple_files_under_excluded_directory
           (Scenario.externals "/srv/venv/app" []) ["main.py"; "lib/util.py"]
           (FileOperations.init, Sample.files)).
  - reflexivity.
  - repeat constructor.
Defined.

(** X16 at instructions whose search text, between two no-break spaces,
    is not in the file. *)
Lemma apply_edits_without_match_witness :
  strip (utf8 [194; 160] +:+ "print(1)" +:+ utf8 [194; 160]) = "print(1)"
  ∧ FileOperations.apply_edits
      (Scenario.externals "/home/user/project"
         [(utf8 [194; 160] +:+ "print(1)" +:+ utf8 [194; 160], "print(2)")])
      "x = 1" "<SEARCH> print(1) </SEARCH><REPLACE>print(2)</REPLACE>"
    = "x = 1".
Proof.
  split; [reflexivity|].
  apply (apply_edits_without_match
           (Scenario.externals "/home/user/project"
              [(utf8 [194; 160] +:+ "print(1)" +:+ utf8 [194; 160], "print(2)")])).
  repeat constructor.
Defined.


(** X19 at [scan_folder], a tool of the catalog. *)
Lemma tool_without_a_branch_witness :
  "scan_folder" ∈ Config.tool_names
  ∧ ("scan_folder" ∉ tools_with_a_branch)
  ∧ ChatManager.run_tool (Sample.externals Sample.backend_hello) Sample.handler
      "scan_folder" (VDict ∅) Sample.session
    = (Ret (ChatManager.error_envelope "Unknown tool: scan_folder"),
       Sample.session).
Proof.
  assert ("scan_folder" ∉ tools_with_a_branch) as Hname.
  { unfold tools_with_a_branch. rewrite !not_elem_of_cons.
    repeat split; (discriminate || apply not_elem_of_nil). }
  split; [unfold Config.tool_names; set_solver|]. split; [exact Hname|].
  exact (tool_without_a_branch (Sample.externals Sample.backend_hello)
           Sample.handler "scan_folder" (VDict ∅) Sample.session Hname).
Defined.

(** X20 at a call of [read_multiple_files] with no argument. *)
Lemma execute_tool_contains_failures_witness :
  ChatManager.execute_tool (Sample.externals Sample.backend_hello) Sample.handler
    "read_multiple_files" (VDict ∅) Sample.session
  = (Ret (ChatManager.error_envelope
            "Error executing read_multiple_files: 'paths'"),
     Sample.session).
Proof.
  refine (proj1 (execute_tool_contains_failures
                   (Sample.externals Sample.backend_hello) Sample.handler
                   "read_multiple_files" "paths" ∅ Sample.session _ eq_refl)).
  unfold first_argument. set_solver.
Defined.

(** X21 at the sample tool call. *)
Lemma call_tool_records_the_call_witness :
  FileOperations.file_contents (file_ops Sample.session_after_call)
  !! "/home/user/project/_generations/list_files" = Some (VDict ∅)
  ∧ conversation Sample.session_after_call = conversation Sample.session.
Proof.
  destruct (call_tool_records_the_call (Sample.externals Sample.backend_down)
              Sample.handler Sample.turn_buffer "toolu_1" "list_files" (VDict ∅)
              (VDict {[ "status" := VStr "success"; "files" := VList [] ]})
              Sample.turn_buffer_after_call Sample.session
              Sample.session_after_call eq_refl) as (_ & Hcache & Hconversation).
  split; [exact Hcache|exact Hconversation].
Defined.

(** X23 at an image that cannot be encoded. *)
Lemma image_turn_without_image_witness :
  ChatManager.chat_with_claude (Sample.externals Sample.backend_hello)
    Sample.handler "what is this?" (Some "cat.png") None None Sample.session
  = (Ret ("Error processing the image. Please try again with a different image.",
          false),
     print (Info "Processing image at path: cat.png") Sample.session).
Proof.
  apply (image_turn_without_image (Sample.externals Sample.backend_hello)
           Sample.handler "what is this?" "cat.png" None None Sample.session).
  - discriminate.
  - reflexivity.
Defined.

(** X24 at a model that asks for a search and names no query. *)
Lemma tavily_search_without_query_aborts_the_turn_witness :
  fst (ChatManager.chat_with_claude (Sample.externals Scenario.backend_search)
         Sample.handler "search the web" None None None Sample.session)
  = Raise (KeyError "query").
Proof.
  apply (tavily_search_without_query_aborts_the_turn
           (Sample.externals Scenario.backend_search) Sample.handler
           "search the web" None None Sample.session
           (Response [ToolUseBlock "toolu_1" "tavily_search" (VDict ∅)] 20 5)
           "toolu_1" ∅ []).
  - constructor.
  - reflexivity.
  - reflexivity.
  - reflexivity.
Defined.

(** X25 at the first turn of the sample session. *)
Lemma regular_chat_turn_witness :
  Conversation.history
    (conversation
       (snd (ChatManager.handle_regular_chat (Sample.externals Sample.backend_hello)
               Sample.handler "hi" Sample.session)))
  = [Message User (VStr "hi")]
  ∧ TokenTracker.token_usage
      (token_tracker
         (snd (ChatManager.handle_regular_chat
                 (Sample.externals Sample.backend_hello)
                 Sample.handler "hi" Sample.session)))
    !! "main_model" = Some (12, 3)%Z.
Proof.
  destruct (regular_chat_turn (Sample.externals Sample.backend_hello)
              Sample.handler "hi" Sample.session [TextBlock "hello"] 12 3 0 0)
    as (_ & Hhistory & _ & Htokens & _).
  - constructor.
  - reflexivity.
  - reflexivity.
  - reflexivity.
  - split; [exact Hhistory|exact Htokens].
Defined.

(** X27 at one allowed iteration: both messages are printed. *)
Lemma automode_completes_on_first_reply_witness :
  console (world (snd (ChatManager.handle_automode
                         (Sample.externals Sample.backend_hello)
                         Scenario.completing_orchestrator 1 "build the app"
                         Sample.session)))
  = [ Info "Entering automode with 1 iterations. Please provide the goal of the automode.";
      Info "Press Ctrl+C at any time to exit the automode loop.";
      Success "Automode completed.";
      Error "Max iterations reached. Exiting automode.";
      Success "Exited automode. Returning to regular chat." ].
Proof.
  rewrite (automode_completes_on_first_reply
             (Sample.externals Sample.backend_hello)
             Scenario.completing_orchestrator 1 "build the app"
             "All done. AUTOMODE_COMPLETE" false Sample.session
             (count_request
                (print (Info "Press Ctrl+C at any time to exit the automode loop.")
                   (print (Info "Entering automode with 1 iterations. Please provide the goal of the automode.")
                      (set_automode true Sample.session))))).
  - reflexivity.
  - lia.
  - reflexivity.
  - reflexivity.
Defined.

(** X28 at an interrupt in the first of three iterations. *)
Lemma automode_interrupt_is_acknowledged_witness :
  fst (ChatManager.handle_automode (Sample.externals Sample.backend_hello)
         Scenario.interrupted_orchestrator 3 "build the app" Sample.session)
  = Ret ()
  ∧ Conversation.history
      (conversation
         (snd (ChatManager.handle_automode (Sample.externals Sample.backend_hello)
                 Scenario.interrupted_orchestrator 3 "build the app"
                 Sample.session)))
    = [Message Assistant
         (VStr "Automode interrupted. How can I assist you further?")].
Proof.
  rewrite (automode_interrupt_is_acknowledged
             (Sample.externals Sample.backend_hello)
             Scenario.interrupted_orchestrator 3 "build the app" Sample.session
             (count_request
                (print (Info "Press Ctrl+C at any time to exit the automode loop.")
                   (print (Info "Entering automode with 3 iterations. Please provide the goal of the automode.")
                      (set_automode true Sample.session))))).
  - split; reflexivity.
  - lia.
  - reflexivity.
Defined.

(** X29 at two iterations of an orchestrator that reports progress. *)
Lemma automode_uses_all_iterations_witness :
  model_calls (world (snd (ChatManager.handle_automode
                             (Sample.externals Sample.backend_hello)
                             Scenario.working_orchestrator 2 "build the app"
                             Sample.session)))
  = 2
  ∧ automode (snd (ChatManager.handle_automode
                     (Sample.externals Sample.backend_hello)
                     Scenario.working_orchestrator 2 "build the app"
                     Sample.session))
    = false.
Proof.
  destruct (automode_uses_all_iterations (Sample.externals Sample.backend_hello)
              Scenario.working_orchestrator count_request 2 "build the app"
              Sample.session) as (_ & Hcalls & Hoff & _).
  - intros u i m s. exists "working on it". split; reflexivity.
  - intros s. reflexivity.
  - intros s. reflexivity.
  - split; [exact Hcalls|exact Hoff].
Defined.

(** X30 at a response with one result that has a title only. *)
Lemma format_search_results_fields_witness :
  ∃ formatted,
    TavilyClient._format_search_results (VDict Scenario.search_response)
    = Ret formatted
    ∧ Forall2 formatted_from
        [VDict {[ "title" := VStr "Rocq"; "score" := VInt 1 ]}] formatted
    ∧ length formatted = 1.
Proof.
  refine (proj1 (format_search_results_fields Scenario.search_response
                   [VDict {[ "title" := VStr "Rocq"; "score" := VInt 1 ]}]
                   eq_refl _)).
  repeat constructor.
Defined.
